(** * Appointment lifecycle of the telemedicine server

    A shallow embedding of the Express controllers that drive an
    appointment through its life: [appointmentController.js]
    (bookAppointment, getMyAppointments, updateAppointmentStatus), the
    payment controller (createPayment, updatePaymentStatus) and the
    prescription controller (createPrescription, updatePrescription,
    startConsultation), together with the Mongoose schemas they save
    through.

    Conventions of the embedding.
    - A MongoDB collection is the list of its documents in insertion
      order; [_id] values are natural numbers.
    - A JavaScript [Date] is [option Z]: milliseconds since the epoch,
      [None] for Invalid Date.
    - Status and role fields are strings, as in the source, because the
      controllers test them against string literals.
    - A handler takes the request environment (authenticated user, the
      clock, the random suffix drawn by [generateTransactionId]) and the
      store, and returns the new store with the HTTP response: its status
      code and message.  The document sent in the body of a successful
      response is the stored one and is read from the new store.  The
      [catch] branch of every handler is the response 500 'Server error'
      with the store as it was before the failing [save].
    - A handler that only reads, or that writes a document it has read,
      is one step.  The three handlers that build a new document
      (bookAppointment, createPayment, createPrescription) are also given
      in two steps, the lookups and the [save()] of the new document,
      between which other requests are handled: the stores the server can
      reach include those where two such requests overlap. *)

From Stdlib Require Import ZArith List String Ascii Bool Arith Lia.
From Stdlib Require Import DecimalString Sorting.Sorted Sorting.Permutation.
Import ListNotations.

Local Open Scope Z_scope.

(** ** Values *)

Definition ObjectId := nat.
Bind Scope nat_scope with ObjectId.

(** [new Date(x)]: a valid instant, in milliseconds since the epoch, or
    Invalid Date. *)
Definition JsDate := option Z.

(** [a <= b] on dates: a comparison with Invalid Date (NaN) is false. *)
Definition date_le (a b : JsDate) : bool :=
  match a, b with
  | Some x, Some y => x <=? y
  | _, _ => false
  end.

(** The time value of a [Date] lies within 8.64e15 milliseconds of the
    epoch; [new Date(x)] is Invalid Date beyond. *)
Definition max_date : Z := 8640000000000000.

Definition new_Date (x : Z) : JsDate :=
  if (- max_date <=? x) && (x <=? max_date) then Some x else None.

(** JavaScript truthiness of an optional string field of a request body
    or query: [undefined], [null] and the empty string are falsy. *)
Definition truthy (s : option string) : bool :=
  match s with
  | Some v => negb (v =? "")%string
  | None => false
  end.

(** [Array.prototype.includes] on an array of string literals. *)
Definition includes (l : list string) (s : string) : bool :=
  existsb (String.eqb s) l.

(** ** Documents *)

Module User.
Record t := mk { _id : ObjectId; role : string }.
End User.

Module Appointment.
Record t := mk {
  _id : ObjectId;
  patientId : ObjectId;
  doctorId : ObjectId;
  dateTime : Z;
  note : option string;
  status : string;
  createdAt : Z
}.

Definition set_status (s : string) (a : t) : t :=
  mk (_id a) (patientId a) (doctorId a) (dateTime a) (note a) s (createdAt a).

(** The [enum] of the schema's [status] path. *)
Definition statuses : list string :=
  ["pending"; "confirmed"; "paid"; "consultation"; "completed"; "cancelled"]%string.
End Appointment.

(** The [enum] of the payment schema's [paymentMethod] path.  The path is
    required and restricted to these ten channels; the type carries that
    restriction. *)
Inductive PaymentMethod :=
| telebirr | cbe_birr | dashen_bank | awash_bank | bank_of_abyssinia
| united_bank | lion_bank | cooperative_bank | nib_bank | wegagen_bank.

Record PaymentDetails := mkDetails {
  phoneNumber : option string;
  accountNumber : option string;
  bankName : option string;
  referenceNumber : option string
}.

Module Payment.
Record t := mk {
  _id : ObjectId;
  appointmentId : ObjectId;
  patientId : ObjectId;
  doctorId : ObjectId;
  amount : Z;
  currency : string;
  paymentMethod : PaymentMethod;
  transactionId : string;
  status : string;
  paymentDetails : option PaymentDetails;
  notes : option string;
  createdAt : Z;
  updatedAt : Z
}.

Definition statuses : list string :=
  ["pending"; "completed"; "failed"; "cancelled"]%string.
End Payment.

Record Medication := mkMedication {
  med_name : string;
  med_dosage : string;
  med_frequency : string;
  med_duration : string;
  med_instructions : option string;
  med_quantity : option string
}.

Module Prescription.
Record t := mk {
  _id : ObjectId;
  appointmentId : ObjectId;
  doctorId : ObjectId;
  patientId : ObjectId;
  diagnosis : string;
  medications : list Medication;
  instructions : option string;
  followUpDate : option Z;
  notes : option string;
  status : string;
  createdAt : Z;
  updatedAt : Z
}.

Definition statuses : list string :=
  ["active"; "completed"; "cancelled"]%string.
End Prescription.

(** ** Collections *)

Class Document (A : Type) := doc_id : A -> ObjectId.

#[export] Instance User_Document : Document User.t := User._id.
#[export] Instance Appointment_Document : Document Appointment.t := Appointment._id.
#[export] Instance Payment_Document : Document Payment.t := Payment._id.
#[export] Instance Prescription_Document : Document Prescription.t := Prescription._id.

Section Collection.
Context {A : Type} `{Document A}.

(** [Model.findOne(filter)]: the first document that matches. *)
Definition findOne (f : A -> bool) (c : list A) : option A := find f c.

(** [Model.findById(id)]. *)
Definition findById (id : ObjectId) (c : list A) : option A :=
  findOne (fun d => (doc_id d =? id)%nat) c.

(** [doc.save()] of a document read from the collection: the stored
    document with the same [_id] is replaced. *)
Definition save (d : A) (c : list A) : list A :=
  map (fun x => if (doc_id x =? doc_id d)%nat then d else x) c.

(** [doc.save()] of a document built with [new Model(...)]. *)
Definition insert (d : A) (c : list A) : list A := c ++ [d].

(** [Model.findByIdAndUpdate(id, update)]. *)
Definition findByIdAndUpdate (id : ObjectId) (f : A -> A) (c : list A) : list A :=
  map (fun x => if (doc_id x =? id)%nat then f x else x) c.

(** The [_id] given to a new document: one not in the collection. *)
Definition new_id (c : list A) : ObjectId := S (list_max (map doc_id c)).
End Collection.

Record Store := mkStore {
  users : list User.t;
  appointments : list Appointment.t;
  payments : list Payment.t;
  prescriptions : list Prescription.t
}.

Definition with_appointments (l : list Appointment.t) (st : Store) : Store :=
  mkStore (users st) l (payments st) (prescriptions st).
Definition with_payments (l : list Payment.t) (st : Store) : Store :=
  mkStore (users st) (appointments st) l (prescriptions st).
Definition with_prescriptions (l : list Prescription.t) (st : Store) : Store :=
  mkStore (users st) (appointments st) (payments st) l.
Definition with_users (l : list User.t) (st : Store) : Store :=
  mkStore l (appointments st) (payments st) (prescriptions st).

(** ** Requests and responses *)

(** What a handler reads besides the store: [req.user], [new Date()] /
    [Date.now()], and the six characters drawn from [Math.random()]. *)
Record Env := mkEnv {
  user : User.t;
  now : Z;
  rnd : string
}.

(** [res.status(code).json({ message, ... })]. *)
Record Response := json {
  code : nat;
  message : string
}.

Definition server_error : Response := json 500 "Server error".

(** ** appointmentController.js *)

Definition minutes30 : Z := 30 * 60000.

(** The filter of the conflict query of [bookAppointment]: same doctor,
    [dateTime] between the two bounds ([$gte], [$lte]), status pending or
    confirmed. *)
Definition conflicting (doctorId : ObjectId) (lower upper : Z)
    (a : Appointment.t) : bool :=
  (Appointment.doctorId a =? doctorId)%nat
  && (lower <=? Appointment.dateTime a)
  && (Appointment.dateTime a <=? upper)
  && includes ["pending"; "confirmed"]%string (Appointment.status a).

Definition bookAppointment (env : Env) (st : Store)
    (doctorId : ObjectId) (dateTime : JsDate) (note : option string)
  : Store * Response :=
  let patientId := User._id (user env) in
  let doctor_ok :=
    match findById doctorId (users st) with
    | Some doctor => (User.role doctor =? "doctor")%string
    | None => false
    end in
  if negb doctor_ok then (st, json 404 "Doctor not found")
  else
    let appointmentDate := dateTime in
    if date_le appointmentDate (Some (now env))
    then (st, json 400 "Appointment must be in the future")
    else
      match appointmentDate with
      | None => (st, server_error) (* the query cannot cast Invalid Date *)
      | Some t =>
        (* thirty minutes before and after, each a [new Date(...)] *)
        match new_Date (t - minutes30), new_Date (t + minutes30) with
        | Some lower, Some upper =>
          match findOne (conflicting doctorId lower upper) (appointments st) with
          | Some _ => (st, json 400 "Time slot not available")
          | None =>
            let appointment :=
              Appointment.mk (new_id (appointments st)) patientId doctorId t note
                             "pending" (now env) in
            (with_appointments (insert appointment (appointments st)) st,
             json 201 "Appointment booked successfully")
          end
        | _, _ => (st, server_error) (* the query cannot cast Invalid Date *)
        end
      end.

(** [.sort({ dateTime: 1 })]: ascending by [dateTime]. *)
Fixpoint insert_by_dateTime (a : Appointment.t) (l : list Appointment.t)
  : list Appointment.t :=
  match l with
  | [] => [a]
  | b :: l' =>
    if Appointment.dateTime a <=? Appointment.dateTime b
    then a :: l
    else b :: insert_by_dateTime a l'
  end.

Definition sort_by_dateTime (l : list Appointment.t) : list Appointment.t :=
  fold_right insert_by_dateTime [] l.

(** The [filter] object that [getMyAppointments] builds, as a predicate
    on documents. *)
Definition my_filter (env : Env) (status upcoming : option string)
    (a : Appointment.t) : bool :=
  let userId := User._id (user env) in
  (if (User.role (user env) =? "patient")%string
   then (Appointment.patientId a =? userId)%nat
   else if (User.role (user env) =? "doctor")%string
        then (Appointment.doctorId a =? userId)%nat
        else true)
  && (if truthy status
      then match status with
           | Some s => (Appointment.status a =? s)%string
           | None => true
           end
      else true)
  && (match upcoming with
      | Some u => if (u =? "true")%string
                  then now env <=? Appointment.dateTime a
                  else true
      | None => true
      end).

Definition getMyAppointments (env : Env) (st : Store)
    (status upcoming : option string) : list Appointment.t :=
  sort_by_dateTime (filter (my_filter env status upcoming) (appointments st)).

Definition updateAppointmentStatus (env : Env) (st : Store)
    (id : ObjectId) (status : string) : Store * Response :=
  if negb (includes Appointment.statuses status)
  then (st, json 400 "Invalid status")
  else
    match findById id (appointments st) with
    | None => (st, json 404 "Appointment not found")
    | Some appointment =>
      if negb (Appointment.doctorId appointment =? User._id (user env))%nat
      then (st, json 403 "Not authorized")
      else
        let appointment := Appointment.set_status status appointment in
        (with_appointments (save appointment (appointments st)) st,
         json 200 "Appointment status updated successfully")
    end.

(** ** The payment controller *)

(** [generateTransactionId]: 'TXN', the decimal clock reading, and the
    random suffix. *)
Definition generateTransactionId (env : Env) : string :=
  ("TXN" ++ NilZero.string_of_int (Z.to_int (now env)) ++ rnd env)%string.

(** The unique index on [transactionId]: is the identifier held by a
    payment other than the one being written? *)
Definition transactionId_taken (txn : string) (self : ObjectId)
    (c : list Payment.t) : bool :=
  existsb (fun q => negb (Payment._id q =? self)%nat
                    && (Payment.transactionId q =? txn)%string) c.

Definition baseAmount : Z := 500.

(** The nested path [paymentDetails] as a document holds it: the fields
    that were given; an object with none of its four fields is not stored,
    like an absent one. *)
Definition stored_details (d : option PaymentDetails) : option PaymentDetails :=
  match d with
  | Some (mkDetails None None None None) => None
  | _ => d
  end.

Definition createPayment (env : Env) (st : Store)
    (appointmentId : ObjectId) (paymentMethod : PaymentMethod)
    (paymentDetails : option PaymentDetails) : Store * Response :=
  let patientId := User._id (user env) in
  match findById appointmentId (appointments st) with
  | None => (st, json 404 "Appointment not found")
  | Some appointment =>
    if negb (Appointment.patientId appointment =? patientId)%nat
    then (st, json 403 "Not authorized to pay for this appointment")
    else if negb (Appointment.status appointment =? "confirmed")%string
    then (st, json 400 "Appointment must be confirmed before payment")
    else
      (* new Payment({...}) and payment.save() *)
      let create :=
        (* appointment.doctorId was populated: null when the user is gone *)
        match findById (Appointment.doctorId appointment) (users st) with
        | None => (st, server_error)
        | Some doctor =>
          let amount := baseAmount in
          let payment :=
            Payment.mk (new_id (payments st)) appointmentId patientId
                       (User._id doctor) amount "ETB" paymentMethod
                       (generateTransactionId env) "pending"
                       (stored_details paymentDetails)
                       None (now env) (now env) in
          if transactionId_taken (Payment.transactionId payment)
                                 (Payment._id payment) (payments st)
          then (st, server_error)
          else (with_payments (insert payment (payments st)) st,
                json 201 "Payment created successfully")
        end in
      match findOne (fun p => (Payment.appointmentId p =? appointmentId)%nat)
                    (payments st) with
      | None => create
      | Some existingPayment =>
        if (Payment.status existingPayment =? "completed")%string
        then (st, json 400 "Payment already completed for this appointment")
        else if (Payment.status existingPayment =? "pending")%string
        then (st, json 400 "Payment already exists for this appointment")
        else if (Payment.status existingPayment =? "failed")%string
                || (Payment.status existingPayment =? "cancelled")%string
        then
          let existingPayment :=
            Payment.mk (Payment._id existingPayment)
                       (Payment.appointmentId existingPayment)
                       (Payment.patientId existingPayment)
                       (Payment.doctorId existingPayment)
                       (Payment.amount existingPayment)
                       (Payment.currency existingPayment)
                       paymentMethod
                       (generateTransactionId env)
                       "pending"
                       (stored_details paymentDetails)
                       (Some ""%string)
                       (Payment.createdAt existingPayment)
                       (now env) in
          if transactionId_taken (Payment.transactionId existingPayment)
                                 (Payment._id existingPayment) (payments st)
          then (st, server_error)
          else (with_payments (save existingPayment (payments st)) st,
                json 200 "Payment updated successfully")
        else create
      end
  end.

Definition updatePaymentStatus (env : Env) (st : Store)
    (id : ObjectId) (status : string) (notes : option string)
  : Store * Response :=
  if negb (includes Payment.statuses status)
  then (st, json 400 "Invalid status")
  else
    match findById id (payments st) with
    | None => (st, json 404 "Payment not found")
    | Some payment =>
      let isAuthorized :=
        (Payment.patientId payment =? User._id (user env))%nat
        || (Payment.doctorId payment =? User._id (user env))%nat
        || (User.role (user env) =? "admin")%string in
      if negb isAuthorized then (st, json 403 "Not authorized")
      else
        let payment :=
          Payment.mk (Payment._id payment) (Payment.appointmentId payment)
                     (Payment.patientId payment) (Payment.doctorId payment)
                     (Payment.amount payment) (Payment.currency payment)
                     (Payment.paymentMethod payment)
                     (Payment.transactionId payment)
                     status
                     (Payment.paymentDetails payment)
                     (if truthy notes then notes else Payment.notes payment)
                     (Payment.createdAt payment)
                     (now env) in
        let st := with_payments (save payment (payments st)) st in
        let st :=
          if (status =? "completed")%string
          then with_appointments
                 (findByIdAndUpdate (Payment.appointmentId payment)
                                    (Appointment.set_status "paid")
                                    (appointments st)) st
          else st in
        (st, json 200 "Payment status updated successfully")
    end.

(** ** The prescription controller *)

(** The body of a prescription request.  [medications] is [None] when the
    field is absent; an array, even an empty one, is a truthy value.
    [followUpDate] is [None] when the field is absent or falsy, and
    otherwise holds [new Date(followUpDate)]. *)
Record PrescriptionBody := mkBody {
  b_diagnosis : option string;
  b_medications : option (list Medication);
  b_instructions : option string;
  b_followUpDate : option JsDate;
  b_notes : option string;
  b_status : option string
}.

Definition from_option {A} (d : A) (o : option A) : A :=
  match o with Some v => v | None => d end.

(** The [required] paths of one medication line. *)
Definition medication_valid (m : Medication) : bool :=
  negb (med_name m =? "")%string && negb (med_dosage m =? "")%string
  && negb (med_frequency m =? "")%string && negb (med_duration m =? "")%string.

(** Schema validation run by [prescription.save()]: [diagnosis] is
    required, every medication line has its required paths, [status] is
    in the enum. *)
Definition prescription_valid (p : Prescription.t) : bool :=
  negb (Prescription.diagnosis p =? "")%string
  && forallb medication_valid (Prescription.medications p)
  && includes Prescription.statuses (Prescription.status p).

(** A date path holds [null] or a valid date; Invalid Date fails the cast. *)
Definition date_castable (d : option JsDate) : bool :=
  match d with
  | Some None => false
  | _ => true
  end.

Definition createPrescription (env : Env) (st : Store)
    (appointmentId : ObjectId) (body : PrescriptionBody) : Store * Response :=
  let doctorId := User._id (user env) in
  match findById appointmentId (appointments st) with
  | None => (st, json 404 "Appointment not found")
  | Some appointment =>
    if negb (Appointment.doctorId appointment =? doctorId)%nat
    then (st, json 403 "Not authorized to create prescription for this appointment")
    else if negb (Appointment.status appointment =? "consultation")%string
    then (st, json 400 "Appointment must be in consultation status")
    else
      match findOne (fun p => (Prescription.appointmentId p =? appointmentId)%nat)
                    (prescriptions st) with
      | Some _ => (st, json 400 "Prescription already exists for this appointment")
      | None =>
        let prescription :=
          Prescription.mk (new_id (prescriptions st)) appointmentId doctorId
                          (Appointment.patientId appointment)
                          (from_option ""%string (b_diagnosis body))
                          (from_option [] (b_medications body))
                          (b_instructions body)
                          (match b_followUpDate body with
                           | Some d => d
                           | None => None
                           end)
                          (b_notes body)
                          "active" (now env) (now env) in
        if date_castable (b_followUpDate body) && prescription_valid prescription
        then (with_prescriptions (insert prescription (prescriptions st)) st,
              json 201 "Prescription created successfully")
        else (st, server_error)
      end
  end.

Definition updatePrescription (env : Env) (st : Store)
    (id : ObjectId) (body : PrescriptionBody) : Store * Response :=
  let userId := User._id (user env) in
  match findById id (prescriptions st) with
  | None => (st, json 404 "Prescription not found")
  | Some prescription =>
    let isAuthorized :=
      (Prescription.doctorId prescription =? userId)%nat
      || (User.role (user env) =? "admin")%string in
    if negb isAuthorized then (st, json 403 "Not authorized")
    else
      let prescription :=
        Prescription.mk
          (Prescription._id prescription)
          (Prescription.appointmentId prescription)
          (Prescription.doctorId prescription)
          (Prescription.patientId prescription)
          (if truthy (b_diagnosis body)
           then from_option ""%string (b_diagnosis body)
           else Prescription.diagnosis prescription)
          (match b_medications body with
           | Some medications => medications
           | None => Prescription.medications prescription
           end)
          (if truthy (b_instructions body)
           then b_instructions body
           else Prescription.instructions prescription)
          (match b_followUpDate body with
           | Some (Some d) => Some d
           | _ => Prescription.followUpDate prescription
           end)
          (if truthy (b_notes body)
           then b_notes body
           else Prescription.notes prescription)
          (if truthy (b_status body)
           then from_option ""%string (b_status body)
           else Prescription.status prescription)
          (Prescription.createdAt prescription)
          (now env) in
      if date_castable (b_followUpDate body) && prescription_valid prescription
      then (with_prescriptions (save prescription (prescriptions st)) st,
            json 200 "Prescription updated successfully")
      else (st, server_error)
  end.

Definition startConsultation (env : Env) (st : Store)
    (appointmentId : ObjectId) : Store * Response :=
  let userId := User._id (user env) in
  match findById appointmentId (appointments st) with
  | None => (st, json 404 "Appointment not found")
  | Some appointment =>
    if negb (Appointment.doctorId appointment =? userId)%nat
    then (st, json 403 "Not authorized")
    else if negb (Appointment.status appointment =? "paid")%string
    then (st, json 400 "Appointment must be paid before starting consultation")
    else
      let appointment := Appointment.set_status "consultation" appointment in
      (with_appointments (save appointment (appointments st)) st,
       json 200 "Consultation started successfully")
  end.

(** ** The controller as a transition system *)

Inductive Request :=
| BookAppointment (doctorId : ObjectId) (dateTime : JsDate) (note : option string)
| UpdateAppointmentStatus (id : ObjectId) (status : string)
| CreatePayment (appointmentId : ObjectId) (paymentMethod : PaymentMethod)
                (paymentDetails : option PaymentDetails)
| UpdatePaymentStatus (id : ObjectId) (status : string) (notes : option string)
| CreatePrescription (appointmentId : ObjectId) (body : PrescriptionBody)
| UpdatePrescription (id : ObjectId) (body : PrescriptionBody)
| StartConsultation (appointmentId : ObjectId).

Definition handle (env : Env) (st : Store) (req : Request) : Store * Response :=
  match req with
  | BookAppointment d t n => bookAppointment env st d t n
  | UpdateAppointmentStatus id s => updateAppointmentStatus env st id s
  | CreatePayment a m d => createPayment env st a m d
  | UpdatePaymentStatus id s n => updatePaymentStatus env st id s n
  | CreatePrescription a b => createPrescription env st a b
  | UpdatePrescription id b => updatePrescription env st id b
  | StartConsultation a => startConsultation env st a
  end.

(** ** middleware/auth.js and the routes *)

(** [authorizeRoles(...roles)]: [None] stands for [next()]. *)
Definition authorizeRoles (roles : list string) (env : Env) : option Response :=
  if includes roles (User.role (user env)) then None
  else Some (json 403 ("Access denied. Required roles: "
                       ++ String.concat ", " roles)%string).

Definition isPatient : Env -> option Response := authorizeRoles ["patient"%string].
Definition isDoctor : Env -> option Response := authorizeRoles ["doctor"%string].

(** A handler behind a role check. *)
Definition guarded (check : Env -> option Response) (env : Env) (st : Store)
    (k : Store * Response) : Store * Response :=
  match check env with
  | Some refused => (st, refused)
  | None => k
  end.

(** The routes of appointmentRoutes.js, paymentRoutes.js and
    prescriptionRoutes.js for an authenticated caller. *)
Definition route (env : Env) (st : Store) (req : Request) : Store * Response :=
  match req with
  | BookAppointment _ _ _ => guarded isPatient env st (handle env st req)
  | UpdateAppointmentStatus _ _ => guarded isDoctor env st (handle env st req)
  | CreatePayment _ _ _ => guarded isPatient env st (handle env st req)
  | UpdatePaymentStatus _ _ _ => handle env st req
  | CreatePrescription _ _ => guarded isDoctor env st (handle env st req)
  | UpdatePrescription _ _ => guarded isDoctor env st (handle env st req)
  | StartConsultation _ => guarded isDoctor env st (handle env st req)
  end.

(** ** The creating handlers, step by step

    bookAppointment, createPayment and createPrescription await their
    lookups and then the [save()] of the document they built; in between
    the server handles other requests.  [Built doc] is such a handler
    after its lookups: the document is built and not yet saved.  The save
    step runs on the store of a later moment.  The [_id] of the document is
    drawn when it is built and differs from every other; the model gives
    it in the save step, from the collection the document goes into. *)
Inductive Lookup (A : Type) : Type :=
| Answered (r : Store * Response)
| Built (doc : A).

Arguments Answered {A} r.
Arguments Built {A} doc.

Definition bookAppointment_lookup (env : Env) (st : Store)
    (doctorId : ObjectId) (dateTime : JsDate) (note : option string)
  : Lookup Appointment.t :=
  let patientId := User._id (user env) in
  let doctor_ok :=
    match findById doctorId (users st) with
    | Some doctor => (User.role doctor =? "doctor")%string
    | None => false
    end in
  if negb doctor_ok then Answered (st, json 404 "Doctor not found")
  else
    let appointmentDate := dateTime in
    if date_le appointmentDate (Some (now env))
    then Answered (st, json 400 "Appointment must be in the future")
    else
      match appointmentDate with
      | None => Answered (st, server_error)
      | Some t =>
        match new_Date (t - minutes30), new_Date (t + minutes30) with
        | Some lower, Some upper =>
          match findOne (conflicting doctorId lower upper) (appointments st) with
          | Some _ => Answered (st, json 400 "Time slot not available")
          | None =>
            Built (Appointment.mk (new_id (appointments st)) patientId doctorId
                                  t note "pending" (now env))
          end
        | _, _ => Answered (st, server_error)
        end
      end.

(** [appointment.save()]. *)
Definition bookAppointment_save (st : Store) (doc : Appointment.t)
  : Store * Response :=
  let appointment :=
    Appointment.mk (new_id (appointments st)) (Appointment.patientId doc)
                   (Appointment.doctorId doc) (Appointment.dateTime doc)
                   (Appointment.note doc) (Appointment.status doc)
                   (Appointment.createdAt doc) in
  (with_appointments (insert appointment (appointments st)) st,
   json 201 "Appointment booked successfully").

(** createPayment up to [new Payment({...})].  The branch that writes a
    failed or cancelled payment again is answered within this step. *)
Definition createPayment_lookup (env : Env) (st : Store)
    (appointmentId : ObjectId) (paymentMethod : PaymentMethod)
    (paymentDetails : option PaymentDetails) : Lookup Payment.t :=
  let patientId := User._id (user env) in
  match findById appointmentId (appointments st) with
  | None => Answered (st, json 404 "Appointment not found")
  | Some appointment =>
    if negb (Appointment.patientId appointment =? patientId)%nat
    then Answered (st, json 403 "Not authorized to pay for this appointment")
    else if negb (Appointment.status appointment =? "confirmed")%string
    then Answered (st, json 400 "Appointment must be confirmed before payment")
    else
      let create :=
        match findById (Appointment.doctorId appointment) (users st) with
        | None => Answered (st, server_error)
        | Some doctor =>
          Built (Payment.mk (new_id (payments st)) appointmentId patientId
                            (User._id doctor) baseAmount "ETB" paymentMethod
                            (generateTransactionId env) "pending"
                            (stored_details paymentDetails)
                            None (now env) (now env))
        end in
      match findOne (fun p => (Payment.appointmentId p =? appointmentId)%nat)
                    (payments st) with
      | None => create
      | Some existingPayment =>
        if (Payment.status existingPayment =? "completed")%string
        then Answered
               (st, json 400 "Payment already completed for this appointment")
        else if (Payment.status existingPayment =? "pending")%string
        then Answered (st, json 400 "Payment already exists for this appointment")
        else if (Payment.status existingPayment =? "failed")%string
                || (Payment.status existingPayment =? "cancelled")%string
        then
          let existingPayment :=
            Payment.mk (Payment._id existingPayment)
                       (Payment.appointmentId existingPayment)
                       (Payment.patientId existingPayment)
                       (Payment.doctorId existingPayment)
                       (Payment.amount existingPayment)
                       (Payment.currency existingPayment)
                       paymentMethod
                       (generateTransactionId env)
                       "pending"
                       (stored_details paymentDetails)
                       (Some ""%string)
                       (Payment.createdAt existingPayment)
                       (now env) in
          if transactionId_taken (Payment.transactionId existingPayment)
                                 (Payment._id existingPayment) (payments st)
          then Answered (st, server_error)
          else Answered (with_payments (save existingPayment (payments st)) st,
                         json 200 "Payment updated successfully")
        else create
      end
  end.

(** [payment.save()] of the new payment: the pre-save hook sets
    [updatedAt], and the unique index on [transactionId] refuses an
    identifier held by a stored payment. *)
Definition createPayment_save (saved : Z) (st : Store) (doc : Payment.t)
  : Store * Response :=
  let payment :=
    Payment.mk (new_id (payments st)) (Payment.appointmentId doc)
               (Payment.patientId doc) (Payment.doctorId doc)
               (Payment.amount doc) (Payment.currency doc)
               (Payment.paymentMethod doc) (Payment.transactionId doc)
               (Payment.status doc) (Payment.paymentDetails doc)
               (Payment.notes doc) (Payment.createdAt doc) saved in
  if transactionId_taken (Payment.transactionId payment) (Payment._id payment)
                         (payments st)
  then (st, server_error)
  else (with_payments (insert payment (payments st)) st,
        json 201 "Payment created successfully").

(** createPrescription up to [new Prescription({...})].  A follow-up date
    that is Invalid Date makes the validation of the document fail; the
    document type has no Invalid Date, so that failure is answered here. *)
Definition createPrescription_lookup (env : Env) (st : Store)
    (appointmentId : ObjectId) (body : PrescriptionBody)
  : Lookup Prescription.t :=
  let doctorId := User._id (user env) in
  match findById appointmentId (appointments st) with
  | None => Answered (st, json 404 "Appointment not found")
  | Some appointment =>
    if negb (Appointment.doctorId appointment =? doctorId)%nat
    then Answered
           (st, json 403 "Not authorized to create prescription for this appointment")
    else if negb (Appointment.status appointment =? "consultation")%string
    then Answered (st, json 400 "Appointment must be in consultation status")
    else
      match findOne (fun p => (Prescription.appointmentId p =? appointmentId)%nat)
                    (prescriptions st) with
      | Some _ =>
        Answered (st, json 400 "Prescription already exists for this appointment")
      | None =>
        if date_castable (b_followUpDate body)
        then Built (Prescription.mk (new_id (prescriptions st)) appointmentId
                      doctorId (Appointment.patientId appointment)
                      (from_option ""%string (b_diagnosis body))
                      (from_option [] (b_medications body))
                      (b_instructions body)
                      (match b_followUpDate body with
                       | Some d => d
                       | None => None
                       end)
                      (b_notes body)
                      "active" (now env) (now env))
        else Answered (st, server_error)
      end
  end.

(** [prescription.save()] of the new prescription: schema validation, the
    pre-save hook on [updatedAt], insertion. *)
Definition createPrescription_save (saved : Z) (st : Store)
    (doc : Prescription.t) : Store * Response :=
  let prescription :=
    Prescription.mk (new_id (prescriptions st)) (Prescription.appointmentId doc)
                    (Prescription.doctorId doc) (Prescription.patientId doc)
                    (Prescription.diagnosis doc) (Prescription.medications doc)
                    (Prescription.instructions doc) (Prescription.followUpDate doc)
                    (Prescription.notes doc) (Prescription.status doc)
                    (Prescription.createdAt doc) saved in
  if prescription_valid prescription
  then (with_prescriptions (insert prescription (prescriptions st)) st,
        json 201 "Prescription created successfully")
  else (st, server_error).

(** [later st0 st]: the server, in store [st0], can come to store [st].
    The user collection is managed elsewhere (registration, deletion by an
    admin) and may change at any time; a request is handled in one step;
    or a creating handler looks up in some store on the way and saves in a
    later one.  The handlers are taken without the role checks of the
    routes, so that what holds along [later] holds through the routes. *)
Inductive later : Store -> Store -> Prop :=
| later_refl st : later st st
| later_users st0 st us : later st0 st -> later st0 (with_users us st)
| later_handle st0 st env req :
    later st0 st -> later st0 (fst (handle env st req))
| later_booked st0 st1 st env doctorId dateTime note doc :
    later st0 st1 ->
    bookAppointment_lookup env st1 doctorId dateTime note = Built doc ->
    later st1 st ->
    later st0 (fst (bookAppointment_save st doc))
| later_paid st0 st1 st env appointmentId paymentMethod paymentDetails doc saved :
    later st0 st1 ->
    createPayment_lookup env st1 appointmentId paymentMethod paymentDetails
    = Built doc ->
    later st1 st ->
    later st0 (fst (createPayment_save saved st doc))
| later_prescribed st0 st1 st env appointmentId body doc saved :
    later st0 st1 ->
    createPrescription_lookup env st1 appointmentId body = Built doc ->
    later st1 st ->
    later st0 (fst (createPrescription_save saved st doc)).

(** The stores the server can be in: it starts with no appointment,
    payment or prescription. *)
Definition reachable (st : Store) : Prop :=
  exists us, later (mkStore us [] [] []) st.

(** The transition graph of section 4.1 of the specification, edge by edge. *)
Definition spec_edges : list (string * string) :=
  [ ("pending", "confirmed"); ("confirmed", "paid");
    ("pending", "cancelled"); ("confirmed", "cancelled");
    ("paid", "consultation"); ("consultation", "completed");
    ("confirmed", "completed") ]%string.

Definition spec_transition (from to : string) : bool :=
  existsb (fun e => (fst e =? from)%string && (snd e =? to)%string) spec_edges.


(** ** Sample data

    Small stores and environments on which the properties below are
    evaluated. *)

Module Sample.
Definition doctor : User.t := User.mk 20 "doctor".
Definition patient : User.t := User.mk 10 "patient".
Definition stranger : User.t := User.mk 11 "patient".
Definition admin : User.t := User.mk 30 "admin".

Definition as_doctor : Env := mkEnv doctor 5 "A1B2C3".
Definition as_patient : Env := mkEnv patient 5 "A1B2C3".
Definition as_stranger : Env := mkEnv stranger 5 "A1B2C3".
Definition as_admin : Env := mkEnv admin 5 "A1B2C3".

(** The doctor, a day later. *)
Definition next_day : Env := mkEnv doctor 86400005 "D4E5F6".

Definition people : list User.t := [patient; stranger; doctor; admin].

Definition empty : Store := mkStore people [] [] [].

(** One appointment of [patient] with [doctor], in the given status. *)
Definition appt (s : string) : Appointment.t :=
  Appointment.mk 1 10 20 3600000 None s 5.

Definition one (s : string) : Store := mkStore people [appt s] [] [].

(** The payment of that appointment, in the given status. *)
Definition pay (s : string) : Payment.t :=
  Payment.mk 1 1 10 20 500 "ETB" telebirr "TXN4OLD000" s None None 4 4.

Definition billed (sa sp : string) : Store :=
  mkStore people [appt sa] [pay sp] [].

(** The clock and random suffix under which [pay] was created. *)
Definition earlier : Env := mkEnv patient 4 "OLD000".

(** The store [one "confirmed"] after an admin deleted the doctor's
    account. *)
Definition orphaned : Store := with_users [patient; admin] (one "confirmed").

Definition flu : PrescriptionBody :=
  mkBody (Some "Flu"%string)
         (Some [mkMedication "Paracetamol" "500mg" "2x/day" "5 days" None None])
         None None None None.

Definition rx : Prescription.t :=
  Prescription.mk 1 1 20 10 "Flu"
    [mkMedication "Paracetamol" "500mg" "2x/day" "5 days" None None]
    None None None "active" 5 5.

(** Three appointments of [doctor], stored out of chronological order. *)
Definition agenda : Store :=
  mkStore people
    [ Appointment.mk 1 10 20 9000000 None "confirmed" 5;
      Appointment.mk 2 11 20 3600000 None "pending" 5;
      Appointment.mk 3 10 20 7200000 None "confirmed" 5 ]
    [] [].


Definition treated : Store := mkStore people [appt "consultation"] [] [rx].

(** The store [treated] after the doctor marked the appointment completed. *)
Definition closed : Store := mkStore people [appt "completed"] [] [rx].

(** Two createPrescription calls of the doctor for the same appointment,
    both after their lookups in the store [one "consultation"]: each has
    built [rx].  The first saves, then the second. *)
Definition saved_once : Store :=
  fst (createPrescription_save 5 (one "consultation") rx).

Definition saved_twice : Store * Response :=
  createPrescription_save 5 saved_once rx.


(** Two patients pay for their appointments in the same millisecond and
    [Math.random] gives both the same suffix. *)
Definition same_instant : list (Env * Request) :=
  [ (as_patient, BookAppointment 20 (Some 3600000) None);
    (as_stranger, BookAppointment 20 (Some 9000000) None);
    (as_doctor, UpdateAppointmentStatus 1 "confirmed");
    (as_doctor, UpdateAppointmentStatus 2 "confirmed");
    (as_patient, CreatePayment 1 telebirr None);
    (as_stranger, CreatePayment 2 telebirr None) ].

(** A request that names no field but an empty medication list. *)
Definition no_medications : PrescriptionBody :=
  mkBody None (Some []) None None None None.

(** A request that sets the notes and sends the diagnosis empty. *)
Definition only_notes : PrescriptionBody :=
  mkBody (Some ""%string) None None None (Some "Rest"%string) None.
End Sample.

(** ** Invariants of the store *)

(** No two documents of a collection share their [_id]. *)
Definition unique_ids {A : Type} `{Document A} (c : list A) : Prop :=
  NoDup (map doc_id c).

(** What every reachable store satisfies: the [_id]s of payments and of
    prescriptions are unique, and a payment's status is a member of its
    enum. *)
Record store_inv (st : Store) : Prop := {
  inv_payment_ids : unique_ids (payments st);
  inv_payment_status :
    Forall (fun p => In (Payment.status p) Payment.statuses) (payments st);
  inv_prescription_ids : unique_ids (prescriptions st)
}.


Definition prescriptions_of (k : ObjectId) (st : Store) : list Prescription.t :=
  filter (fun p => (Prescription.appointmentId p =? k)%nat) (prescriptions st).

(** Ascending order of [dateTime]. *)
Definition by_dateTime (a b : Appointment.t) : Prop :=
  Appointment.dateTime a <= Appointment.dateTime b.

(** Every stored payment belongs to a stored appointment. *)
Definition payments_linked (st : Store) : Prop :=
  forall p, In p (payments st) ->
    findById (Payment.appointmentId p) (appointments st) <> None.

(** A sequence of requests, each with its own environment, sent through
    the routes in order; the responses are collected. *)
Fixpoint run (st : Store) (l : list (Env * Request)) : Store * list Response :=
  match l with
  | [] => (st, [])
  | (env, req) :: l' =>
    let (st1, r) := route env st req in
    let (st2, rs) := run st1 l' in
    (st2, r :: rs)
  end.

From Stdlib Require DecimalZ DecimalPos.

(** ** Reading documents *)

(** The answer of a read handler: [res.json(doc)], with status 200, or an
    error response.  The populated user paths of [doc] carry the name,
    e-mail and specialty of the users; [doc] is given here as it is
    stored. *)
Inductive Reply (A : Type) : Type :=
| Sent (doc : A)
| Failed (r : Response).

Arguments Sent {A} doc.
Arguments Failed {A} r.

(** The authorization test of the read handlers that run on a populated
    document: [doc.patientId._id === userId || doc.doctorId._id === userId
    || req.user.role === 'admin'].  A populated path is [null] when the
    user is gone, and reading [_id] of [null] throws: the handler then
    answers from its [catch] branch.  The operands are evaluated from left
    to right and only as far as needed.  [None] stands for authorized. *)
Definition populated_check (env : Env) (st : Store)
    (patientId doctorId : ObjectId) : option Response :=
  let userId := User._id (user env) in
  match findById patientId (users st) with
  | None => Some server_error
  | Some patient =>
    if (User._id patient =? userId)%nat then None
    else
      match findById doctorId (users st) with
      | None => Some server_error
      | Some doctor =>
        if (User._id doctor =? userId)%nat
           || (User.role (user env) =? "admin")%string
        then None
        else Some (json 403 "Not authorized")
      end
  end.

Definition getAppointmentById (env : Env) (st : Store) (id : ObjectId)
  : Reply Appointment.t :=
  match findById id (appointments st) with
  | None => Failed (json 404 "Appointment not found")
  | Some appointment =>
    match populated_check env st (Appointment.patientId appointment)
                          (Appointment.doctorId appointment) with
    | Some refused => Failed refused
    | None => Sent appointment
    end
  end.

Definition getPaymentById (env : Env) (st : Store) (id : ObjectId)
  : Reply Payment.t :=
  match findById id (payments st) with
  | None => Failed (json 404 "Payment not found")
  | Some payment =>
    match populated_check env st (Payment.patientId payment)
                          (Payment.doctorId payment) with
    | Some refused => Failed refused
    | None => Sent payment
    end
  end.

(** [getPaymentByAppointment] tests the participants on the appointment,
    whose user paths are not populated. *)
Definition getPaymentByAppointment (env : Env) (st : Store)
    (appointmentId : ObjectId) : Reply Payment.t :=
  let userId := User._id (user env) in
  match findById appointmentId (appointments st) with
  | None => Failed (json 404 "Appointment not found")
  | Some appointment =>
    let isAuthorized :=
      (Appointment.patientId appointment =? userId)%nat
      || (Appointment.doctorId appointment =? userId)%nat
      || (User.role (user env) =? "admin")%string in
    if negb isAuthorized then Failed (json 403 "Not authorized")
    else
      match findOne (fun p => (Payment.appointmentId p =? appointmentId)%nat)
                    (payments st) with
      | None => Failed (json 404 "No payment found for this appointment")
      | Some payment => Sent payment
      end
  end.

Definition getPrescriptionById (env : Env) (st : Store) (id : ObjectId)
  : Reply Prescription.t :=
  match findById id (prescriptions st) with
  | None => Failed (json 404 "Prescription not found")
  | Some prescription =>
    match populated_check env st (Prescription.patientId prescription)
                          (Prescription.doctorId prescription) with
    | Some refused => Failed refused
    | None => Sent prescription
    end
  end.

Definition getPrescriptionByAppointment (env : Env) (st : Store)
    (appointmentId : ObjectId) : Reply Prescription.t :=
  match findOne (fun p => (Prescription.appointmentId p =? appointmentId)%nat)
                (prescriptions st) with
  | None => Failed (json 404 "Prescription not found")
  | Some prescription =>
    match populated_check env st (Prescription.patientId prescription)
                          (Prescription.doctorId prescription) with
    | Some refused => Failed refused
    | None => Sent prescription
    end
  end.

(** [.sort({ createdAt: -1 })]: descending by a date path. *)
Section SortDescending.
Context {A : Type} (key : A -> Z).

Fixpoint insert_desc (a : A) (l : list A) : list A :=
  match l with
  | [] => [a]
  | b :: l' => if key b <=? key a then a :: l else b :: insert_desc a l'
  end.

Definition sort_desc (l : list A) : list A := fold_right insert_desc [] l.
End SortDescending.

(** The [filter] object of [getMyPayments] and [getMyPrescriptions]: the
    caller's side of the document by role, and the status when one is
    given. *)
Definition mine {A : Type} (patientId doctorId : A -> ObjectId)
    (status_of : A -> string) (env : Env) (status : option string) (d : A)
  : bool :=
  let userId := User._id (user env) in
  (if (User.role (user env) =? "patient")%string
   then (patientId d =? userId)%nat
   else if (User.role (user env) =? "doctor")%string
        then (doctorId d =? userId)%nat
        else true)
  && (if truthy status
      then match status with
           | Some s => (status_of d =? s)%string
           | None => true
           end
      else true).

Definition getMyPayments (env : Env) (st : Store) (status : option string)
  : list Payment.t :=
  sort_desc Payment.createdAt
    (filter (mine Payment.patientId Payment.doctorId Payment.status env status)
            (payments st)).

Definition getMyPrescriptions (env : Env) (st : Store) (status : option string)
  : list Prescription.t :=
  sort_desc Prescription.createdAt
    (filter (mine Prescription.patientId Prescription.doctorId
                  Prescription.status env status)
            (prescriptions st)).

(** ** userController.js: deleting an account *)

(** [Model.findByIdAndDelete(id)]: the first document with that [_id] is
    removed. *)
Fixpoint remove_by_id {A : Type} `{Document A} (id : ObjectId) (c : list A)
  : list A :=
  match c with
  | [] => []
  | x :: c' => if (doc_id x =? id)%nat then c' else x :: remove_by_id id c'
  end.

Definition isAdmin : Env -> option Response := authorizeRoles ["admin"%string].

Definition deleteUserAccount (env : Env) (st : Store) (id : ObjectId)
  : Store * Response :=
  match findById id (users st) with
  | None => (st, json 404 "User not found")
  | Some _ =>
    (with_users (remove_by_id id (users st)) st,
     json 200 "User deleted successfully")
  end.

(** ** Facts kept by every handled request *)

(** A payment or prescription carries the patient and the doctor of its
    appointment. *)
Definition payment_of_appointment (st : Store) (p : Payment.t) : Prop :=
  exists a, findById (Payment.appointmentId p) (appointments st) = Some a
            /\ Payment.patientId p = Appointment.patientId a
            /\ Payment.doctorId p = Appointment.doctorId a.

Definition prescription_of_appointment (st : Store) (p : Prescription.t) : Prop :=
  exists a, findById (Prescription.appointmentId p) (appointments st) = Some a
            /\ Prescription.patientId p = Appointment.patientId a
            /\ Prescription.doctorId p = Appointment.doctorId a.

(** Descending order of a date path. *)
Definition descending {A : Type} (key : A -> Z) (a b : A) : Prop :=
  key b <= key a.

(** What the handlers keep, besides [store_inv]: appointment [_id]s are
    unique and appointment statuses are in the enum; every payment has the
    fixed fee in ETB; transaction identifiers are pairwise distinct;
    payments and prescriptions carry the participants of their
    appointment; stored prescriptions pass the schema validation. *)
Record store_facts (st : Store) : Prop := {
  fact_appointment_ids : unique_ids (appointments st);
  fact_appointment_status :
    Forall (fun a => In (Appointment.status a) Appointment.statuses)
           (appointments st);
  fact_payment_amount :
    Forall (fun p => Payment.amount p = 500
                     /\ Payment.currency p = "ETB"%string) (payments st);
  fact_payment_transactionId :
    NoDup (map Payment.transactionId (payments st));
  fact_payment_of : Forall (payment_of_appointment st) (payments st);
  fact_prescription_of :
    Forall (prescription_of_appointment st) (prescriptions st);
  fact_prescription_valid :
    Forall (fun p => prescription_valid p = true) (prescriptions st)
}.

(** ** The prescription form of the doctor's client (create-prescription.tsx) *)

(** One medication row of the form: every field is a text input. *)
Record FormMedication := mkFormMedication {
  fm_name : string;
  fm_dosage : string;
  fm_frequency : string;
  fm_duration : string;
  fm_instructions : string;
  fm_quantity : string
}.

(** The state of the screen that goes into the request. *)
Record PrescriptionForm := mkForm {
  f_diagnosis : string;
  f_instructions : string;
  f_followUpDate : string;
  f_notes : string;
  f_medications : list FormMedication
}.

Definition blank_medication : FormMedication := mkFormMedication "" "" "" "" "" "".

(** [addMedication]: a blank row is appended. *)
Definition addMedication (medications : list FormMedication)
  : list FormMedication :=
  medications ++ [blank_medication].

(** [medications.filter((_, i) => i !== index)]. *)
Fixpoint without_index {A : Type} (index : nat) (l : list A) : list A :=
  match l, index with
  | [], _ => []
  | _ :: l', O => l'
  | x :: l', S i => x :: without_index i l'
  end.

(** [removeMedication]: the row is removed unless it is the only one. *)
Definition removeMedication (index : nat) (medications : list FormMedication)
  : list FormMedication :=
  if (1 <? List.length medications)%nat
  then without_index index medications
  else medications.

(** Truthiness of a string: the empty string is falsy. *)
Definition nonempty (s : string) : bool := negb (s =? "")%string.

(** The JSON of a medication row as the schema reads it. *)
Definition medication_of_row (m : FormMedication) : Medication :=
  mkMedication (fm_name m) (fm_dosage m) (fm_frequency m) (fm_duration m)
               (Some (fm_instructions m)) (Some (fm_quantity m)).

Section PrescriptionScreen.
(** [String.prototype.trim], and [new Date(s)] as the server evaluates it
    on the follow-up date of the request. *)
Variable trim : string -> string.
Variable parseDate : string -> JsDate.

(** The rows that pass the filter of [validateForm] and
    [handleCreatePrescription]. *)
Definition validMedications (form : PrescriptionForm) : list FormMedication :=
  filter (fun med => nonempty (trim (fm_name med))
                     && nonempty (trim (fm_dosage med))
                     && nonempty (trim (fm_frequency med))
                     && nonempty (trim (fm_duration med)))
         (f_medications form).

Definition validateForm (form : PrescriptionForm) : bool :=
  if negb (nonempty (trim (f_diagnosis form))) then false
  else if (List.length (validMedications form) =? 0)%nat then false
  else true.

(** [prescriptionData] as the server receives it: [followUpDate] is left
    out when it trims to the empty string. *)
Definition prescriptionData (form : PrescriptionForm) : PrescriptionBody :=
  mkBody (Some (trim (f_diagnosis form)))
         (Some (map medication_of_row (validMedications form)))
         (Some (trim (f_instructions form)))
         (if nonempty (trim (f_followUpDate form))
          then Some (parseDate (trim (f_followUpDate form)))
          else None)
         (Some (trim (f_notes form)))
         None.

(** [handleCreatePrescription]: nothing is sent when the form does not
    validate; otherwise the data goes to updatePrescription in edit mode
    ([existingPrescription] holds the [_id]) and to createPrescription
    otherwise.  [None] stands for no request. *)
Definition handleCreatePrescription (env : Env) (st : Store)
    (appointmentId : ObjectId) (existingPrescription : option ObjectId)
    (form : PrescriptionForm) : option (Store * Response) :=
  if negb (validateForm form) then None
  else
    match existingPrescription with
    | Some id => Some (route env st (UpdatePrescription id (prescriptionData form)))
    | None =>
      Some (route env st (CreatePrescription appointmentId (prescriptionData form)))
    end.
End PrescriptionScreen.

(** A [trim] for sample data: leading and trailing spaces are removed. *)
Fixpoint drop_spaces (s : string) : string :=
  match s with
  | String " " s' => drop_spaces s'
  | _ => s
  end.

Fixpoint reverse_string (acc s : string) : string :=
  match s with
  | EmptyString => acc
  | String c s' => reverse_string (String c acc) s'
  end.

Definition trim_spaces (s : string) : string :=
  reverse_string "" (drop_spaces (reverse_string "" (drop_spaces s))).

Module Screen.
Definition filled : PrescriptionForm :=
  mkForm " Flu " "" "" "rest"
         [ mkFormMedication "Paracetamol" "500mg" "2x/day" "5 days" "" "";
           mkFormMedication "" "" "" "" "" "";
           mkFormMedication "Ibuprofen" " " "1x/day" "3 days" "" "" ].

Definition no_date (s : string) : JsDate := None.
End Screen.

(** * Properties *)

(** Case analysis on the next test of a handler. *)
Ltac break_if :=
  match goal with
  | |- context [if ?b then _ else _] => destruct b eqn:?
  end.

Ltac break_match :=
  match goal with
  | |- context [match ?x with _ => _ end] => destruct x eqn:?
  end.

(** ** Collections *)

Lemma includes_In (l : list string) (s : string) :
  includes l s = true <-> In s l.
Proof.
  unfold includes. rewrite existsb_exists. split.
  - intros [x [Hin Heq]]. apply String.eqb_eq in Heq. now subst.
  - intros Hin. exists s. split; [assumption | apply String.eqb_refl].
Qed.

Lemma includes_not_In (l : list string) (s : string) :
  includes l s = false <-> ~ In s l.
Proof.
  rewrite <- includes_In. destruct (includes l s); split; congruence.
Qed.

Section CollectionFacts.
Context {A : Type} `{Document A}.

Lemma findById_map (g : A -> A) (id : ObjectId) (c : list A) :
  (forall x, doc_id (g x) = doc_id x) ->
  findById id (map g c) = option_map g (findById id c).
Proof.
  intros Hg. unfold findById, findOne.
  induction c as [|x c IH]; simpl; [reflexivity|].
  rewrite Hg. destruct (doc_id x =? id)%nat; [reflexivity | exact IH].
Qed.

Lemma findById_id (id : ObjectId) (c : list A) (d : A) :
  findById id c = Some d -> doc_id d = id /\ In d c.
Proof.
  unfold findById, findOne. intros Hf. apply find_some in Hf.
  destruct Hf as [Hin Heq]. apply Nat.eqb_eq in Heq. now split.
Qed.

Lemma findById_save (d : A) (id : ObjectId) (c : list A) :
  findById id (save d c)
  = option_map (fun x => if (doc_id x =? doc_id d)%nat then d else x)
               (findById id c).
Proof.
  unfold save. apply findById_map. intros x.
  destruct (doc_id x =? doc_id d)%nat eqn:E; [|reflexivity].
  apply Nat.eqb_eq in E. now symmetry.
Qed.

Lemma findById_save_same (d x : A) (c : list A) :
  findById (doc_id d) c = Some x ->
  findById (doc_id d) (save d c) = Some d.
Proof.
  intros Hf. rewrite findById_save, Hf. simpl.
  apply findById_id in Hf. destruct Hf as [-> _].
  now rewrite Nat.eqb_refl.
Qed.

Lemma findById_save_found (d x : A) (id : ObjectId) (c : list A) :
  findById id c = Some x -> doc_id d = id ->
  findById id (save d c) = Some d.
Proof. intros Hf <-. now apply (findById_save_same d x). Qed.

Lemma findById_save_other (d : A) (id : ObjectId) (c : list A) :
  id <> doc_id d -> findById id (save d c) = findById id c.
Proof.
  intros Hne. rewrite findById_save.
  destruct (findById id c) as [x|] eqn:Hf; [|reflexivity]. simpl.
  apply findById_id in Hf. destruct Hf as [Hx _].
  destruct (doc_id x =? doc_id d)%nat eqn:E; [|reflexivity].
  apply Nat.eqb_eq in E. congruence.
Qed.

Lemma findById_update (f : A -> A) (id id' : ObjectId) (c : list A) :
  (forall x, doc_id (f x) = doc_id x) ->
  findById id (findByIdAndUpdate id' f c)
  = option_map (fun x => if (doc_id x =? id')%nat then f x else x)
               (findById id c).
Proof.
  intros Hf. unfold findByIdAndUpdate. apply findById_map. intros x.
  destruct (doc_id x =? id')%nat; [apply Hf | reflexivity].
Qed.

Lemma findById_insert (d x : A) (id : ObjectId) (c : list A) :
  findById id c = Some x -> findById id (insert d c) = Some x.
Proof.
  unfold findById, findOne, insert. induction c as [|y c IH]; simpl.
  - discriminate.
  - destruct (doc_id y =? id)%nat; [trivial | exact IH].
Qed.

Lemma new_id_fresh (c : list A) (x : A) :
  In x c -> doc_id x <> new_id c.
Proof.
  intros Hin. unfold new_id.
  assert (Hle : (doc_id x <= list_max (map doc_id c))%nat).
  { pose proof (proj1 (list_max_le (map doc_id c) (list_max (map doc_id c)))
                      (Nat.le_refl _)) as Hall.
    rewrite Forall_forall in Hall. apply Hall. now apply in_map. }
  lia.
Qed.

Lemma findById_new_id (c : list A) : findById (new_id c) c = None.
Proof.
  destruct (findById (new_id c) c) as [x|] eqn:Hf; [|reflexivity].
  apply findById_id in Hf. destruct Hf as [Hid Hin].
  exfalso. now apply (new_id_fresh c x).
Qed.

Lemma findOne_insert (f : A -> bool) (d : A) (c : list A) :
  findOne f (insert d c)
  = match findOne f c with
    | Some x => Some x
    | None => if f d then Some d else None
    end.
Proof.
  unfold findOne, insert. induction c as [|y c IH]; simpl.
  - reflexivity.
  - destruct (f y); [reflexivity | exact IH].
Qed.

Lemma findById_insert_new (d : A) (c : list A) :
  doc_id d = new_id c -> findById (doc_id d) (insert d c) = Some d.
Proof.
  intros Hd. unfold findById. rewrite findOne_insert.
  fold (findById (doc_id d) c). rewrite Hd at 1.
  rewrite findById_new_id. now rewrite Nat.eqb_refl.
Qed.
End CollectionFacts.

(** ** updateAppointmentStatus: order of the checks *)

(** C10. In updateStatus the enum membership of the new status is checked
    before the appointment is looked up: a status outside
    pending, confirmed, paid, consultation, completed, cancelled is
    answered 400 'Invalid status' whatever the store holds, also when the
    appointment does not exist; so a 404 answer implies that the status is
    a member of the enum (and that the appointment is missing). *)
Theorem updateStatus_validates_before_lookup
    (env : Env) (st : Store) (id : ObjectId) (status : string) :
  (~ In status Appointment.statuses ->
   updateAppointmentStatus env st id status = (st, json 400 "Invalid status"))
  /\ (code (snd (updateAppointmentStatus env st id status)) = 404%nat ->
      In status Appointment.statuses /\ findById id (appointments st) = None).
Proof.
  unfold updateAppointmentStatus. split.
  - intros Hnot. apply includes_not_In in Hnot. now rewrite Hnot.
  - destruct (includes Appointment.statuses status) eqn:Hinc; simpl.
    + apply includes_In in Hinc.
      destruct (findById id (appointments st)) as [a|]; [|now split].
      destruct (Appointment.doctorId a =? User._id (user env))%nat;
        simpl; discriminate.
    + discriminate.
Qed.

Lemma updateStatus_validates_before_lookup_witness :
  updateAppointmentStatus Sample.as_doctor Sample.empty 99 "archived"
  = (Sample.empty, json 400 "Invalid status").
Proof.
  apply (updateStatus_validates_before_lookup
           Sample.as_doctor Sample.empty 99 "archived").
  simpl. intuition discriminate.
Defined.

(** ** startConsultation *)



(** ** How the status of an appointment changes *)

(** C1, as the code has it. Under the operations of the controller the
    status of a stored appointment changes in three ways only:
    updateStatus by the appointment's doctor, which writes any value of
    the enum whatever the current status is (no transition graph is
    consulted); startConsultation by the appointment's doctor, from 'paid'
    to 'consultation'; and updatePaymentStatus to 'completed' on a payment
    of the appointment, which writes 'paid'.  Every other request leaves
    the appointment as it was. *)
Theorem status_changes
    (env : Env) (st : Store) (id : ObjectId) (a : Appointment.t) :
  findById id (appointments st) = Some a ->
  (forall s, In s Appointment.statuses ->
     Appointment.doctorId a = User._id (user env) ->
     snd (updateAppointmentStatus env st id s)
     = json 200 "Appointment status updated successfully"
     /\ findById id (appointments (fst (updateAppointmentStatus env st id s)))
        = Some (Appointment.set_status s a))
  /\ (forall req, exists a',
        findById id (appointments (fst (handle env st req))) = Some a'
        /\ (a' = a
            \/ (exists s, req = UpdateAppointmentStatus id s
                  /\ In s Appointment.statuses
                  /\ Appointment.doctorId a = User._id (user env)
                  /\ a' = Appointment.set_status s a)
            \/ (req = StartConsultation id
                /\ Appointment.doctorId a = User._id (user env)
                /\ Appointment.status a = "paid"%string
                /\ a' = Appointment.set_status "consultation" a)
            \/ (exists pid notes p,
                  req = UpdatePaymentStatus pid "completed" notes
                  /\ findById pid (payments st) = Some p
                  /\ Payment.appointmentId p = id
                  /\ a' = Appointment.set_status "paid" a))).
Proof.
  intros Hfind.
  pose proof (findById_id _ _ _ Hfind) as [Hid _].
  split.
  - intros s Hs Hdoc. unfold updateAppointmentStatus.
    apply includes_In in Hs. rewrite Hs, Hfind. simpl.
    apply Nat.eqb_eq in Hdoc. rewrite Hdoc. simpl. split; [reflexivity|].
    subst id. exact (findById_save_same (Appointment.set_status s a) a _ Hfind).
  - intros [d t n | id0 s | a0 m d | pid s n | a0 b | id0 b | id0]; simpl.
    + (* bookAppointment *)
      exists a. split; [|now left]. unfold bookAppointment.
      repeat (first [break_if | break_match]); simpl; try exact Hfind.
      now apply findById_insert.
    + (* updateAppointmentStatus *)
      unfold updateAppointmentStatus.
      destruct (includes Appointment.statuses s) eqn:Hs; simpl;
        [|exists a; split; [exact Hfind | now left]].
      destruct (findById id0 (appointments st)) as [x|] eqn:Hx;
        [|exists a; split; [exact Hfind | now left]].
      destruct (Appointment.doctorId x =? User._id (user env))%nat eqn:Hdoc; simpl;
        [|exists a; split; [exact Hfind | now left]].
      pose proof (findById_id _ _ _ Hx) as [Hxid _].
      rewrite findById_save, Hfind. simpl.
      change (doc_id (Appointment.set_status s x)) with (doc_id x).
      destruct (doc_id a =? doc_id x)%nat eqn:E.
      * apply Nat.eqb_eq in E.
        assert (id0 = id) by congruence. subst id0.
        assert (x = a) by congruence. subst x.
        exists (Appointment.set_status s a). split; [reflexivity|].
        right; left. exists s. apply includes_In in Hs. apply Nat.eqb_eq in Hdoc.
        split; [congruence|]. split; [assumption|]. split; [assumption|reflexivity].
      * exists a. split; [reflexivity | now left].
    + (* createPayment *)
      exists a. split; [|now left]. unfold createPayment.
      repeat (first [break_if | break_match]); simpl; exact Hfind.
    + (* updatePaymentStatus *)
      unfold updatePaymentStatus.
      destruct (includes Payment.statuses s) eqn:Hs; simpl;
        [|exists a; split; [exact Hfind | now left]].
      destruct (findById pid (payments st)) as [p|] eqn:Hp;
        [|exists a; split; [exact Hfind | now left]].
      break_if; simpl; [exists a; split; [exact Hfind | now left]|].
      destruct (s =? "completed")%string eqn:Hc; simpl;
        [|exists a; split; [exact Hfind | now left]].
      apply String.eqb_eq in Hc. subst s.
      rewrite findById_update by reflexivity. rewrite Hfind. simpl.
      destruct (doc_id a =? Payment.appointmentId p)%nat eqn:E.
      * apply Nat.eqb_eq in E.
        exists (Appointment.set_status "paid" a). split; [reflexivity|].
        right; right; right. exists pid, n, p.
        repeat split; congruence.
      * exists a. split; [reflexivity | now left].
    + (* createPrescription *)
      exists a. split; [|now left]. unfold createPrescription.
      repeat (first [break_if | break_match]); simpl; exact Hfind.
    + (* updatePrescription *)
      exists a. split; [|now left]. unfold updatePrescription.
      repeat (first [break_if | break_match]); simpl; exact Hfind.
    + (* startConsultation *)
      unfold startConsultation.
      destruct (findById id0 (appointments st)) as [x|] eqn:Hx;
        [|exists a; split; [exact Hfind | now left]].
      destruct (Appointment.doctorId x =? User._id (user env))%nat eqn:Hdoc; simpl;
        [|exists a; split; [exact Hfind | now left]].
      destruct (Appointment.status x =? "paid")%string eqn:Hpaid; simpl;
        [|exists a; split; [exact Hfind | now left]].
      pose proof (findById_id _ _ _ Hx) as [Hxid _].
      rewrite findById_save, Hfind. simpl.
      change (doc_id (Appointment.set_status "consultation" x)) with (doc_id x).
      destruct (doc_id a =? doc_id x)%nat eqn:E.
      * apply Nat.eqb_eq in E.
        assert (id0 = id) by congruence. subst id0.
        assert (x = a) by congruence. subst x.
        exists (Appointment.set_status "consultation" a). split; [reflexivity|].
        right; right; left.
        apply Nat.eqb_eq in Hdoc. apply String.eqb_eq in Hpaid.
        split; [congruence|]. split; [assumption|]. split; [assumption|reflexivity].
      * exists a. split; [reflexivity | now left].
Qed.

Lemma status_changes_witness :
  findById 1 (appointments
                (fst (updateAppointmentStatus Sample.as_doctor
                        (Sample.one "cancelled") 1 "pending")))
  = Some (Sample.appt "pending").
Proof.
  apply (status_changes Sample.as_doctor (Sample.one "cancelled") 1
                        (Sample.appt "cancelled") eq_refl).
  - simpl. tauto.
  - reflexivity.
Defined.



(** ** Keys of a collection *)

Section KeyFacts.
Context {A : Type} `{Document A} (key : A -> ObjectId).

Lemma map_doc_id_save (d : A) (c : list A) :
  map doc_id (save d c) = map doc_id c.
Proof.
  unfold save. rewrite map_map. apply map_ext. intros x.
  destruct (doc_id x =? doc_id d)%nat eqn:E; [|reflexivity].
  apply Nat.eqb_eq in E. now symmetry.
Qed.

Lemma unique_ids_eq (c : list A) (x y : A) :
  unique_ids c -> In x c -> In y c -> doc_id x = doc_id y -> x = y.
Proof.
  unfold unique_ids. induction c as [|z c IH]; simpl; [contradiction|].
  intros Hnd Hx Hy Heq. inversion Hnd as [|? ? Hnotin Hnd']; subst.
  destruct Hx as [-> | Hx], Hy as [-> | Hy].
  - reflexivity.
  - exfalso. apply Hnotin. rewrite Heq. now apply in_map.
  - exfalso. apply Hnotin. rewrite <- Heq. now apply in_map.
  - now apply IH.
Qed.


Lemma findOne_key_None (k : ObjectId) (c : list A) :
  findOne (fun p => (key p =? k)%nat) c = None <-> ~ In k (map key c).
Proof.
  unfold findOne. induction c as [|x c IH]; simpl.
  - tauto.
  - destruct (key x =? k)%nat eqn:E.
    + apply Nat.eqb_eq in E. split; [discriminate | tauto].
    + apply Nat.eqb_neq in E. tauto.
Qed.

Lemma findOne_key_In (p : A) (c : list A) :
  NoDup (map key c) -> In p c ->
  findOne (fun q => (key q =? key p)%nat) c = Some p.
Proof.
  unfold findOne. induction c as [|x c IH]; simpl; [contradiction|].
  intros Hnd Hin. inversion Hnd as [|? ? Hnotin Hnd']; subst.
  destruct Hin as [-> | Hin].
  - now rewrite Nat.eqb_refl.
  - destruct (key x =? key p)%nat eqn:E; [|now apply IH].
    apply Nat.eqb_eq in E. exfalso. apply Hnotin. rewrite E. now apply in_map.
Qed.

Lemma NoDup_map_insert (d : A) (c : list A) :
  NoDup (map key c) -> ~ In (key d) (map key c) ->
  NoDup (map key (insert d c)).
Proof.
  intros Hnd Hnotin. unfold insert. rewrite map_app. simpl.
  apply NoDup_app.
  - exact Hnd.
  - repeat constructor. simpl. tauto.
  - intros k Hk [<- | []]. contradiction.
Qed.

End KeyFacts.

Lemma unique_ids_insert {A : Type} `{Document A} (d : A) (c : list A) :
  unique_ids c -> doc_id d = new_id c -> unique_ids (insert d c).
Proof.
  intros Hu Hd. apply (NoDup_map_insert doc_id); [exact Hu|].
  intros Hin. apply in_map_iff in Hin. destruct Hin as [x [Hx Hin]].
  apply (new_id_fresh c x Hin). congruence.
Qed.

Lemma unique_ids_save {A : Type} `{Document A} (d : A) (c : list A) :
  unique_ids c -> unique_ids (save d c).
Proof. unfold unique_ids. now rewrite map_doc_id_save. Qed.

Lemma Forall_save {A : Type} `{Document A} (P : A -> Prop) (d : A) (c : list A) :
  Forall P c -> P d -> Forall P (save d c).
Proof.
  intros Hall Hd. unfold save. apply Forall_map.
  apply Forall_impl with (P := P); [|exact Hall].
  intros x Hx. now destruct (doc_id x =? doc_id d)%nat.
Qed.

Lemma Forall_insert {A : Type} `{Document A} (P : A -> Prop) (d : A) (c : list A) :
  Forall P c -> P d -> Forall P (insert d c).
Proof.
  intros Hall Hd. unfold insert. apply Forall_app. split; [exact Hall|].
  now constructor.
Qed.

(** ** The invariant holds in every reachable store *)

Lemma store_inv_same (st st' : Store) :
  payments st' = payments st -> prescriptions st' = prescriptions st ->
  store_inv st -> store_inv st'.
Proof.
  intros Hp Hr [I1 I2 I3]. constructor; rewrite ?Hp, ?Hr; assumption.
Qed.

Lemma bookAppointment_inv env st d t n :
  store_inv st -> store_inv (fst (bookAppointment env st d t n)).
Proof.
  intros Hinv. unfold bookAppointment.
  repeat (first [break_if | break_match]); simpl; try exact Hinv;
    now apply (store_inv_same st).
Qed.

Lemma updateAppointmentStatus_inv env st id s :
  store_inv st -> store_inv (fst (updateAppointmentStatus env st id s)).
Proof.
  intros Hinv. unfold updateAppointmentStatus.
  repeat (first [break_if | break_match]); simpl; try exact Hinv;
    now apply (store_inv_same st).
Qed.

Lemma startConsultation_inv env st id :
  store_inv st -> store_inv (fst (startConsultation env st id)).
Proof.
  intros Hinv. unfold startConsultation.
  repeat (first [break_if | break_match]); simpl; try exact Hinv;
    now apply (store_inv_same st).
Qed.

Lemma createPayment_inv env st a m d :
  store_inv st -> store_inv (fst (createPayment env st a m d)).
Proof.
  intros Hinv. pose proof Hinv as [I1 I2 I3]. unfold createPayment.
  assert (Hsave : forall p, In (Payment.status p) Payment.statuses ->
            store_inv (with_payments (save p (payments st)) st)).
  { intros p Hs. constructor; simpl; try assumption.
    - now apply unique_ids_save.
    - now apply Forall_save. }
  assert (Hinsert : forall p, Payment._id p = new_id (payments st) ->
            In (Payment.status p) Payment.statuses ->
            store_inv (with_payments (insert p (payments st)) st)).
  { intros p Hid Hs. constructor; simpl; try assumption.
    - now apply unique_ids_insert.
    - now apply Forall_insert. }
  repeat (first [break_if | break_match]); simpl; try exact Hinv;
    first [apply Hsave | apply Hinsert]; simpl; tauto.
Qed.

Lemma updatePaymentStatus_inv env st id s n :
  store_inv st -> store_inv (fst (updatePaymentStatus env st id s n)).
Proof.
  intros Hinv. pose proof Hinv as [I1 I2 I3]. unfold updatePaymentStatus.
  destruct (includes Payment.statuses s) eqn:Hs; simpl; [|exact Hinv].
  apply includes_In in Hs.
  destruct (findById id (payments st)) as [p|] eqn:Hp; [|exact Hinv].
  break_if; [exact Hinv|]. simpl.
  assert (store_inv (with_payments
            (save (Payment.mk (Payment._id p) (Payment.appointmentId p)
                     (Payment.patientId p) (Payment.doctorId p)
                     (Payment.amount p) (Payment.currency p)
                     (Payment.paymentMethod p) (Payment.transactionId p) s
                     (Payment.paymentDetails p)
                     (if truthy n then n else Payment.notes p)
                     (Payment.createdAt p) (now env)) (payments st)) st))
    as Hinv'.
  { constructor; simpl; try assumption.
    - now apply unique_ids_save.
    - apply Forall_save; [assumption|]. exact Hs. }
  break_if; [|exact Hinv'].
  eapply store_inv_same; [| |exact Hinv']; reflexivity.
Qed.

Lemma createPrescription_inv env st a b :
  store_inv st -> store_inv (fst (createPrescription env st a b)).
Proof.
  intros Hinv. pose proof Hinv as [I1 I2 I3]. unfold createPrescription.
  repeat (first [break_if | break_match]); simpl; try exact Hinv;
    constructor; simpl; try assumption; now apply unique_ids_insert.
Qed.

Lemma updatePrescription_inv env st id b :
  store_inv st -> store_inv (fst (updatePrescription env st id b)).
Proof.
  intros Hinv. pose proof Hinv as [I1 I2 I3]. unfold updatePrescription.
  repeat (first [break_if | break_match]); simpl; try exact Hinv;
    constructor; simpl; try assumption; now apply unique_ids_save.
Qed.

Lemma handle_inv env st req :
  store_inv st -> store_inv (fst (handle env st req)).
Proof.
  destruct req; simpl.
  - apply bookAppointment_inv.
  - apply updateAppointmentStatus_inv.
  - apply createPayment_inv.
  - apply updatePaymentStatus_inv.
  - apply createPrescription_inv.
  - apply updatePrescription_inv.
  - apply startConsultation_inv.
Qed.

(** ** The two steps of a creating handler *)

(** Looking up and saving in the same store is the handler. *)
Lemma bookAppointment_steps env st d t n :
  bookAppointment env st d t n
  = match bookAppointment_lookup env st d t n with
    | Answered r => r
    | Built doc => bookAppointment_save st doc
    end.
Proof.
  unfold bookAppointment, bookAppointment_lookup.
  repeat (first [break_if | break_match]); reflexivity.
Qed.

Lemma createPayment_steps env st a m d :
  createPayment env st a m d
  = match createPayment_lookup env st a m d with
    | Answered r => r
    | Built doc => createPayment_save (now env) st doc
    end.
Proof.
  unfold createPayment, createPayment_lookup, createPayment_save.
  repeat (first [break_if | break_match]); simpl in *;
    solve [reflexivity | congruence].
Qed.

Lemma createPrescription_steps env st a b :
  createPrescription env st a b
  = match createPrescription_lookup env st a b with
    | Answered r => r
    | Built doc => createPrescription_save (now env) st doc
    end.
Proof.
  unfold createPrescription, createPrescription_lookup, createPrescription_save.
  destruct (findById a (appointments st)); [|reflexivity].
  break_if; [reflexivity|]. break_if; [reflexivity|].
  break_match; [reflexivity|].
  destruct (date_castable (b_followUpDate b)); reflexivity.
Qed.

(** What the lookups establish about the document they build. *)
Lemma bookAppointment_built env st d t n doc :
  bookAppointment_lookup env st d t n = Built doc ->
  Appointment.status doc = "pending"%string.
Proof.
  unfold bookAppointment_lookup.
  repeat (first [break_if | break_match]); try discriminate.
  intros Heq. injection Heq as <-. reflexivity.
Qed.

Lemma createPayment_built env st a m d doc :
  createPayment_lookup env st a m d = Built doc ->
  payment_of_appointment st doc
  /\ Payment.amount doc = 500
  /\ Payment.currency doc = "ETB"%string
  /\ Payment.status doc = "pending"%string.
Proof.
  unfold createPayment_lookup.
  destruct (findById a (appointments st)) as [appt|] eqn:Ha; [|discriminate].
  destruct (Appointment.patientId appt =? User._id (user env))%nat eqn:Hpat;
    simpl; [|discriminate].
  apply Nat.eqb_eq in Hpat.
  break_if; [discriminate|].
  assert (Hcreate : forall doctor,
            findById (Appointment.doctorId appt) (users st) = Some doctor ->
            Built (Payment.mk (new_id (payments st)) a (User._id (user env))
                     (User._id doctor) baseAmount "ETB" m
                     (generateTransactionId env) "pending" (stored_details d)
                     None (now env) (now env)) = Built doc ->
            payment_of_appointment st doc
            /\ Payment.amount doc = 500
            /\ Payment.currency doc = "ETB"%string
            /\ Payment.status doc = "pending"%string).
  { intros doctor Hd Heq. injection Heq as <-.
    pose proof (findById_id _ _ _ Hd) as [Hdid _].
    split; [|repeat split]. exists appt. simpl. repeat split; auto. }
  repeat (first [break_if | break_match]); try discriminate;
    eapply Hcreate; reflexivity.
Qed.

Lemma createPrescription_built env st a b doc :
  createPrescription_lookup env st a b = Built doc ->
  prescription_of_appointment st doc.
Proof.
  unfold createPrescription_lookup.
  destruct (findById a (appointments st)) as [appt|] eqn:Ha; [|discriminate].
  destruct (Appointment.doctorId appt =? User._id (user env))%nat eqn:Hdoc;
    simpl; [|discriminate].
  apply Nat.eqb_eq in Hdoc.
  repeat (first [break_if | break_match]); try discriminate;
    intros Heq; injection Heq as <-; exists appt; simpl; repeat split; auto.
Qed.

Lemma bookAppointment_save_inv st doc :
  store_inv st -> store_inv (fst (bookAppointment_save st doc)).
Proof. apply store_inv_same; reflexivity. Qed.

Lemma createPayment_save_inv saved st doc :
  In (Payment.status doc) Payment.statuses ->
  store_inv st -> store_inv (fst (createPayment_save saved st doc)).
Proof.
  intros Hs Hinv. pose proof Hinv as [I1 I2 I3]. unfold createPayment_save.
  break_if; simpl; [exact Hinv|]. constructor; simpl; try assumption.
  - now apply unique_ids_insert.
  - now apply Forall_insert.
Qed.

Lemma createPrescription_save_inv saved st doc :
  store_inv st -> store_inv (fst (createPrescription_save saved st doc)).
Proof.
  intros Hinv. pose proof Hinv as [I1 I2 I3]. unfold createPrescription_save.
  break_if; simpl; [|exact Hinv]. constructor; simpl; try assumption.
  now apply unique_ids_insert.
Qed.

Lemma later_inv (st0 st : Store) :
  later st0 st -> store_inv st0 -> store_inv st.
Proof.
  induction 1 as [st | st0 st us _ IH | st0 st env req _ IH
                 | st0 st1 st env d t n doc _ IH1 Hlook _ IH2
                 | st0 st1 st env a m d doc saved _ IH1 Hlook _ IH2
                 | st0 st1 st env a b doc saved _ IH1 Hlook _ IH2];
    intros Hinv.
  - exact Hinv.
  - apply (store_inv_same st); [reflexivity | reflexivity | now apply IH].
  - now apply handle_inv, IH.
  - now apply bookAppointment_save_inv, IH2, IH1.
  - apply createPayment_save_inv; [|now apply IH2, IH1].
    destruct (createPayment_built _ _ _ _ _ _ Hlook) as [_ [_ [_ ->]]].
    simpl. tauto.
  - now apply createPrescription_save_inv, IH2, IH1.
Qed.

Lemma later_trans (st0 st1 st : Store) :
  later st0 st1 -> later st1 st -> later st0 st.
Proof.
  intros H01 H1. revert st0 H01.
  induction H1 as [st | st1 st us _ IH | st1 st env req _ IH
                  | st1 st2 st env d t n doc _ IH1 Hlook H2 _
                  | st1 st2 st env a m d doc saved _ IH1 Hlook H2 _
                  | st1 st2 st env a b doc saved _ IH1 Hlook H2 _];
    intros st0 H01.
  - exact H01.
  - apply later_users. auto.
  - apply later_handle. auto.
  - exact (later_booked _ _ _ _ _ _ _ _ (IH1 _ H01) Hlook H2).
  - exact (later_paid _ _ _ _ _ _ _ _ _ (IH1 _ H01) Hlook H2).
  - exact (later_prescribed _ _ _ _ _ _ _ _ (IH1 _ H01) Hlook H2).
Qed.

Lemma reachable_init (us : list User.t) : reachable (mkStore us [] [] []).
Proof. exists us. apply later_refl. Qed.

Lemma reachable_users (st : Store) (us : list User.t) :
  reachable st -> reachable (with_users us st).
Proof. intros [us0 H]. exists us0. now apply later_users. Qed.

Lemma reachable_handle (st : Store) (env : Env) (req : Request) :
  reachable st -> reachable (fst (handle env st req)).
Proof. intros [us0 H]. exists us0. now apply later_handle. Qed.

Lemma reachable_later (st st' : Store) :
  reachable st -> later st st' -> reachable st'.
Proof. intros [us0 H] H'. exists us0. now apply (later_trans _ st). Qed.

Lemma reachable_inv (st : Store) : reachable st -> store_inv st.
Proof.
  intros [us H]. apply (later_inv _ _ H). constructor; simpl; constructor.
Qed.

Lemma route_reachable env st req :
  reachable st -> reachable (fst (route env st req)).
Proof.
  intros Hreach.
  assert (Hg : forall check,
            reachable (fst (guarded check env st (handle env st req)))).
  { intros check. unfold guarded. destruct (check env); simpl;
      [exact Hreach | now apply reachable_handle]. }
  destruct req; unfold route; try apply Hg.
  now apply reachable_handle.
Qed.

Lemma run_reachable (l : list (Env * Request)) (st : Store) :
  reachable st -> reachable (fst (run st l)).
Proof.
  revert st. induction l as [|[env req] l IH]; intros st Hreach; simpl.
  - exact Hreach.
  - pose proof (route_reachable env st req Hreach) as Hstep.
    destruct (route env st req) as [st1 r]. simpl in Hstep.
    specialize (IH st1 Hstep). destruct (run st1 l) as [st2 rs].
    exact IH.
Qed.

Lemma findById_In {A : Type} `{Document A} (x : A) (c : list A) :
  unique_ids c -> In x c -> findById (doc_id x) c = Some x.
Proof. intros Hu Hin. now apply (findOne_key_In doc_id). Qed.

(** ** updatePaymentStatus *)

(** The effect of updatePaymentStatus 'completed' when the payment's
    appointment is stored. *)
Lemma updatePaymentStatus_completed
    (env : Env) (st : Store) (id : ObjectId) (notes : option string)
    (p : Payment.t) (a : Appointment.t) :
  findById id (payments st) = Some p ->
  (Payment.patientId p = User._id (user env)
   \/ Payment.doctorId p = User._id (user env)
   \/ User.role (user env) = "admin"%string) ->
  findById (Payment.appointmentId p) (appointments st) = Some a ->
  let r := updatePaymentStatus env st id "completed" notes in
  snd r = json 200 "Payment status updated successfully"
  /\ option_map Payment.status (findById id (payments (fst r)))
     = Some "completed"%string
  /\ findById (Payment.appointmentId p) (appointments (fst r))
     = Some (Appointment.set_status "paid" a).
Proof.
  intros Hp Hauth Ha r. subst r. unfold updatePaymentStatus. simpl.
  rewrite Hp.
  assert (Hok : (Payment.patientId p =? User._id (user env))%nat
                || (Payment.doctorId p =? User._id (user env))%nat
                || (User.role (user env) =? "admin")%string = true).
  { destruct Hauth as [H | [H | H]].
    - apply Nat.eqb_eq in H. now rewrite H.
    - apply Nat.eqb_eq in H. rewrite H. now rewrite orb_true_r.
    - apply String.eqb_eq in H. rewrite H. now rewrite orb_true_r. }
  rewrite Hok. simpl. split; [reflexivity|]. split.
  - pose proof (findById_id _ _ _ Hp) as [Hid _].
    erewrite findById_save_found; [reflexivity | exact Hp | exact Hid].
  - rewrite findById_update by reflexivity. rewrite Ha. simpl.
    pose proof (findById_id _ _ _ Ha) as [Hid _]. rewrite Hid.
    now rewrite Nat.eqb_refl.
Qed.

(** ** Reachable sample stores *)

Lemma empty_reachable : reachable Sample.empty.
Proof. apply reachable_init. Qed.

Lemma one_pending_reachable : reachable (Sample.one "pending").
Proof.
  change (reachable (fst (handle Sample.as_patient Sample.empty
                                 (BookAppointment 20 (Some 3600000) None)))).
  apply reachable_handle, empty_reachable.
Qed.

Lemma one_reachable (s : string) :
  In s Appointment.statuses -> reachable (Sample.one s).
Proof.
  intros Hs.
  assert (Heq : Sample.one s
                = fst (handle Sample.as_doctor (Sample.one "pending")
                              (UpdateAppointmentStatus 1 s))).
  { simpl. unfold updateAppointmentStatus.
    apply includes_In in Hs. rewrite Hs. reflexivity. }
  rewrite Heq. apply reachable_handle, one_pending_reachable.
Qed.

(** C1 as the specification words it does not hold: the owning doctor
    moves a pending appointment straight to 'completed', and a paid one to
    'cancelled'; neither is an edge of the graph of section 4.1. *)
Lemma status_skips_states :
  reachable (Sample.one "pending")
  /\ option_map Appointment.status
       (findById 1 (appointments
          (fst (handle Sample.as_doctor (Sample.one "pending")
                       (UpdateAppointmentStatus 1 "completed")))))
     = Some "completed"%string
  /\ spec_transition "pending" "completed" = false
  /\ reachable (Sample.one "paid")
  /\ option_map Appointment.status
       (findById 1 (appointments
          (fst (handle Sample.as_doctor (Sample.one "paid")
                       (UpdateAppointmentStatus 1 "cancelled")))))
     = Some "cancelled"%string
  /\ spec_transition "paid" "cancelled" = false.
Proof.
  split; [apply one_reachable; simpl; tauto|].
  split; [reflexivity|]. split; [reflexivity|].
  split; [apply one_reachable; simpl; tauto|].
  split; reflexivity.
Qed.

(** ** createPrescription *)

Lemma filter_insert {A : Type} `{Document A} (f : A -> bool) (d : A) (c : list A) :
  filter f (insert d c) = filter f c ++ (if f d then [d] else []).
Proof.
  unfold insert. rewrite filter_app. simpl. now destruct (f d).
Qed.

Lemma findOne_None_filter {A : Type} `{Document A} (f : A -> bool) (c : list A) :
  findOne f c = None -> filter f c = [].
Proof.
  unfold findOne. induction c as [|x c IH]; simpl; [reflexivity|].
  destruct (f x); [discriminate | exact IH].
Qed.

Lemma findOne_key_found {A : Type} `{Document A} (key : A -> ObjectId)
    (k : ObjectId) (c : list A) :
  (exists p, In p c /\ key p = k) ->
  exists q, findOne (fun p => (key p =? k)%nat) c = Some q.
Proof.
  intros [p [Hin Hk]].
  destruct (findOne (fun p => (key p =? k)%nat) c) as [q|] eqn:Hone;
    [now exists q|].
  apply (findOne_key_None key) in Hone. exfalso. apply Hone.
  rewrite <- Hk. now apply in_map.
Qed.

(** C7, as the code has it. For a createPrescription call by the
    appointment's doctor.  When the appointment's status is not
    'consultation' the answer is 400 'Appointment must be in consultation
    status' and nothing is stored, whether or not the appointment has a
    prescription.  When the status is 'consultation' and a prescription of
    the appointment is stored, the answer is 400 'Prescription already
    exists for this appointment' and nothing is stored.  After a call
    answered 201 any further call for the same appointment is refused with
    that message.  The call adds a prescription only to an appointment
    without one: for every appointment, the number of its prescriptions
    after the call is at most one or at most what it was.  Taken step by
    step, the handler builds a prescription only when its lookup finds
    the appointment without one. *)
Theorem createPrescription_guards
    (env : Env) (st : Store) (id : ObjectId) (body : PrescriptionBody)
    (a : Appointment.t) :
  findById id (appointments st) = Some a ->
  Appointment.doctorId a = User._id (user env) ->
  let r := createPrescription env st id body in
  (Appointment.status a <> "consultation"%string ->
   r = (st, json 400 "Appointment must be in consultation status"))
  /\ (Appointment.status a = "consultation"%string ->
      (exists p, In p (prescriptions st) /\ Prescription.appointmentId p = id) ->
      r = (st, json 400 "Prescription already exists for this appointment"))
  /\ (code (snd r) = 201%nat ->
      forall env' body', User._id (user env') = User._id (user env) ->
        createPrescription env' (fst r) id body'
        = (fst r, json 400 "Prescription already exists for this appointment"))
  /\ (forall k,
        (List.length (prescriptions_of k (fst r))
         <= Nat.max 1 (List.length (prescriptions_of k st)))%nat)
  /\ (forall doc, createPrescription_lookup env st id body = Built doc ->
        prescriptions_of id st = []).
Proof.
  intros Ha Hdoc r.
  split; [|split; [|split; [|split]]].
  - intros Hst. subst r. unfold createPrescription. rewrite Ha.
    apply Nat.eqb_eq in Hdoc. rewrite Hdoc. simpl.
    apply String.eqb_neq in Hst. now rewrite Hst.
  - intros Hst Hex. subst r. unfold createPrescription. rewrite Ha.
    apply Nat.eqb_eq in Hdoc. rewrite Hdoc. simpl.
    apply String.eqb_eq in Hst. rewrite Hst. simpl.
    destruct (findOne_key_found Prescription.appointmentId id (prescriptions st)
                Hex) as [q ->].
    reflexivity.
  - subst r. unfold createPrescription. rewrite Ha.
    pose proof Hdoc as Hdocb. apply Nat.eqb_eq in Hdocb. rewrite Hdocb. simpl.
    destruct (Appointment.status a =? "consultation")%string eqn:Hst; simpl;
      [|discriminate].
    destruct (findOne (fun q => (Prescription.appointmentId q =? id)%nat)
                      (prescriptions st)) eqn:Hone; [discriminate|].
    break_if; simpl; [|discriminate].
    intros _ env' body' Henv. rewrite Ha, Henv, Hdocb, Hst. simpl.
    rewrite findOne_insert, Hone. simpl. now rewrite Nat.eqb_refl.
  - intros k. subst r. unfold createPrescription, prescriptions_of.
    repeat (first [break_if | break_match]);
      cbn [fst prescriptions with_prescriptions]; try apply Nat.le_max_r;
      rewrite filter_insert; cbn [Prescription.appointmentId];
      (destruct (id =? k)%nat eqn:Hk;
       [ apply Nat.eqb_eq in Hk; subst k;
         match goal with
         | H : findOne _ (prescriptions st) = None |- _ =>
             rewrite (findOne_None_filter _ _ H)
         end; simpl; lia
       | rewrite app_nil_r; apply Nat.le_max_r ]).
  - intros doc. unfold createPrescription_lookup, prescriptions_of.
    rewrite Ha. break_if; [discriminate|]. break_if; [discriminate|].
    destruct (findOne (fun q => (Prescription.appointmentId q =? id)%nat)
                      (prescriptions st)) eqn:Hone; [discriminate|].
    intros _. now apply findOne_None_filter.
Qed.

Lemma createPrescription_guards_witness :
  createPrescription Sample.as_doctor (Sample.one "paid") 1 Sample.flu
  = (Sample.one "paid", json 400 "Appointment must be in consultation status")
  /\ createPrescription Sample.as_doctor Sample.treated 1 Sample.flu
     = (Sample.treated,
        json 400 "Prescription already exists for this appointment").
Proof.
  split.
  - destruct (createPrescription_guards Sample.as_doctor (Sample.one "paid") 1
                Sample.flu (Sample.appt "paid") eq_refl eq_refl) as [Hnot _].
    apply Hnot. discriminate.
  - destruct (createPrescription_guards Sample.as_doctor Sample.treated 1
                Sample.flu (Sample.appt "consultation") eq_refl eq_refl)
      as [_ [Hexists _]].
    apply Hexists; [reflexivity|].
    exists Sample.rx. split; [simpl; tauto | reflexivity].
Defined.

Lemma treated_reachable : reachable Sample.treated.
Proof.
  change (reachable (fst (handle Sample.as_doctor (Sample.one "consultation")
                                 (CreatePrescription 1 Sample.flu)))).
  apply reachable_handle, one_reachable. simpl. tauto.
Qed.

(** C7 as the specification words it does not hold in two places.  On an
    appointment that has a prescription and is no longer in consultation,
    the doctor's call is answered 'Appointment must be in consultation
    status', not 'already exists'.  And the store does not keep the
    prescription of an appointment unique: when two calls of the doctor
    both look up before either saves, both build a prescription, both
    saves are answered 201, and the appointment has two prescriptions. *)
Lemma prescription_not_unique :
  reachable Sample.closed
  /\ prescriptions_of 1 Sample.closed = [Sample.rx]
  /\ createPrescription Sample.as_doctor Sample.closed 1 Sample.flu
     = (Sample.closed, json 400 "Appointment must be in consultation status")
  /\ createPrescription_lookup Sample.as_doctor (Sample.one "consultation") 1
                               Sample.flu
     = Built Sample.rx
  /\ snd (createPrescription_save 5 (Sample.one "consultation") Sample.rx)
     = json 201 "Prescription created successfully"
  /\ snd Sample.saved_twice = json 201 "Prescription created successfully"
  /\ map Prescription.appointmentId (prescriptions (fst Sample.saved_twice))
     = [1; 1]%nat
  /\ List.length (prescriptions_of 1 (fst Sample.saved_twice)) = 2%nat
  /\ reachable (fst Sample.saved_twice).
Proof.
  split.
  { change (reachable (fst (handle Sample.as_doctor Sample.treated
                                   (UpdateAppointmentStatus 1 "completed")))).
    apply reachable_handle, treated_reachable. }
  repeat (split; [reflexivity|]).
  assert (Hlook : createPrescription_lookup Sample.as_doctor
                    (Sample.one "consultation") 1 Sample.flu
                  = Built Sample.rx) by reflexivity.
  assert (Hone : reachable (Sample.one "consultation"))
    by (apply one_reachable; simpl; tauto).
  destruct Hone as [us Hone]. exists us.
  apply (later_prescribed _ _ _ _ _ _ _ 5 Hone Hlook).
  apply (later_prescribed _ _ _ _ _ _ _ 5 (later_refl _) Hlook).
  apply later_refl.
Qed.

(** ** createPayment *)

(** C3, as the code has it. For a createPayment call on a stored
    appointment of a reachable store.  A caller who is not the
    appointment's patient is answered 403, whatever the status.  For the
    appointment's patient: on a status other than 'confirmed' the answer is
    400 'Appointment must be confirmed before payment'.  On a 'confirmed'
    appointment without any payment: when the doctor's account is gone, or
    when a stored payment holds the generated transactionId, the answer is
    500 and nothing is stored; otherwise a payment is stored with status
    'pending', amount 500, that transactionId, and the method and details
    of the request (answer 201).  On a 'confirmed' appointment with a
    payment, the payment that the lookup by appointment returns decides:
    status 'completed' gives 400 'Payment already completed for this
    appointment'; status 'pending' gives 400 'Payment already exists for
    this appointment'; with status 'failed' or 'cancelled' that payment is
    written again under the same [_id], with the method and the details of
    the request, a newly generated transactionId and status 'pending', no
    record being added (answer 200), unless another payment holds that
    transactionId (answer 500, nothing written).  The details are held as
    the schema stores them, see [stored_details]. *)
Theorem createPayment_spec
    (env : Env) (st : Store) (id : ObjectId) (m : PaymentMethod)
    (details : option PaymentDetails) (a : Appointment.t) :
  reachable st ->
  findById id (appointments st) = Some a ->
  let r := createPayment env st id m details in
  (Appointment.patientId a <> User._id (user env) ->
   r = (st, json 403 "Not authorized to pay for this appointment"))
  /\ (Appointment.patientId a = User._id (user env) ->
      (Appointment.status a <> "confirmed"%string ->
       r = (st, json 400 "Appointment must be confirmed before payment"))
      /\ (Appointment.status a = "confirmed"%string ->
          ((forall p, In p (payments st) -> Payment.appointmentId p <> id) ->
           (findById (Appointment.doctorId a) (users st) = None ->
            r = (st, server_error))
           /\ (findById (Appointment.doctorId a) (users st) <> None ->
               (transactionId_taken (generateTransactionId env)
                                    (new_id (payments st)) (payments st) = true ->
                r = (st, server_error))
               /\ (transactionId_taken (generateTransactionId env)
                                       (new_id (payments st)) (payments st)
                   = false ->
                   snd r = json 201 "Payment created successfully"
                   /\ exists p',
                        payments (fst r) = insert p' (payments st)
                        /\ Payment.appointmentId p' = id
                        /\ Payment.patientId p' = Appointment.patientId a
                        /\ Payment.doctorId p' = Appointment.doctorId a
                        /\ Payment.status p' = "pending"%string
                        /\ Payment.amount p' = 500
                        /\ Payment.transactionId p' = generateTransactionId env
                        /\ Payment.paymentMethod p' = m
                        /\ Payment.paymentDetails p' = stored_details details)))
          /\ (forall p,
                findOne (fun q => (Payment.appointmentId q =? id)%nat)
                        (payments st) = Some p ->
                (Payment.status p = "completed"%string ->
                 r = (st, json 400 "Payment already completed for this appointment"))
                /\ (Payment.status p = "pending"%string ->
                    r = (st, json 400 "Payment already exists for this appointment"))
                /\ (Payment.status p = "failed"%string
                    \/ Payment.status p = "cancelled"%string ->
                    (transactionId_taken (generateTransactionId env)
                                         (Payment._id p) (payments st) = true ->
                     r = (st, server_error))
                    /\ (transactionId_taken (generateTransactionId env)
                                            (Payment._id p) (payments st) = false ->
                        snd r = json 200 "Payment updated successfully"
                        /\ map doc_id (payments (fst r)) = map doc_id (payments st)
                        /\ exists p',
                             findById (Payment._id p) (payments (fst r)) = Some p'
                             /\ Payment._id p' = Payment._id p
                             /\ Payment.appointmentId p' = id
                             /\ Payment.amount p' = Payment.amount p
                             /\ Payment.paymentMethod p' = m
                             /\ Payment.paymentDetails p' = stored_details details
                             /\ Payment.transactionId p'
                                = generateTransactionId env
                             /\ Payment.status p' = "pending"%string))))).
Proof.
  intros Hreach Ha r. subst r.
  pose proof (reachable_inv st Hreach) as [I1 _ _].
  unfold createPayment. rewrite Ha.
  split.
  { intros Hpat. apply Nat.eqb_neq in Hpat. now rewrite Hpat. }
  intros Hpat. apply Nat.eqb_eq in Hpat. rewrite Hpat. simpl.
  apply Nat.eqb_eq in Hpat.
  split.
  - intros Hst. apply String.eqb_neq in Hst. now rewrite Hst.
  - intros Hst. apply String.eqb_eq in Hst. rewrite Hst. simpl. split.
    + intros Hnone.
      assert (Hone : findOne (fun p => (Payment.appointmentId p =? id)%nat)
                             (payments st) = None).
      { apply (findOne_key_None Payment.appointmentId). intros Hin.
        apply in_map_iff in Hin. destruct Hin as [p [Hk Hin]].
        exact (Hnone p Hin Hk). }
      rewrite Hone. split.
      * intros Hgone. now rewrite Hgone.
      * intros Hdoctor.
        destruct (findById (Appointment.doctorId a) (users st)) as [doctor|]
          eqn:Hd; [|contradiction].
        pose proof (findById_id _ _ _ Hd) as [Hdid _].
        simpl. split.
        -- intros Htaken. now rewrite Htaken.
        -- intros Hfresh. rewrite Hfresh. simpl. split; [reflexivity|].
           eexists. split; [reflexivity|]. simpl.
           repeat split; try congruence. exact Hdid.
    + intros p Hone. rewrite Hone.
      pose proof (find_some _ _ Hone) as [Hin Hkey]. apply Nat.eqb_eq in Hkey.
      split; [|split].
      * intros Hs. apply String.eqb_eq in Hs. now rewrite Hs.
      * intros Hs. rewrite Hs. reflexivity.
      * intros Hs.
        assert (Hb : (Payment.status p =? "completed")%string = false
                     /\ (Payment.status p =? "pending")%string = false
                     /\ ((Payment.status p =? "failed")%string
                         || (Payment.status p =? "cancelled")%string) = true).
        { destruct Hs as [Hs | Hs]; rewrite Hs; repeat split. }
        destruct Hb as [Hb1 [Hb2 Hb3]]. rewrite Hb1, Hb2, Hb3. simpl. split.
        -- intros Htaken. now rewrite Htaken.
        -- intros Hfresh. rewrite Hfresh. simpl.
           split; [reflexivity|]. split; [apply map_doc_id_save|].
           eexists. split.
           ++ eapply findById_save_found; [|reflexivity].
              now apply (findById_In p).
           ++ simpl. repeat split; congruence.
Qed.

Lemma billed_pending_reachable : reachable (Sample.billed "confirmed" "pending").
Proof.
  change (reachable (fst (handle Sample.earlier (Sample.one "confirmed")
                                 (CreatePayment 1 telebirr None)))).
  apply reachable_handle, one_reachable. simpl. tauto.
Qed.

Lemma billed_failed_reachable : reachable (Sample.billed "confirmed" "failed").
Proof.
  change (reachable (fst (handle Sample.earlier
                                 (Sample.billed "confirmed" "pending")
                                 (UpdatePaymentStatus 1 "failed" None)))).
  apply reachable_handle, billed_pending_reachable.
Qed.

Lemma createPayment_spec_witness :
  snd (createPayment Sample.as_patient (Sample.one "confirmed") 1 cbe_birr None)
  = json 201 "Payment created successfully"
  /\ createPayment Sample.as_patient (Sample.billed "confirmed" "pending") 1
                   cbe_birr None
     = (Sample.billed "confirmed" "pending",
        json 400 "Payment already exists for this appointment")
  /\ snd (createPayment Sample.as_patient (Sample.billed "confirmed" "failed") 1
                        cbe_birr None)
     = json 200 "Payment updated successfully"
  /\ createPayment Sample.as_patient (Sample.one "pending") 1 cbe_birr None
     = (Sample.one "pending",
        json 400 "Appointment must be confirmed before payment").
Proof.
  assert (Hconfirmed : reachable (Sample.one "confirmed"))
    by (apply one_reachable; simpl; tauto).
  split; [|split; [|split]].
  - destruct (createPayment_spec Sample.as_patient (Sample.one "confirmed") 1
                cbe_birr None (Sample.appt "confirmed") Hconfirmed eq_refl)
      as [_ Hpatient].
    destruct (Hpatient eq_refl) as [_ Hstatus].
    destruct (Hstatus eq_refl) as [Hnone _].
    assert (Hno : forall p, In p (payments (Sample.one "confirmed")) ->
                            Payment.appointmentId p <> 1%nat)
      by (intros p []).
    destruct (Hnone Hno) as [_ Hdoctor].
    assert (Hdoc : findById (Appointment.doctorId (Sample.appt "confirmed"))
                            (users (Sample.one "confirmed")) <> None)
      by discriminate.
    destruct (Hdoctor Hdoc) as [_ Hfresh].
    exact (proj1 (Hfresh eq_refl)).
  - destruct (createPayment_spec Sample.as_patient
                (Sample.billed "confirmed" "pending") 1 cbe_birr None
                (Sample.appt "confirmed") billed_pending_reachable eq_refl)
      as [_ Hpatient].
    destruct (Hpatient eq_refl) as [_ Hstatus].
    destruct (Hstatus eq_refl) as [_ Hfound].
    destruct (Hfound (Sample.pay "pending") eq_refl) as [_ [Hpending _]].
    exact (Hpending eq_refl).
  - destruct (createPayment_spec Sample.as_patient
                (Sample.billed "confirmed" "failed") 1 cbe_birr None
                (Sample.appt "confirmed") billed_failed_reachable eq_refl)
      as [_ Hpatient].
    destruct (Hpatient eq_refl) as [_ Hstatus].
    destruct (Hstatus eq_refl) as [_ Hfound].
    destruct (Hfound (Sample.pay "failed") eq_refl) as [_ [_ Hfailed]].
    destruct (Hfailed (or_introl eq_refl)) as [_ Hfresh].
    exact (proj1 (Hfresh eq_refl)).
  - destruct (createPayment_spec Sample.as_patient (Sample.one "pending") 1
                cbe_birr None (Sample.appt "pending") one_pending_reachable
                eq_refl) as [_ Hpatient].
    destruct (Hpatient eq_refl) as [Hstatus _].
    apply Hstatus. discriminate.
Defined.

(** C3 as the specification words it does not hold in three places.  A
    patient other than the appointment's is answered 403 on an appointment
    that is not confirmed.  The appointment's patient, on a confirmed
    appointment without any payment, is answered 500 and no payment is
    stored once the doctor's account was deleted.  And when two patients
    pay for their confirmed appointments in the same millisecond and draw
    the same random suffix, the second is answered 500 and has no payment:
    the generated transactionId is not fresh. *)
Lemma createPayment_not_always :
  createPayment Sample.as_stranger (Sample.one "pending") 1 telebirr None
  = (Sample.one "pending", json 403 "Not authorized to pay for this appointment")
  /\ reachable Sample.orphaned
  /\ payments Sample.orphaned = []
  /\ createPayment Sample.as_patient Sample.orphaned 1 telebirr None
     = (Sample.orphaned, json 500 "Server error")
  /\ map code (snd (run Sample.empty Sample.same_instant))
     = [201; 201; 200; 200; 201; 500]%nat
  /\ map Appointment.status
         (appointments (fst (run Sample.empty Sample.same_instant)))
     = ["confirmed"; "confirmed"]%string
  /\ map Payment.appointmentId
         (payments (fst (run Sample.empty Sample.same_instant)))
     = [1]%nat.
Proof.
  split; [reflexivity|]. split; [|repeat split].
  apply reachable_users, one_reachable. simpl. tauto.
Qed.

(** ** bookAppointment *)

Lemma doctor_lookup (st : Store) (d : ObjectId) :
  match findById d (users st) with
  | Some doctor => (User.role doctor =? "doctor")%string
  | None => false
  end = true <->
  exists doctor, findById d (users st) = Some doctor
                 /\ User.role doctor = "doctor"%string.
Proof.
  destruct (findById d (users st)) as [u|]; split.
  - intros Hr. apply String.eqb_eq in Hr. now exists u.
  - intros [u' [Hu Hr]]. injection Hu as <-. now apply String.eqb_eq.
  - discriminate.
  - intros [u' [Hu _]]. discriminate.
Qed.

Lemma new_Date_Some (x y : Z) :
  new_Date x = Some y -> y = x /\ - max_date <= x <= max_date.
Proof.
  unfold new_Date.
  destruct ((- max_date <=? x) && (x <=? max_date)) eqn:E; [|discriminate].
  intros Heq. injection Heq as <-. apply andb_prop in E. destruct E as [E1 E2].
  apply Z.leb_le in E1, E2. auto.
Qed.

Lemma new_Date_in_range (x : Z) :
  - max_date <= x <= max_date -> new_Date x = Some x.
Proof.
  intros [Hlo Hhi]. unfold new_Date.
  apply Z.leb_le in Hlo, Hhi. now rewrite Hlo, Hhi.
Qed.

Lemma new_Date_beyond (x : Z) :
  x < - max_date \/ max_date < x -> new_Date x = None.
Proof.
  intros Hout. unfold new_Date.
  destruct ((- max_date <=? x) && (x <=? max_date)) eqn:E; [|reflexivity].
  apply andb_prop in E. destruct E as [E1 E2]. apply Z.leb_le in E1, E2. lia.
Qed.

(** C6, as the code has it. A bookAppointment call whose dateTime is at or
    before the current time never stores an appointment; it is answered
    400 'Appointment must be in the future' when the requested doctor
    exists and has the role doctor, and 404 'Doctor not found' otherwise,
    because the doctor is looked up first.  A call answered 201 has a
    valid dateTime strictly after the current time, and stores one new
    pending appointment at that dateTime. *)
Theorem bookAppointment_future
    (env : Env) (st : Store) (d : ObjectId) (dt : JsDate) (n : option string) :
  let r := bookAppointment env st d dt n in
  (forall t, dt = Some t -> t <= now env ->
     fst r = st
     /\ ((exists doctor, findById d (users st) = Some doctor
                         /\ User.role doctor = "doctor"%string) ->
         snd r = json 400 "Appointment must be in the future")
     /\ (~ (exists doctor, findById d (users st) = Some doctor
                           /\ User.role doctor = "doctor"%string) ->
         snd r = json 404 "Doctor not found"))
  /\ (code (snd r) = 201%nat ->
      exists t, dt = Some t /\ now env < t
        /\ appointments (fst r)
           = insert (Appointment.mk (new_id (appointments st))
                        (User._id (user env)) d t n "pending" (now env))
                    (appointments st)).
Proof.
  intros r. subst r. unfold bookAppointment.
  pose proof (doctor_lookup st d) as Hlook.
  destruct (match findById d (users st) with
            | Some doctor => (User.role doctor =? "doctor")%string
            | None => false
            end) eqn:Hdoc; simpl.
  - split.
    + intros t -> Hle. simpl. apply Z.leb_le in Hle. rewrite Hle. simpl.
      split; [reflexivity|]. split; [reflexivity|].
      intros Hno. exfalso. apply Hno. now apply Hlook.
    + destruct dt as [t|]; simpl; [|discriminate].
      destruct (t <=? now env) eqn:Hle; simpl; [discriminate|].
      apply Z.leb_gt in Hle.
      repeat (first [break_if | break_match]); simpl; try discriminate.
      intros _. exists t. repeat split. exact Hle.
  - split; [|discriminate].
    intros t -> Hle. split; [reflexivity|]. split; [|reflexivity].
    intros Hyes. apply Hlook in Hyes. discriminate.
Qed.

Lemma bookAppointment_future_witness :
  bookAppointment Sample.as_patient Sample.empty 20 (Some 5) None
  = (Sample.empty, json 400 "Appointment must be in the future").
Proof.
  destruct (bookAppointment_future Sample.as_patient Sample.empty 20
                                   (Some 5) None) as [Hpast _].
  destruct (Hpast 5 eq_refl (Z.le_refl 5)) as [Hst [Hdoc _]].
  apply injective_projections; [exact Hst|].
  apply Hdoc. exists Sample.doctor. split; reflexivity.
Defined.

(** C6 as the specification words it does not hold: a booking in the past
    for a doctor that does not exist, or for a user who is not a doctor, is
    answered 404 'Doctor not found', not 400. *)
Lemma past_booking_not_always_400 :
  bookAppointment Sample.as_patient Sample.empty 99 (Some 1) None
  = (Sample.empty, json 404 "Doctor not found")
  /\ bookAppointment Sample.as_patient Sample.empty 30 (Some 1) None
     = (Sample.empty, json 404 "Doctor not found")
  /\ 1 <= now Sample.as_patient.
Proof. repeat split. discriminate. Qed.




(** ** getMyAppointments *)

Lemma insert_by_dateTime_perm (a : Appointment.t) (l : list Appointment.t) :
  Permutation (a :: l) (insert_by_dateTime a l).
Proof.
  induction l as [|b l IH]; simpl.
  - apply Permutation_refl.
  - destruct (Appointment.dateTime a <=? Appointment.dateTime b).
    + apply Permutation_refl.
    + apply perm_trans with (b :: a :: l); [apply perm_swap|].
      now apply perm_skip.
Qed.

Lemma insert_by_dateTime_sorted (a : Appointment.t) (l : list Appointment.t) :
  StronglySorted by_dateTime l ->
  StronglySorted by_dateTime (insert_by_dateTime a l).
Proof.
  induction 1 as [|b l Hsorted IH Hall]; simpl.
  - repeat constructor.
  - destruct (Appointment.dateTime a <=? Appointment.dateTime b) eqn:Hle.
    + apply Z.leb_le in Hle. constructor.
      * now constructor.
      * constructor; [exact Hle|].
        apply Forall_impl with (P := by_dateTime b); [|exact Hall].
        unfold by_dateTime. intros c Hc. lia.
    + apply Z.leb_gt in Hle. constructor; [exact IH|].
      apply Forall_forall. intros c Hc.
      apply (Permutation_in c (Permutation_sym (insert_by_dateTime_perm a l)))
        in Hc.
      destruct Hc as [<- | Hc].
      * unfold by_dateTime. lia.
      * rewrite Forall_forall in Hall. now apply Hall.
Qed.

Lemma sort_by_dateTime_perm (l : list Appointment.t) :
  Permutation l (sort_by_dateTime l).
Proof.
  induction l as [|a l IH]; simpl; [constructor|].
  apply perm_trans with (a :: sort_by_dateTime l).
  - now apply perm_skip.
  - apply insert_by_dateTime_perm.
Qed.

Lemma sort_by_dateTime_sorted (l : list Appointment.t) :
  StronglySorted by_dateTime (sort_by_dateTime l).
Proof.
  induction l as [|a l IH]; simpl; [constructor|].
  now apply insert_by_dateTime_sorted.
Qed.

(** C8. The list returned by getMyAppointments is sorted by dateTime in
    ascending order and holds exactly the stored appointments that pass
    the filters: the caller is the patient when the caller's role is
    patient, the doctor when the role is doctor; the status equals the
    status parameter when one is given; the dateTime is not before the
    current time when upcoming is 'true'.  Each such appointment occurs as
    often as in the store. *)
Theorem getMyAppointments_spec
    (env : Env) (st : Store) (status upcoming : option string) :
  let r := getMyAppointments env st status upcoming in
  StronglySorted by_dateTime r
  /\ Permutation r (filter (my_filter env status upcoming) (appointments st))
  /\ forall a,
       In a r <->
       In a (appointments st)
       /\ (User.role (user env) = "patient"%string ->
           Appointment.patientId a = User._id (user env))
       /\ (User.role (user env) = "doctor"%string ->
           Appointment.doctorId a = User._id (user env))
       /\ (forall s, status = Some s -> s <> ""%string ->
           Appointment.status a = s)
       /\ (upcoming = Some "true"%string -> now env <= Appointment.dateTime a).
Proof.
  intros r. subst r. unfold getMyAppointments.
  split; [apply sort_by_dateTime_sorted|].
  split; [apply Permutation_sym, sort_by_dateTime_perm|].
  intros a.
  assert (Hin : In a (sort_by_dateTime
                        (filter (my_filter env status upcoming) (appointments st)))
                <-> In a (filter (my_filter env status upcoming)
                                 (appointments st))).
  { split; apply Permutation_in;
      [apply Permutation_sym|]; apply sort_by_dateTime_perm. }
  rewrite Hin, filter_In. clear Hin.
  assert (Hf : my_filter env status upcoming a = true <->
               (User.role (user env) = "patient"%string ->
                Appointment.patientId a = User._id (user env))
               /\ (User.role (user env) = "doctor"%string ->
                   Appointment.doctorId a = User._id (user env))
               /\ (forall s, status = Some s -> s <> ""%string ->
                   Appointment.status a = s)
               /\ (upcoming = Some "true"%string ->
                   now env <= Appointment.dateTime a)); [|tauto].
  unfold my_filter. rewrite !andb_true_iff.
  assert (Hrole :
    (if (User.role (user env) =? "patient")%string
     then (Appointment.patientId a =? User._id (user env))%nat
     else if (User.role (user env) =? "doctor")%string
          then (Appointment.doctorId a =? User._id (user env))%nat
          else true) = true
    <-> (User.role (user env) = "patient"%string ->
         Appointment.patientId a = User._id (user env))
        /\ (User.role (user env) = "doctor"%string ->
            Appointment.doctorId a = User._id (user env))).
  { destruct (User.role (user env) =? "patient")%string eqn:Hp.
    - apply String.eqb_eq in Hp. rewrite Nat.eqb_eq. rewrite Hp.
      split; [intros H; split; [auto | discriminate] | intros [H _]; auto].
    - apply String.eqb_neq in Hp.
      destruct (User.role (user env) =? "doctor")%string eqn:Hd.
      + apply String.eqb_eq in Hd. rewrite Nat.eqb_eq.
        split; [intros H; split; [contradiction | auto] | intros [_ H]; auto].
      + apply String.eqb_neq in Hd. split; [split; contradiction | reflexivity]. }
  assert (Hstatus :
    (if truthy status
     then match status with
          | Some s => (Appointment.status a =? s)%string
          | None => true
          end
     else true) = true
    <-> (forall s, status = Some s -> s <> ""%string -> Appointment.status a = s)).
  { destruct status as [s|]; simpl.
    - destruct (s =? "")%string eqn:Hs; simpl.
      + apply String.eqb_eq in Hs. split; [|reflexivity].
        intros _ s' Hs' Hne. congruence.
      + apply String.eqb_neq in Hs. rewrite String.eqb_eq. split.
        * intros H s' Hs' _. congruence.
        * intros H. now apply H.
    - split; [intros _ s Hs; discriminate | reflexivity]. }
  assert (Hup :
    match upcoming with
    | Some u => if (u =? "true")%string
                then now env <=? Appointment.dateTime a
                else true
    | None => true
    end = true
    <-> (upcoming = Some "true"%string -> now env <= Appointment.dateTime a)).
  { destruct upcoming as [u|].
    - destruct (u =? "true")%string eqn:Hu.
      + apply String.eqb_eq in Hu. subst u. rewrite Z.leb_le. tauto.
      + apply String.eqb_neq in Hu. split; [|reflexivity].
        intros _ H. congruence.
    - split; [discriminate | reflexivity]. }
  rewrite Hrole, Hstatus, Hup. tauto.
Qed.

Lemma getMyAppointments_spec_witness :
  In (Appointment.mk 3 10 20 7200000 None "confirmed" 5)
     (getMyAppointments Sample.as_patient Sample.agenda
                        (Some "confirmed"%string) (Some "true"%string)).
Proof.
  apply (getMyAppointments_spec Sample.as_patient Sample.agenda
           (Some "confirmed"%string) (Some "true"%string)).
  split; [simpl; tauto|].
  split; [reflexivity|].
  split; [discriminate|].
  split.
  - intros s Hs _. injection Hs as <-. reflexivity.
  - intros _. simpl. lia.
Defined.

(** ** updatePrescription *)

(** C9, as the code has it. For an updatePrescription call by the
    prescription's doctor or an admin, the stored prescription keeps its
    identity and its creation time, and every field whose request value is
    falsy (absent, null or the empty string; for the medication list and
    the follow-up date: absent) keeps its stored value.  The call is
    answered 200 or, when the new values fail the schema validation, 500
    with the prescription as it was; at 200 every field with a truthy
    request value holds that value, and [updatedAt] is the time of the
    call, whatever the request names.  An array is truthy even when empty,
    so an empty medication list replaces the stored one. *)
Theorem updatePrescription_frame
    (env : Env) (st : Store) (id : ObjectId) (body : PrescriptionBody)
    (p : Prescription.t) :
  findById id (prescriptions st) = Some p ->
  Prescription.doctorId p = User._id (user env)
  \/ User.role (user env) = "admin"%string ->
  let r := updatePrescription env st id body in
  (snd r = json 200 "Prescription updated successfully" \/ r = (st, server_error))
  /\ exists p',
       findById id (prescriptions (fst r)) = Some p'
       /\ Prescription._id p' = Prescription._id p
       /\ Prescription.appointmentId p' = Prescription.appointmentId p
       /\ Prescription.doctorId p' = Prescription.doctorId p
       /\ Prescription.patientId p' = Prescription.patientId p
       /\ Prescription.createdAt p' = Prescription.createdAt p
       /\ (truthy (b_diagnosis body) = false ->
           Prescription.diagnosis p' = Prescription.diagnosis p)
       /\ (b_medications body = None ->
           Prescription.medications p' = Prescription.medications p)
       /\ (truthy (b_instructions body) = false ->
           Prescription.instructions p' = Prescription.instructions p)
       /\ (b_followUpDate body = None ->
           Prescription.followUpDate p' = Prescription.followUpDate p)
       /\ (truthy (b_notes body) = false ->
           Prescription.notes p' = Prescription.notes p)
       /\ (truthy (b_status body) = false ->
           Prescription.status p' = Prescription.status p)
       /\ (code (snd r) = 200%nat ->
           Prescription.updatedAt p' = now env
           /\ (forall d, b_diagnosis body = Some d -> d <> ""%string ->
                 Prescription.diagnosis p' = d)
           /\ (forall l, b_medications body = Some l ->
                 Prescription.medications p' = l)
           /\ (forall s, b_instructions body = Some s -> s <> ""%string ->
                 Prescription.instructions p' = Some s)
           /\ (forall t, b_followUpDate body = Some (Some t) ->
                 Prescription.followUpDate p' = Some t)
           /\ (forall s, b_notes body = Some s -> s <> ""%string ->
                 Prescription.notes p' = Some s)
           /\ (forall s, b_status body = Some s -> s <> ""%string ->
                 Prescription.status p' = s))
       /\ (r = (st, server_error) -> p' = p).
Proof.
  intros Hp Hauth r. subst r. unfold updatePrescription. rewrite Hp.
  assert (Hok : (Prescription.doctorId p =? User._id (user env))%nat
                || (User.role (user env) =? "admin")%string = true).
  { destruct Hauth as [H | H].
    - apply Nat.eqb_eq in H. now rewrite H.
    - apply String.eqb_eq in H. rewrite H. now rewrite orb_true_r. }
  rewrite Hok. simpl.
  pose proof (findById_id _ _ _ Hp) as [Hid _].
  assert (Htruthy : forall (o : option string) (s : string),
            o = Some s -> s <> ""%string -> truthy o = true).
  { intros o s -> Hs. simpl. apply String.eqb_neq in Hs. now rewrite Hs. }
  break_if; simpl.
  - split; [now left|]. eexists. split.
    + eapply findById_save_found; [exact Hp | exact Hid].
    + simpl.
      repeat (split; [solve [reflexivity | intros H; now rewrite H]|]).
      split.
      * intros _. split; [reflexivity|]. repeat split.
        -- intros d Hd Hne. rewrite (Htruthy _ _ Hd Hne), Hd. reflexivity.
        -- intros l Hl. now rewrite Hl.
        -- intros s Hs Hne. rewrite (Htruthy _ _ Hs Hne). exact Hs.
        -- intros t Ht. now rewrite Ht.
        -- intros s Hs Hne. rewrite (Htruthy _ _ Hs Hne). exact Hs.
        -- intros s Hs Hne. rewrite (Htruthy _ _ Hs Hne), Hs. reflexivity.
      * intros Heq. discriminate Heq.
  - split; [now right|]. exists p. split; [exact Hp|].
    repeat (split; [solve [reflexivity | intros; reflexivity]|]).
    split; [|reflexivity]. intros H. discriminate H.
Qed.

Lemma updatePrescription_frame_witness :
  option_map Prescription.diagnosis
    (findById 1 (prescriptions
       (fst (updatePrescription Sample.next_day Sample.treated 1
                                Sample.only_notes))))
  = Some "Flu"%string
  /\ option_map Prescription.notes
       (findById 1 (prescriptions
          (fst (updatePrescription Sample.next_day Sample.treated 1
                                   Sample.only_notes))))
     = Some (Some "Rest"%string)
  /\ option_map Prescription.updatedAt
       (findById 1 (prescriptions
          (fst (updatePrescription Sample.next_day Sample.treated 1
                                   Sample.only_notes))))
     = Some 86400005.
Proof.
  destruct (updatePrescription_frame Sample.next_day Sample.treated 1
              Sample.only_notes Sample.rx eq_refl (or_introl eq_refl))
    as [_ [p' [Hf [_ [_ [_ [_ [_ [Hdiag [_ [_ [_ [_ [_ [Hset _]]]]]]]]]]]]]]].
  rewrite Hf. simpl.
  destruct (Hset eq_refl) as [Hupdated [_ [_ [_ [_ [Hnotes _]]]]]].
  split; [|split].
  - f_equal. apply Hdiag. reflexivity.
  - f_equal. apply (Hnotes "Rest"%string); [reflexivity | discriminate].
  - f_equal. exact Hupdated.
Defined.

(** C9 as the specification words it does not hold for an empty field
    that is not a string: a request whose medication list is the empty
    array is answered 200 and leaves the prescription without
    medications.  Nor are the supplied fields the only ones written: a
    request that names the notes only, a day later, also moves
    [updatedAt]. *)
Lemma empty_medications_overwrite :
  reachable Sample.treated
  /\ b_medications Sample.no_medications = Some []
  /\ option_map Prescription.medications
       (findById 1 (prescriptions Sample.treated))
     = Some [mkMedication "Paracetamol" "500mg" "2x/day" "5 days" None None]
  /\ snd (updatePrescription Sample.as_doctor Sample.treated 1
                             Sample.no_medications)
     = json 200 "Prescription updated successfully"
  /\ option_map Prescription.medications
       (findById 1 (prescriptions
          (fst (updatePrescription Sample.as_doctor Sample.treated 1
                                   Sample.no_medications))))
     = Some []
  /\ option_map Prescription.updatedAt
       (findById 1 (prescriptions Sample.treated))
     = Some 5
  /\ option_map Prescription.updatedAt
       (findById 1 (prescriptions
          (fst (updatePrescription Sample.next_day Sample.treated 1
                                   Sample.only_notes))))
     = Some 86400005.
Proof. split; [apply treated_reachable | repeat split]. Qed.

(** ** Evaluation on sample data *)

(** The patient books the doctor, the doctor confirms, the patient pays by
    telebirr and marks the payment completed, the doctor starts the
    consultation and writes a prescription: every step is accepted, the
    appointment ends in 'consultation', the payment in 'completed', and
    one active prescription is stored. *)
Example lifecycle :
  let (st, rs) :=
    run Sample.empty
      [ (Sample.as_patient, BookAppointment 20 (Some 3600000) None);
        (Sample.as_doctor, UpdateAppointmentStatus 1 "confirmed");
        (Sample.as_patient, CreatePayment 1 telebirr None);
        (Sample.as_patient, UpdatePaymentStatus 1 "completed" None);
        (Sample.as_doctor, StartConsultation 1);
        (Sample.as_doctor, CreatePrescription 1 Sample.flu) ] in
  map code rs = [201; 200; 201; 200; 200; 201]%nat
  /\ map Appointment.status (appointments st) = ["consultation"%string]
  /\ map Payment.status (payments st) = ["completed"%string]
  /\ map Payment.transactionId (payments st) = ["TXN5A1B2C3"%string]
  /\ prescriptions st = [Sample.rx].
Proof. vm_compute. repeat split. Qed.

(** The doctor's agenda comes back in chronological order. *)
Example agenda_sorted :
  map Appointment._id
      (getMyAppointments Sample.as_doctor Sample.agenda None None)
  = [2; 3; 1]%nat
  /\ map Appointment._id
       (getMyAppointments Sample.as_patient Sample.agenda
                          (Some "confirmed"%string) (Some "true"%string))
     = [3; 1]%nat.
Proof. split; reflexivity. Qed.

(** The route of updatePrescription admits the role doctor only: an admin
    is refused before the handler runs. *)
Example admin_refused_by_route :
  route Sample.as_admin Sample.treated (UpdatePrescription 1 Sample.only_notes)
  = (Sample.treated, json 403 "Access denied. Required roles: doctor").
Proof. reflexivity. Qed.

(** * Further properties of the controllers *)

(** ** What a handled request does to each collection *)

Lemma handle_appointments (env : Env) (st : Store) (req : Request) :
  let c := appointments st in
  let c' := appointments (fst (handle env st req)) in
  c' = c
  \/ (exists d t n,
        c' = insert (Appointment.mk (new_id c) (User._id (user env)) d t n
                                    "pending" (now env)) c)
  \/ (exists a s, findById (doc_id a) c = Some a
                  /\ In s Appointment.statuses
                  /\ c' = save (Appointment.set_status s a) c)
  \/ (exists k, c' = findByIdAndUpdate k (Appointment.set_status "paid") c).
Proof.
  destruct req as [d t n | id s | a m d | pid s n | a b | id b | id]; simpl.
  - unfold bookAppointment.
    repeat (first [break_if | break_match]); simpl; auto;
      right; left; eauto.
  - unfold updateAppointmentStatus.
    destruct (includes Appointment.statuses s) eqn:Hs; simpl; auto.
    destruct (findById id (appointments st)) as [x|] eqn:Hx; auto.
    break_if; simpl; auto.
    right; right; left. exists x, s.
    pose proof (findById_id _ _ _ Hx) as [Hid _]. rewrite Hid.
    apply includes_In in Hs. auto.
  - unfold createPayment.
    repeat (first [break_if | break_match]); simpl; auto.
  - unfold updatePaymentStatus.
    repeat (first [break_if | break_match]); simpl; auto;
      right; right; right; eauto.
  - unfold createPrescription.
    repeat (first [break_if | break_match]); simpl; auto.
  - unfold updatePrescription.
    repeat (first [break_if | break_match]); simpl; auto.
  - unfold startConsultation.
    destruct (findById id (appointments st)) as [x|] eqn:Hx; auto.
    repeat break_if; simpl; auto.
    right; right; left. exists x, "consultation"%string.
    pose proof (findById_id _ _ _ Hx) as [Hid _]. rewrite Hid.
    simpl. tauto.
Qed.

Lemma handle_payments (env : Env) (st : Store) (req : Request) :
  let c := payments st in
  let c' := payments (fst (handle env st req)) in
  c' = c
  \/ (exists p' a,
        c' = insert p' c
        /\ Payment._id p' = new_id c
        /\ findById (Payment.appointmentId p') (appointments st) = Some a
        /\ Payment.patientId p' = Appointment.patientId a
        /\ Payment.doctorId p' = Appointment.doctorId a
        /\ Payment.amount p' = 500
        /\ Payment.currency p' = "ETB"%string
        /\ Payment.status p' = "pending"%string
        /\ transactionId_taken (Payment.transactionId p') (Payment._id p') c
           = false)
  \/ (exists p p',
        In p c /\ c' = save p' c
        /\ Payment._id p' = Payment._id p
        /\ Payment.appointmentId p' = Payment.appointmentId p
        /\ Payment.patientId p' = Payment.patientId p
        /\ Payment.doctorId p' = Payment.doctorId p
        /\ Payment.amount p' = Payment.amount p
        /\ Payment.currency p' = Payment.currency p
        /\ In (Payment.status p') Payment.statuses
        /\ (Payment.transactionId p' = Payment.transactionId p
            \/ transactionId_taken (Payment.transactionId p') (Payment._id p) c
               = false)).
Proof.
  destruct req as [d t n | id s | a m d | pid s n | a b | id b | id]; simpl.
  - unfold bookAppointment.
    repeat (first [break_if | break_match]); simpl; auto.
  - unfold updateAppointmentStatus.
    repeat (first [break_if | break_match]); simpl; auto.
  - unfold createPayment.
    destruct (findById a (appointments st)) as [appt|] eqn:Ha; auto.
    destruct (Appointment.patientId appt =? User._id (user env))%nat eqn:Hpat;
      simpl; auto.
    apply Nat.eqb_eq in Hpat.
    break_if; simpl; auto.
    assert (Hcreate :
      forall doctor, findById (Appointment.doctorId appt) (users st) = Some doctor ->
        transactionId_taken (generateTransactionId env) (new_id (payments st))
                            (payments st) = false ->
        exists p' a0,
          insert (Payment.mk (new_id (payments st)) a (User._id (user env))
                    (User._id doctor) baseAmount "ETB" m
                    (generateTransactionId env) "pending" (stored_details d)
                    None (now env) (now env)) (payments st)
          = insert p' (payments st)
          /\ Payment._id p' = new_id (payments st)
          /\ findById (Payment.appointmentId p') (appointments st) = Some a0
          /\ Payment.patientId p' = Appointment.patientId a0
          /\ Payment.doctorId p' = Appointment.doctorId a0
          /\ Payment.amount p' = 500
          /\ Payment.currency p' = "ETB"%string
          /\ Payment.status p' = "pending"%string
          /\ transactionId_taken (Payment.transactionId p') (Payment._id p')
                                 (payments st) = false).
    { intros doctor Hd Hfresh. eexists. exists appt.
      split; [reflexivity|]. simpl.
      pose proof (findById_id _ _ _ Hd) as [Hdid _].
      repeat split; auto. }
    destruct (findOne (fun p => (Payment.appointmentId p =? a)%nat) (payments st))
      as [p|] eqn:Hone.
    + pose proof (find_some _ _ Hone) as [Hin Hk]. apply Nat.eqb_eq in Hk.
      destruct (Payment.status p =? "completed")%string; auto.
      destruct (Payment.status p =? "pending")%string; auto.
      destruct ((Payment.status p =? "failed")%string
                || (Payment.status p =? "cancelled")%string).
      * simpl.
        destruct (transactionId_taken (generateTransactionId env) (Payment._id p)
                                      (payments st)) eqn:Hfresh; simpl; auto.
        right; right. exists p. eexists. split; [exact Hin|].
        split; [reflexivity|]. simpl. repeat split; auto; tauto.
      * destruct (findById (Appointment.doctorId appt) (users st)) as [doctor|]
          eqn:Hd; auto.
        simpl.
        destruct (transactionId_taken (generateTransactionId env)
                                      (new_id (payments st)) (payments st))
          eqn:Hfresh; simpl; auto.
    + destruct (findById (Appointment.doctorId appt) (users st)) as [doctor|]
        eqn:Hd; auto.
      simpl.
      destruct (transactionId_taken (generateTransactionId env)
                                    (new_id (payments st)) (payments st))
        eqn:Hfresh; simpl; auto.
  - unfold updatePaymentStatus.
    destruct (includes Payment.statuses s) eqn:Hs; simpl; auto.
    apply includes_In in Hs.
    destruct (findById pid (payments st)) as [p|] eqn:Hp; auto.
    pose proof (findById_id _ _ _ Hp) as [_ Hin].
    break_if; simpl; auto.
    right; right. exists p. eexists. split; [exact Hin|].
    split; [break_if; reflexivity|]. simpl. repeat split; auto.
  - unfold createPrescription.
    repeat (first [break_if | break_match]); simpl; auto.
  - unfold updatePrescription.
    repeat (first [break_if | break_match]); simpl; auto.
  - unfold startConsultation.
    repeat (first [break_if | break_match]); simpl; auto.
Qed.

Lemma handle_prescriptions (env : Env) (st : Store) (req : Request) :
  let c := prescriptions st in
  let c' := prescriptions (fst (handle env st req)) in
  c' = c
  \/ (exists p' a,
        c' = insert p' c
        /\ Prescription._id p' = new_id c
        /\ findById (Prescription.appointmentId p') (appointments st) = Some a
        /\ Prescription.patientId p' = Appointment.patientId a
        /\ Prescription.doctorId p' = Appointment.doctorId a
        /\ prescription_valid p' = true)
  \/ (exists p p',
        In p c /\ c' = save p' c
        /\ Prescription._id p' = Prescription._id p
        /\ Prescription.appointmentId p' = Prescription.appointmentId p
        /\ Prescription.patientId p' = Prescription.patientId p
        /\ Prescription.doctorId p' = Prescription.doctorId p
        /\ prescription_valid p' = true).
Proof.
  destruct req as [d t n | id s | a m d | pid s n | a b | id b | id]; simpl.
  - unfold bookAppointment.
    repeat (first [break_if | break_match]); simpl; auto.
  - unfold updateAppointmentStatus.
    repeat (first [break_if | break_match]); simpl; auto.
  - unfold createPayment.
    repeat (first [break_if | break_match]); simpl; auto.
  - unfold updatePaymentStatus.
    repeat (first [break_if | break_match]); simpl; auto.
  - unfold createPrescription.
    destruct (findById a (appointments st)) as [appt|] eqn:Ha; auto.
    destruct (Appointment.doctorId appt =? User._id (user env))%nat eqn:Hdoc;
      simpl; auto.
    apply Nat.eqb_eq in Hdoc.
    break_if; simpl; auto. break_match; auto.
    match goal with
    | |- context [if ?b then _ else _] => destruct b eqn:Hvalid
    end; simpl; auto.
    apply andb_prop in Hvalid. destruct Hvalid as [_ Hvalid].
    right; left. eexists. exists appt. split; [reflexivity|]. simpl.
    repeat split; auto.
  - unfold updatePrescription.
    destruct (findById id (prescriptions st)) as [p|] eqn:Hp; auto.
    pose proof (findById_id _ _ _ Hp) as [_ Hin].
    break_if; simpl; auto.
    match goal with
    | |- context [if ?b then _ else _] => destruct b eqn:Hvalid
    end; simpl; auto.
    apply andb_prop in Hvalid. destruct Hvalid as [_ Hvalid].
    right; right. exists p. eexists. split; [exact Hin|].
    split; [reflexivity|]. simpl. repeat split; auto.
  - unfold startConsultation.
    repeat (first [break_if | break_match]); simpl; auto.
Qed.

(** ** More facts about collections *)

Lemma In_save {A : Type} `{Document A} (d x : A) (c : list A) :
  In x (save d c) -> x = d \/ In x c.
Proof.
  unfold save. intros Hin. apply in_map_iff in Hin.
  destruct Hin as [y [Hy Hin]].
  destruct (doc_id y =? doc_id d)%nat; [left | right]; congruence.
Qed.

Lemma In_insert {A : Type} `{Document A} (d x : A) (c : list A) :
  In x (insert d c) -> x = d \/ In x c.
Proof.
  unfold insert. intros Hin. apply in_app_or in Hin.
  destruct Hin as [Hin | [<- | []]]; [now right | now left].
Qed.

Section MoreCollectionFacts.
Context {A : Type} `{Document A}.

Lemma map_doc_id_update (k : ObjectId) (f : A -> A) (c : list A) :
  (forall x, doc_id (f x) = doc_id x) ->
  map doc_id (findByIdAndUpdate k f c) = map doc_id c.
Proof.
  intros Hf. unfold findByIdAndUpdate. rewrite map_map. apply map_ext.
  intros x. destruct (doc_id x =? k)%nat; [apply Hf | reflexivity].
Qed.

Lemma map_doc_id_insert (d : A) (c : list A) :
  map doc_id (insert d c) = map doc_id c ++ [doc_id d].
Proof. unfold insert. now rewrite map_app. Qed.

Lemma Forall_update (P : A -> Prop) (k : ObjectId) (f : A -> A) (c : list A) :
  Forall P c -> (forall x, P x -> P (f x)) ->
  Forall P (findByIdAndUpdate k f c).
Proof.
  intros Hall Hf. unfold findByIdAndUpdate. apply Forall_map.
  apply Forall_impl with (P := P); [|exact Hall].
  intros x Hx. destruct (doc_id x =? k)%nat; auto.
Qed.

Lemma save_absent (d : A) (c : list A) :
  (forall x, In x c -> doc_id x <> doc_id d) -> save d c = c.
Proof.
  intros Habs. unfold save. rewrite <- (map_id c) at 2.
  apply map_ext_in. intros x Hx.
  destruct (doc_id x =? doc_id d)%nat eqn:E; [|reflexivity].
  apply Nat.eqb_eq in E. exfalso. now apply (Habs x Hx).
Qed.

Lemma map_save_same {B : Type} (f : A -> B) (d x : A) (c : list A) :
  unique_ids c -> In x c -> doc_id d = doc_id x -> f d = f x ->
  map f (save d c) = map f c.
Proof.
  intros Hu Hx Hid Hf. unfold save. rewrite map_map.
  apply map_ext_in. intros y Hy.
  destruct (doc_id y =? doc_id d)%nat eqn:E; [|reflexivity].
  apply Nat.eqb_eq in E.
  assert (y = x) by (apply (unique_ids_eq c); congruence).
  congruence.
Qed.

Lemma NoDup_map_insert_gen {B : Type} (f : A -> B) (d : A) (c : list A) :
  NoDup (map f c) -> ~ In (f d) (map f c) -> NoDup (map f (insert d c)).
Proof.
  intros Hnd Hnotin. unfold insert. rewrite map_app. simpl.
  apply NoDup_app.
  - exact Hnd.
  - repeat constructor. simpl. tauto.
  - intros k Hk [<- | []]. contradiction.
Qed.

Lemma NoDup_map_save {B : Type} (f : A -> B) (d x : A) (c : list A) :
  unique_ids c -> NoDup (map f c) -> In x c -> doc_id d = doc_id x ->
  (forall q, In q c -> doc_id q <> doc_id x -> f q <> f d) ->
  NoDup (map f (save d c)).
Proof.
  unfold unique_ids. induction c as [|y c IH]; simpl; [contradiction|].
  intros Hu Hnd Hx Hid Hother.
  inversion Hu as [|? ? Hnotin Hu']; subst.
  inversion Hnd as [|? ? Hfnotin Hnd']; subst.
  destruct (doc_id y =? doc_id d)%nat eqn:E.
  - apply Nat.eqb_eq in E.
    assert (Habs : forall q, In q c -> doc_id q <> doc_id d).
    { intros q Hq Heq. apply Hnotin. rewrite E, <- Heq. now apply in_map. }
    rewrite (save_absent d c Habs). constructor; [|exact Hnd'].
    intros Hin. apply in_map_iff in Hin. destruct Hin as [q [Hfq Hq]].
    apply (Hother q); [now right | | exact Hfq].
    rewrite <- Hid. now apply Habs.
  - apply Nat.eqb_neq in E.
    destruct Hx as [-> | Hx]; [congruence|].
    constructor.
    + intros Hin. apply in_map_iff in Hin. destruct Hin as [q [Hfq Hq]].
      apply In_save in Hq. destruct Hq as [-> | Hq].
      * apply (Hother y); [now left | congruence | now symmetry].
      * apply Hfnotin. rewrite <- Hfq. now apply in_map.
    + apply IH; auto.
Qed.
End MoreCollectionFacts.

Lemma not_taken_new (txn : string) (c : list Payment.t) :
  transactionId_taken txn (new_id c) c = false ->
  ~ In txn (map Payment.transactionId c).
Proof.
  unfold transactionId_taken. intros Hfalse Hin.
  apply in_map_iff in Hin. destruct Hin as [q [Hq Hin]].
  assert (Htrue : existsb (fun q => negb (Payment._id q =? new_id c)%nat
                    && (Payment.transactionId q =? txn)%string) c = true).
  { apply existsb_exists. exists q. split; [exact Hin|].
    rewrite Hq, String.eqb_refl, andb_true_r.
    apply negb_true_iff, Nat.eqb_neq. exact (new_id_fresh c q Hin). }
  congruence.
Qed.

Lemma not_taken_other (txn : string) (self : ObjectId) (c : list Payment.t)
    (q : Payment.t) :
  transactionId_taken txn self c = false ->
  In q c -> Payment._id q <> self -> Payment.transactionId q <> txn.
Proof.
  unfold transactionId_taken. intros Hfalse Hin Hne Heq.
  assert (Htrue : existsb (fun q => negb (Payment._id q =? self)%nat
                    && (Payment.transactionId q =? txn)%string) c = true).
  { apply existsb_exists. exists q. split; [exact Hin|].
    rewrite Heq, String.eqb_refl, andb_true_r.
    now apply negb_true_iff, Nat.eqb_neq. }
  congruence.
Qed.

(** The participants of a stored appointment never change. *)
Lemma handle_keeps_participants env st req k a :
  findById k (appointments st) = Some a ->
  exists a', findById k (appointments (fst (handle env st req))) = Some a'
             /\ Appointment.patientId a' = Appointment.patientId a
             /\ Appointment.doctorId a' = Appointment.doctorId a
             /\ Appointment.dateTime a' = Appointment.dateTime a.
Proof.
  intros Hk.
  destruct (handle_appointments env st req)
    as [-> | [[d [t [n ->]]] | [[a0 [s [Ha0 [_ ->]]]] | [k0 ->]]]].
  - now exists a.
  - exists a. split; [now apply findById_insert | auto].
  - rewrite findById_save, Hk. simpl.
    change (doc_id (Appointment.set_status s a0)) with (doc_id a0).
    destruct (doc_id a =? doc_id a0)%nat eqn:E.
    + apply Nat.eqb_eq in E.
      pose proof (findById_id _ _ _ Hk) as [Hid _].
      assert (a0 = a) by congruence. subst a0.
      eexists. split; [reflexivity | auto].
    + now exists a.
  - rewrite findById_update by reflexivity. rewrite Hk. simpl.
    destruct (doc_id a =? k0)%nat; eexists; (split; [reflexivity | auto]).
Qed.

Lemma handle_facts env st req :
  store_inv st -> store_facts st -> store_facts (fst (handle env st req)).
Proof.
  intros [I1 I3 I4] [F1 F2 F3 F4 F5 F6 F7].
  assert (Hpay_of : forall p, payment_of_appointment st p ->
            payment_of_appointment (fst (handle env st req)) p).
  { intros p [a [Ha [Hp Hd]]].
    destruct (handle_keeps_participants env st req _ a Ha)
      as [a' [Ha' [Hp' [Hd' _]]]].
    exists a'. repeat split; congruence. }
  assert (Hpre_of : forall p, prescription_of_appointment st p ->
            prescription_of_appointment (fst (handle env st req)) p).
  { intros p [a [Ha [Hp Hd]]].
    destruct (handle_keeps_participants env st req _ a Ha)
      as [a' [Ha' [Hp' [Hd' _]]]].
    exists a'. repeat split; congruence. }
  constructor.
  - destruct (handle_appointments env st req)
      as [-> | [[d [t [n ->]]] | [[a0 [s [Ha0 [_ ->]]]] | [k0 ->]]]].
    + exact F1.
    + now apply unique_ids_insert.
    + now apply unique_ids_save.
    + unfold unique_ids. now rewrite map_doc_id_update.
  - destruct (handle_appointments env st req)
      as [-> | [[d [t [n ->]]] | [[a0 [s [Ha0 [Hs ->]]]] | [k0 ->]]]].
    + exact F2.
    + apply Forall_insert; [exact F2|]. simpl. tauto.
    + apply Forall_save; [exact F2 | exact Hs].
    + apply Forall_update; [exact F2|]. intros x _. simpl. tauto.
  - destruct (handle_payments env st req)
      as [-> | [[p' [a [-> H]] ] | [p [p' [Hin [-> H]]]]]].
    + exact F3.
    + apply Forall_insert; [exact F3|]. tauto.
    + apply Forall_save; [exact F3|].
      rewrite Forall_forall in F3. specialize (F3 p Hin).
      destruct H as [_ [_ [_ [_ [Ham [Hcur _]]]]]]. rewrite Ham, Hcur. exact F3.
  - destruct (handle_payments env st req)
      as [-> | [[p' [a [-> H]] ] | [p [p' [Hin [-> H]]]]]].
    + exact F4.
    + apply (NoDup_map_insert_gen Payment.transactionId); [exact F4|].
      destruct H as [Hid [_ [_ [_ [_ [_ [_ Hfresh]]]]]]].
      rewrite Hid in Hfresh. now apply not_taken_new.
    + destruct H as [Hid [_ [_ [_ [_ [_ [_ [Hsame | Hfresh]]]]]]]].
      * now rewrite (map_save_same Payment.transactionId p' p).
      * apply (NoDup_map_save Payment.transactionId p' p); auto.
        intros q Hq Hne. now apply (not_taken_other _ _ _ q Hfresh).
  - destruct (handle_payments env st req)
      as [Heq | [[p' [a [Heq H]] ] | [p [p' [Hin [Heq H]]]]]]; rewrite Heq.
    + apply Forall_impl with (P := payment_of_appointment st); auto.
    + apply Forall_insert.
      * apply Forall_impl with (P := payment_of_appointment st); auto.
      * apply Hpay_of. exists a. tauto.
    + apply Forall_save.
      * apply Forall_impl with (P := payment_of_appointment st); auto.
      * apply Hpay_of. rewrite Forall_forall in F5.
        destruct (F5 p Hin) as [a [Ha [Hp Hd]]].
        destruct H as [_ [Hk [Hpat [Hdoc _]]]].
        exists a. rewrite Hk, Hpat, Hdoc. auto.
  - destruct (handle_prescriptions env st req)
      as [Heq | [[p' [a [Heq H]] ] | [p [p' [Hin [Heq H]]]]]]; rewrite Heq.
    + apply Forall_impl with (P := prescription_of_appointment st); auto.
    + apply Forall_insert.
      * apply Forall_impl with (P := prescription_of_appointment st); auto.
      * apply Hpre_of. exists a. tauto.
    + apply Forall_save.
      * apply Forall_impl with (P := prescription_of_appointment st); auto.
      * apply Hpre_of. rewrite Forall_forall in F6.
        destruct (F6 p Hin) as [a [Ha [Hp Hd]]].
        destruct H as [_ [Hk [Hpat [Hdoc _]]]].
        exists a. rewrite Hk, Hpat, Hdoc. auto.
  - destruct (handle_prescriptions env st req)
      as [-> | [[p' [a [-> H]] ] | [p [p' [Hin [-> H]]]]]].
    + exact F7.
    + apply Forall_insert; [exact F7 | tauto].
    + apply Forall_save; [exact F7 | tauto].
Qed.

(** The save steps keep the facts, for a document that belongs to a
    stored appointment. *)
Lemma bookAppointment_save_facts st doc :
  In (Appointment.status doc) Appointment.statuses ->
  store_facts st -> store_facts (fst (bookAppointment_save st doc)).
Proof.
  intros Hs [F1 F2 F3 F4 F5 F6 F7]. unfold bookAppointment_save.
  cbn [fst].
  assert (Hfound : forall k a,
            findById k (appointments st) = Some a ->
            findById k (appointments
              (with_appointments
                 (insert (Appointment.mk (new_id (appointments st))
                            (Appointment.patientId doc) (Appointment.doctorId doc)
                            (Appointment.dateTime doc) (Appointment.note doc)
                            (Appointment.status doc) (Appointment.createdAt doc))
                         (appointments st)) st)) = Some a).
  { intros k a Ha. cbn [appointments with_appointments].
    now apply findById_insert. }
  constructor; cbn [appointments payments prescriptions with_appointments];
    try assumption.
  - now apply unique_ids_insert.
  - apply Forall_insert; [exact F2 | exact Hs].
  - apply Forall_impl with (P := payment_of_appointment st); [|exact F5].
    intros p [a [Ha H]]. exists a. split; [now apply Hfound | exact H].
  - apply Forall_impl with (P := prescription_of_appointment st); [|exact F6].
    intros p [a [Ha H]]. exists a. split; [now apply Hfound | exact H].
Qed.

Lemma createPayment_save_facts saved st doc :
  payment_of_appointment st doc ->
  Payment.amount doc = 500 -> Payment.currency doc = "ETB"%string ->
  store_facts st -> store_facts (fst (createPayment_save saved st doc)).
Proof.
  intros [a [Ha [Hp Hd]]] Ham Hcur Hfacts.
  pose proof Hfacts as [F1 F2 F3 F4 F5 F6 F7].
  unfold createPayment_save.
  break_if; cbn [fst]; [exact Hfacts|].
  constructor; cbn [appointments payments prescriptions with_payments];
    try assumption.
  - apply Forall_insert; [exact F3|]. simpl. auto.
  - apply (NoDup_map_insert_gen Payment.transactionId); [exact F4|].
    simpl. now apply not_taken_new.
  - apply Forall_insert; [exact F5|]. exists a. simpl. auto.
Qed.

Lemma createPrescription_save_facts saved st doc :
  prescription_of_appointment st doc ->
  store_facts st -> store_facts (fst (createPrescription_save saved st doc)).
Proof.
  intros [a [Ha [Hp Hd]]] Hfacts.
  pose proof Hfacts as [F1 F2 F3 F4 F5 F6 F7].
  unfold createPrescription_save.
  match goal with
  | |- context [if ?b then _ else _] => destruct b eqn:Hvalid
  end; cbn [fst]; [|exact Hfacts].
  constructor; cbn [appointments payments prescriptions with_prescriptions];
    try assumption.
  - apply Forall_insert; [exact F6|]. exists a. simpl. auto.
  - apply Forall_insert; [exact F7 | exact Hvalid].
Qed.

(** The participants of a stored appointment never change, whatever
    happens in between. *)
Lemma later_keeps_participants (st0 st : Store) :
  later st0 st ->
  forall k a,
    findById k (appointments st0) = Some a ->
    exists a', findById k (appointments st) = Some a'
               /\ Appointment.patientId a' = Appointment.patientId a
               /\ Appointment.doctorId a' = Appointment.doctorId a
               /\ Appointment.dateTime a' = Appointment.dateTime a.
Proof.
  induction 1 as [st | st0 st us _ IH | st0 st env req _ IH
                 | st0 st1 st env d t n doc _ IH1 Hlook _ IH2
                 | st0 st1 st env a0 m d doc saved _ IH1 Hlook _ IH2
                 | st0 st1 st env a0 b doc saved _ IH1 Hlook _ IH2];
    intros k a Hk.
  - now exists a.
  - exact (IH k a Hk).
  - destruct (IH k a Hk) as [a1 [H1 [Hp1 [Hd1 Ht1]]]].
    destruct (handle_keeps_participants env st req k a1 H1)
      as [a2 [H2 [Hp2 [Hd2 Ht2]]]].
    exists a2. repeat split; congruence.
  - destruct (IH1 k a Hk) as [a1 [H1 [Hp1 [Hd1 Ht1]]]].
    destruct (IH2 k a1 H1) as [a2 [H2 [Hp2 [Hd2 Ht2]]]].
    exists a2. split; [|repeat split; congruence].
    unfold bookAppointment_save. cbn [fst appointments with_appointments].
    now apply findById_insert.
  - destruct (IH1 k a Hk) as [a1 [H1 [Hp1 [Hd1 Ht1]]]].
    destruct (IH2 k a1 H1) as [a2 [H2 [Hp2 [Hd2 Ht2]]]].
    exists a2. split; [|repeat split; congruence].
    unfold createPayment_save. break_if; exact H2.
  - destruct (IH1 k a Hk) as [a1 [H1 [Hp1 [Hd1 Ht1]]]].
    destruct (IH2 k a1 H1) as [a2 [H2 [Hp2 [Hd2 Ht2]]]].
    exists a2. split; [|repeat split; congruence].
    unfold createPrescription_save. break_if; exact H2.
Qed.

Lemma later_facts (st0 st : Store) :
  later st0 st -> store_inv st0 -> store_facts st0 -> store_facts st.
Proof.
  induction 1 as [st | st0 st us _ IH | st0 st env req Hl IH
                 | st0 st1 st env d t n doc Hl1 IH1 Hlook Hl2 IH2
                 | st0 st1 st env a0 m d doc saved Hl1 IH1 Hlook Hl2 IH2
                 | st0 st1 st env a0 b doc saved Hl1 IH1 Hlook Hl2 IH2];
    intros Hinv Hfacts.
  - exact Hfacts.
  - destruct (IH Hinv Hfacts) as [F1 F2 F3 F4 F5 F6 F7].
    constructor; assumption.
  - apply handle_facts; [exact (later_inv _ _ Hl Hinv) | now apply IH].
  - pose proof (later_inv _ _ Hl1 Hinv) as Hinv1.
    apply bookAppointment_save_facts.
    + rewrite (bookAppointment_built _ _ _ _ _ _ Hlook). simpl. tauto.
    + apply IH2; [exact Hinv1 | now apply IH1].
  - pose proof (later_inv _ _ Hl1 Hinv) as Hinv1.
    destruct (createPayment_built _ _ _ _ _ _ Hlook)
      as [[a [Ha [Hp Hd]]] [Ham [Hcur _]]].
    destruct (later_keeps_participants _ _ Hl2 _ _ Ha)
      as [a' [Ha' [Hp' [Hd' _]]]].
    apply createPayment_save_facts; auto.
    exists a'. repeat split; congruence.
  - pose proof (later_inv _ _ Hl1 Hinv) as Hinv1.
    destruct (createPrescription_built _ _ _ _ _ Hlook) as [a [Ha [Hp Hd]]].
    destruct (later_keeps_participants _ _ Hl2 _ _ Ha)
      as [a' [Ha' [Hp' [Hd' _]]]].
    apply createPrescription_save_facts; auto.
    exists a'. repeat split; congruence.
Qed.

Lemma reachable_facts (st : Store) : reachable st -> store_facts st.
Proof.
  intros [us H]. apply (later_facts _ _ H); constructor; simpl; constructor.
Qed.

Lemma reachable_linked (st : Store) : reachable st -> payments_linked st.
Proof.
  intros Hreach p Hin.
  destruct (reachable_facts st Hreach) as [_ _ _ _ F5 _ _].
  rewrite Forall_forall in F5. destruct (F5 p Hin) as [a [Ha _]].
  rewrite Ha. discriminate.
Qed.

Lemma NoDup_map_eq {A B : Type} (f : A -> B) (c : list A) (x y : A) :
  NoDup (map f c) -> In x c -> In y c -> f x = f y -> x = y.
Proof.
  induction c as [|z c IH]; simpl; [contradiction|].
  intros Hnd Hx Hy Heq. inversion Hnd as [|? ? Hnotin Hnd']; subst.
  destruct Hx as [-> | Hx], Hy as [-> | Hy].
  - reflexivity.
  - exfalso. apply Hnotin. rewrite Heq. now apply in_map.
  - exfalso. apply Hnotin. rewrite <- Heq. now apply in_map.
  - now apply IH.
Qed.

(** ** A completed payment marks its appointment paid *)

Lemma billed_cancelled_reachable : reachable (Sample.billed "cancelled" "pending").
Proof.
  change (reachable (fst (handle Sample.as_doctor
                                 (Sample.billed "confirmed" "pending")
                                 (UpdateAppointmentStatus 1 "cancelled")))).
  apply reachable_handle, billed_pending_reachable.
Qed.

(** C2. In every reachable store, for every payment and every caller who
    is the payment's patient, its doctor or an admin, updatePaymentStatus
    with the status 'completed' answers 200 and stores 'completed' as the
    payment's status; the payment's appointment is stored, and reading it
    again after the call gives its status as 'paid', whatever the status
    was, with every other field of the appointment as before. *)
Theorem completed_payment_forces_paid
    (env : Env) (st : Store) (id : ObjectId) (notes : option string)
    (p : Payment.t) :
  reachable st ->
  findById id (payments st) = Some p ->
  (Payment.patientId p = User._id (user env)
   \/ Payment.doctorId p = User._id (user env)
   \/ User.role (user env) = "admin"%string) ->
  let r := updatePaymentStatus env st id "completed" notes in
  snd r = json 200 "Payment status updated successfully"
  /\ option_map Payment.status (findById id (payments (fst r)))
     = Some "completed"%string
  /\ option_map Appointment.status
       (findById (Payment.appointmentId p) (appointments (fst r)))
     = Some "paid"%string
  /\ exists a,
       findById (Payment.appointmentId p) (appointments st) = Some a
       /\ findById (Payment.appointmentId p) (appointments (fst r))
          = Some (Appointment.mk (Appointment._id a) (Appointment.patientId a)
                    (Appointment.doctorId a) (Appointment.dateTime a)
                    (Appointment.note a) "paid" (Appointment.createdAt a)).
Proof.
  intros Hreach Hp Hauth r.
  pose proof (findById_id _ _ _ Hp) as [_ Hin].
  pose proof (reachable_linked st Hreach p Hin) as Hlinked.
  destruct (findById (Payment.appointmentId p) (appointments st)) as [a|] eqn:Ha;
    [|contradiction].
  destruct (updatePaymentStatus_completed env st id notes p a Hp Hauth Ha)
    as [Hr [Hpay Happt]].
  fold r in Hr, Hpay, Happt.
  split; [exact Hr|]. split; [exact Hpay|]. split.
  - rewrite Happt. reflexivity.
  - exists a. split; [reflexivity|]. rewrite Happt. reflexivity.
Qed.

Lemma completed_payment_forces_paid_witness :
  option_map Appointment.status
    (findById 1 (appointments (Sample.billed "cancelled" "pending")))
  = Some "cancelled"%string
  /\ option_map Payment.status
       (findById 1 (payments
          (fst (updatePaymentStatus Sample.as_patient
                  (Sample.billed "cancelled" "pending") 1 "completed" None))))
     = Some "completed"%string
  /\ option_map Appointment.status
       (findById 1 (appointments
          (fst (updatePaymentStatus Sample.as_patient
                  (Sample.billed "cancelled" "pending") 1 "completed" None))))
     = Some "paid"%string.
Proof.
  destruct (completed_payment_forces_paid Sample.as_patient
              (Sample.billed "cancelled" "pending") 1 None (Sample.pay "pending")
              billed_cancelled_reachable eq_refl (or_introl eq_refl))
    as [_ [Hpayment [Happointment _]]].
  split; [reflexivity|]. split; [exact Hpayment | exact Happointment].
Defined.

(** ** Invariants of the reachable stores *)

(** X1. In every reachable store the status of every appointment is one of
    pending, confirmed, paid, consultation, completed, cancelled, and no
    two appointments share their [_id]. *)
Theorem appointment_status_in_enum (st : Store) (a : Appointment.t) :
  reachable st -> In a (appointments st) ->
  In (Appointment.status a) Appointment.statuses
  /\ forall b, In b (appointments st) ->
       Appointment._id b = Appointment._id a -> b = a.
Proof.
  intros Hreach Hin. destruct (reachable_facts st Hreach) as [F1 F2 _ _ _ _ _].
  split.
  - rewrite Forall_forall in F2. now apply F2.
  - intros b Hb Heq. now apply (unique_ids_eq (appointments st)).
Qed.

Lemma appointment_status_in_enum_witness :
  In "consultation"%string Appointment.statuses.
Proof.
  apply (appointment_status_in_enum Sample.treated (Sample.appt "consultation")).
  - apply treated_reachable.
  - simpl. tauto.
Defined.

(** X2. In every reachable store every payment has the amount 500, the
    currency ETB and a status among pending, completed, failed,
    cancelled. *)
Theorem payment_fee_fixed (st : Store) (p : Payment.t) :
  reachable st -> In p (payments st) ->
  Payment.amount p = 500
  /\ Payment.currency p = "ETB"%string
  /\ In (Payment.status p) Payment.statuses.
Proof.
  intros Hreach Hin.
  destruct (reachable_facts st Hreach) as [_ _ F3 _ _ _ _].
  destruct (reachable_inv st Hreach) as [_ I3 _].
  rewrite Forall_forall in F3, I3.
  destruct (F3 p Hin) as [Ham Hcur]. repeat split; auto.
Qed.

Lemma payment_fee_fixed_witness :
  Payment.amount (Sample.pay "failed") = 500.
Proof.
  apply (payment_fee_fixed (Sample.billed "confirmed" "failed")
                           (Sample.pay "failed")).
  - apply billed_failed_reachable.
  - simpl. tauto.
Defined.




(** X4. In every reachable store two payments with the same transactionId
    are the same payment. *)
Theorem transactionIds_distinct (st : Store) (p q : Payment.t) :
  reachable st -> In p (payments st) -> In q (payments st) ->
  Payment.transactionId p = Payment.transactionId q -> p = q.
Proof.
  intros Hreach Hp Hq Heq.
  destruct (reachable_facts st Hreach) as [_ _ _ F4 _ _ _].
  now apply (NoDup_map_eq Payment.transactionId (payments st)).
Qed.

Lemma transactionIds_distinct_witness :
  Sample.pay "pending" = Sample.pay "pending".
Proof.
  apply (transactionIds_distinct (Sample.billed "confirmed" "pending")).
  - apply billed_pending_reachable.
  - simpl. tauto.
  - simpl. tauto.
  - reflexivity.
Defined.

(** X5. In every reachable store the appointment of a payment is stored,
    and the payment's patientId and doctorId are those of that
    appointment. *)
Theorem payment_participants (st : Store) (p : Payment.t) :
  reachable st -> In p (payments st) ->
  exists a, findById (Payment.appointmentId p) (appointments st) = Some a
            /\ Payment.patientId p = Appointment.patientId a
            /\ Payment.doctorId p = Appointment.doctorId a.
Proof.
  intros Hreach Hin.
  destruct (reachable_facts st Hreach) as [_ _ _ _ F5 _ _].
  rewrite Forall_forall in F5. exact (F5 p Hin).
Qed.

Lemma payment_participants_witness :
  exists a, findById 1 (appointments (Sample.billed "cancelled" "pending"))
            = Some a
            /\ 10%nat = Appointment.patientId a
            /\ 20%nat = Appointment.doctorId a.
Proof.
  apply (payment_participants (Sample.billed "cancelled" "pending")
                              (Sample.pay "pending")).
  - apply billed_cancelled_reachable.
  - simpl. tauto.
Defined.

(** X6. In every reachable store the appointment of a prescription is
    stored, the prescription's patientId and doctorId are those of that
    appointment, its diagnosis is not empty, every medication has a name,
    a dosage, a frequency and a duration, and its status is active,
    completed or cancelled. *)
Theorem prescription_well_formed (st : Store) (p : Prescription.t) :
  reachable st -> In p (prescriptions st) ->
  (exists a, findById (Prescription.appointmentId p) (appointments st) = Some a
             /\ Prescription.patientId p = Appointment.patientId a
             /\ Prescription.doctorId p = Appointment.doctorId a)
  /\ Prescription.diagnosis p <> ""%string
  /\ (forall m, In m (Prescription.medications p) ->
        med_name m <> ""%string /\ med_dosage m <> ""%string
        /\ med_frequency m <> ""%string /\ med_duration m <> ""%string)
  /\ In (Prescription.status p) Prescription.statuses.
Proof.
  intros Hreach Hin.
  destruct (reachable_facts st Hreach) as [_ _ _ _ _ F6 F7].
  rewrite Forall_forall in F6, F7. split; [exact (F6 p Hin)|].
  specialize (F7 p Hin). unfold prescription_valid in F7.
  apply andb_prop in F7. destruct F7 as [F7 Hstatus].
  apply andb_prop in F7. destruct F7 as [Hdiag Hmeds].
  split; [|split].
  - apply negb_true_iff in Hdiag. now apply String.eqb_neq.
  - intros m Hm. rewrite forallb_forall in Hmeds. specialize (Hmeds m Hm).
    unfold medication_valid in Hmeds.
    repeat (apply andb_prop in Hmeds; destruct Hmeds as [Hmeds ?]).
    repeat match goal with
           | H : negb _ = true |- _ =>
               apply negb_true_iff in H; apply String.eqb_neq in H
           end.
    auto.
  - now apply includes_In.
Qed.

Lemma prescription_well_formed_witness :
  Prescription.diagnosis Sample.rx <> ""%string.
Proof.
  apply (prescription_well_formed Sample.treated Sample.rx).
  - apply treated_reachable.
  - simpl. tauto.
Defined.

(** ** Failed requests and deletions *)

(** X7. A request that is not answered 200 or 201 writes nothing: whenever
    one of the seven handlers answers with an error code, the store it
    returns is the store it received. *)
Theorem failed_request_writes_nothing (env : Env) (st : Store) (req : Request) :
  code (snd (handle env st req)) <> 200%nat ->
  code (snd (handle env st req)) <> 201%nat ->
  fst (handle env st req) = st.
Proof.
  destruct req as [d t n | id s | a m d | pid s n | a b | id b | id]; simpl.
  - unfold bookAppointment.
    repeat (first [break_if | break_match]); simpl; intros; congruence.
  - unfold updateAppointmentStatus.
    repeat (first [break_if | break_match]); simpl; intros; congruence.
  - unfold createPayment.
    repeat (first [break_if | break_match]); simpl; intros; congruence.
  - unfold updatePaymentStatus.
    repeat (first [break_if | break_match]); simpl; intros; congruence.
  - unfold createPrescription.
    repeat (first [break_if | break_match]); simpl; intros; congruence.
  - unfold updatePrescription.
    repeat (first [break_if | break_match]); simpl; intros; congruence.
  - unfold startConsultation.
    repeat (first [break_if | break_match]); simpl; intros; congruence.
Qed.

Lemma failed_request_writes_nothing_witness :
  fst (handle Sample.as_stranger (Sample.billed "confirmed" "pending")
              (UpdatePaymentStatus 1 "completed" None))
  = Sample.billed "confirmed" "pending".
Proof.
  apply failed_request_writes_nothing; simpl; discriminate.
Defined.

(** X8. No request removes a document or changes an [_id]: after any of
    the seven handlers the users are the same, and the [_id]s of the
    appointments, payments and prescriptions are those of before, in the
    same order, followed by at most one new [_id] each. *)
Theorem nothing_is_deleted (env : Env) (st : Store) (req : Request) :
  let st' := fst (handle env st req) in
  users st' = users st
  /\ (exists l, map doc_id (appointments st') = map doc_id (appointments st) ++ l
                /\ (List.length l <= 1)%nat)
  /\ (exists l, map doc_id (payments st') = map doc_id (payments st) ++ l
                /\ (List.length l <= 1)%nat)
  /\ (exists l, map doc_id (prescriptions st') = map doc_id (prescriptions st) ++ l
                /\ (List.length l <= 1)%nat).
Proof.
  intros st'. subst st'. split; [|split; [|split]].
  - destruct req; simpl;
      [ unfold bookAppointment | unfold updateAppointmentStatus
      | unfold createPayment | unfold updatePaymentStatus
      | unfold createPrescription | unfold updatePrescription
      | unfold startConsultation ];
      repeat (first [break_if | break_match]); reflexivity.
  - destruct (handle_appointments env st req)
      as [-> | [[d [t [n ->]]] | [[a0 [s [Ha0 [_ ->]]]] | [k0 ->]]]].
    + exists []. rewrite app_nil_r. split; [reflexivity | simpl; lia].
    + eexists. split; [apply map_doc_id_insert | simpl; lia].
    + exists []. rewrite app_nil_r. split; [apply map_doc_id_save | simpl; lia].
    + exists []. rewrite app_nil_r.
      split; [now apply map_doc_id_update | simpl; lia].
  - destruct (handle_payments env st req)
      as [-> | [[p' [a [-> H]] ] | [p [p' [Hin [-> H]]]]]].
    + exists []. rewrite app_nil_r. split; [reflexivity | simpl; lia].
    + eexists. split; [apply map_doc_id_insert | simpl; lia].
    + exists []. rewrite app_nil_r. split; [apply map_doc_id_save | simpl; lia].
  - destruct (handle_prescriptions env st req)
      as [-> | [[p' [a [-> H]] ] | [p [p' [Hin [-> H]]]]]].
    + exists []. rewrite app_nil_r. split; [reflexivity | simpl; lia].
    + eexists. split; [apply map_doc_id_insert | simpl; lia].
    + exists []. rewrite app_nil_r. split; [apply map_doc_id_save | simpl; lia].
Qed.

(** ** Reading an appointment *)

Lemma populated_check_present env st patientId doctorId :
  findById patientId (users st) <> None ->
  findById doctorId (users st) <> None ->
  populated_check env st patientId doctorId
  = if (patientId =? User._id (user env))%nat
       || (doctorId =? User._id (user env))%nat
       || (User.role (user env) =? "admin")%string
    then None else Some (json 403 "Not authorized").
Proof.
  intros Hp Hd. unfold populated_check.
  destruct (findById patientId (users st)) as [pu|] eqn:Hpu; [|contradiction].
  destruct (findById doctorId (users st)) as [du|] eqn:Hdu; [|contradiction].
  pose proof (findById_id _ _ _ Hpu) as [Hpid _].
  pose proof (findById_id _ _ _ Hdu) as [Hdid _].
  change (doc_id pu) with (User._id pu) in Hpid.
  change (doc_id du) with (User._id du) in Hdid.
  rewrite Hpid, Hdid.
  destruct (patientId =? User._id (user env))%nat; reflexivity.
Qed.

Lemma populated_check_no_patient env st patientId doctorId :
  findById patientId (users st) = None ->
  populated_check env st patientId doctorId = Some server_error.
Proof. intros Hp. unfold populated_check. now rewrite Hp. Qed.

Lemma populated_check_no_doctor env st patientId doctorId :
  findById patientId (users st) <> None ->
  findById doctorId (users st) = None ->
  populated_check env st patientId doctorId
  = if (patientId =? User._id (user env))%nat then None else Some server_error.
Proof.
  intros Hp Hd. unfold populated_check.
  destruct (findById patientId (users st)) as [pu|] eqn:Hpu; [|contradiction].
  pose proof (findById_id _ _ _ Hpu) as [Hpid _].
  change (doc_id pu) with (User._id pu) in Hpid.
  rewrite Hpid, Hd. reflexivity.
Qed.

(** X9. getAppointmentById answers 404 'Appointment not found' for an
    unknown id.  For a stored appointment whose patient and doctor accounts
    exist, it sends the appointment when the caller is the patient, the
    doctor or an admin, and answers 403 'Not authorized' to everybody
    else. *)
Theorem getAppointmentById_spec (env : Env) (st : Store) (id : ObjectId) :
  (findById id (appointments st) = None ->
   getAppointmentById env st id = Failed (json 404 "Appointment not found"))
  /\ forall a,
       findById id (appointments st) = Some a ->
       findById (Appointment.patientId a) (users st) <> None ->
       findById (Appointment.doctorId a) (users st) <> None ->
       (Appointment.patientId a = User._id (user env)
        \/ Appointment.doctorId a = User._id (user env)
        \/ User.role (user env) = "admin"%string ->
        getAppointmentById env st id = Sent a)
       /\ (Appointment.patientId a <> User._id (user env) ->
           Appointment.doctorId a <> User._id (user env) ->
           User.role (user env) <> "admin"%string ->
           getAppointmentById env st id = Failed (json 403 "Not authorized")).
Proof.
  unfold getAppointmentById. split.
  - intros Hnone. now rewrite Hnone.
  - intros a Ha Hp Hd. rewrite Ha, (populated_check_present env st _ _ Hp Hd).
    split.
    + intros [H | [H | H]].
      * apply Nat.eqb_eq in H. now rewrite H.
      * apply Nat.eqb_eq in H. rewrite H. now rewrite orb_true_r.
      * apply String.eqb_eq in H. rewrite H. now rewrite !orb_true_r.
    + intros H1 H2 H3.
      apply Nat.eqb_neq in H1, H2. apply String.eqb_neq in H3.
      now rewrite H1, H2, H3.
Qed.

Lemma getAppointmentById_spec_witness :
  getAppointmentById Sample.as_admin (Sample.one "paid") 1
  = Sent (Sample.appt "paid")
  /\ getAppointmentById Sample.as_stranger (Sample.one "paid") 1
     = Failed (json 403 "Not authorized").
Proof.
  destruct (getAppointmentById_spec Sample.as_admin (Sample.one "paid") 1)
    as [_ Hadmin].
  destruct (getAppointmentById_spec Sample.as_stranger (Sample.one "paid") 1)
    as [_ Hstranger].
  split.
  - apply (Hadmin (Sample.appt "paid")); try reflexivity; try discriminate.
    right; right. reflexivity.
  - apply (Hstranger (Sample.appt "paid")); try reflexivity; discriminate.
Defined.

(** ** Deleting an account *)

Section RemoveFacts.
Context {A : Type} `{Document A}.

Lemma findById_remove_other (k k' : ObjectId) (c : list A) :
  k' <> k -> findById k' (remove_by_id k c) = findById k' c.
Proof.
  intros Hne. unfold findById, findOne.
  induction c as [|x c IH]; simpl; [reflexivity|].
  destruct (doc_id x =? k)%nat eqn:E; simpl.
  - apply Nat.eqb_eq in E.
    destruct (doc_id x =? k')%nat eqn:E'; [|reflexivity].
    apply Nat.eqb_eq in E'. congruence.
  - destruct (doc_id x =? k')%nat; [reflexivity | exact IH].
Qed.

Lemma findById_remove_same (k : ObjectId) (c : list A) :
  unique_ids c -> findById k (remove_by_id k c) = None.
Proof.
  unfold unique_ids, findById, findOne.
  induction c as [|x c IH]; simpl; [reflexivity|].
  intros Hnd. inversion Hnd as [|? ? Hnotin Hnd']; subst.
  destruct (doc_id x =? k)%nat eqn:E; simpl.
  - apply Nat.eqb_eq in E.
    destruct (find (fun d => (doc_id d =? k)%nat) c) as [y|] eqn:Hy;
      [|reflexivity].
    apply find_some in Hy. destruct Hy as [Hin Hk]. apply Nat.eqb_eq in Hk.
    exfalso. apply Hnotin. rewrite E, <- Hk. now apply in_map.
  - rewrite E. now apply IH.
Qed.
End RemoveFacts.

(** X10. deleteUserAccount removes the account and nothing else: the
    appointments, payments and prescriptions of the deleted user stay, and
    a second deletion is answered 404.  Afterwards the reads that populate
    the user fail: once the patient's account is deleted,
    getAppointmentById answers 500 to every caller, the doctor and admins
    included; once the doctor's account is deleted, the patient still
    reads the appointment and every other caller is answered 500. *)
Theorem deleted_account_breaks_reads
    (env : Env) (st : Store) (id : ObjectId) (a : Appointment.t) (gone : ObjectId) :
  unique_ids (users st) ->
  findById gone (users st) <> None ->
  findById id (appointments st) = Some a ->
  let r := deleteUserAccount env st gone in
  snd r = json 200 "User deleted successfully"
  /\ appointments (fst r) = appointments st
  /\ payments (fst r) = payments st
  /\ prescriptions (fst r) = prescriptions st
  /\ findById gone (users (fst r)) = None
  /\ (forall env', deleteUserAccount env' (fst r) gone
                   = (fst r, json 404 "User not found"))
  /\ (gone = Appointment.patientId a ->
      forall env', getAppointmentById env' (fst r) id = Failed server_error)
  /\ (gone = Appointment.doctorId a ->
      gone <> Appointment.patientId a ->
      findById (Appointment.patientId a) (users st) <> None ->
      forall env',
        getAppointmentById env' (fst r) id
        = if (Appointment.patientId a =? User._id (user env'))%nat
          then Sent a else Failed server_error).
Proof.
  intros Hu Hgone Ha r. subst r. unfold deleteUserAccount.
  destruct (findById gone (users st)) as [u|] eqn:Hg; [|contradiction].
  simpl.
  pose proof (findById_remove_same gone (users st) Hu) as Hnone.
  repeat split; auto.
  - intros env'. now rewrite Hnone.
  - intros -> env'. unfold getAppointmentById. simpl. rewrite Ha.
    now rewrite populated_check_no_patient.
  - intros -> Hne Hp env'. unfold getAppointmentById. simpl. rewrite Ha.
    rewrite populated_check_no_doctor; simpl; auto.
    + now destruct (Appointment.patientId a =? User._id (user env'))%nat.
    + rewrite findById_remove_other by auto. exact Hp.
Qed.

Lemma deleted_account_breaks_reads_witness :
  getAppointmentById Sample.as_admin
    (fst (deleteUserAccount Sample.as_admin (Sample.one "paid") 10)) 1
  = Failed server_error.
Proof.
  assert (Hu : unique_ids (users (Sample.one "paid")))
    by (repeat constructor; simpl; intuition discriminate).
  assert (Hgone : findById 10 (users (Sample.one "paid")) <> None)
    by discriminate.
  destruct (deleted_account_breaks_reads Sample.as_admin (Sample.one "paid") 1
              (Sample.appt "paid") 10 Hu Hgone eq_refl)
    as [_ [_ [_ [_ [_ [_ [Hpatient _]]]]]]].
  apply Hpatient. reflexivity.
Defined.

(** ** Reading payments and prescriptions *)

Lemma In_save_self {A : Type} `{Document A} (d x : A) (c : list A) :
  In x c -> doc_id d = doc_id x -> In d (save d c).
Proof.
  intros Hin Hid. unfold save. apply in_map_iff. exists x.
  split; [|exact Hin]. rewrite Hid. now rewrite Nat.eqb_refl.
Qed.

Lemma findOne_key_only {A : Type} `{Document A} (key : A -> ObjectId)
    (p : A) (c : list A) :
  In p c ->
  (forall q, In q c -> key q = key p -> q = p) ->
  findOne (fun q => (key q =? key p)%nat) c = Some p.
Proof.
  intros Hin Honly.
  destruct (findOne_key_found key (key p) c) as [q Hq]; [now exists p|].
  rewrite Hq. pose proof (find_some _ _ Hq) as [Hqin Hk].
  apply Nat.eqb_eq in Hk. f_equal. now apply Honly.
Qed.

(** X11. In a reachable store, for a stored prescription that is the only
    one of its appointment, the two ways of reading it give the same
    answer to every caller: getPrescriptionByAppointment on its
    appointment and getPrescriptionById on its [_id].  When the accounts
    of its patient and doctor exist, getPrescriptionById answers with the
    prescription for the patient, the doctor and admins, and with 403 for
    everybody else. *)
Theorem prescription_reads_agree
    (env : Env) (st : Store) (p : Prescription.t) :
  reachable st -> In p (prescriptions st) ->
  (forall q, In q (prescriptions st) ->
     Prescription.appointmentId q = Prescription.appointmentId p -> q = p) ->
  getPrescriptionByAppointment env st (Prescription.appointmentId p)
  = getPrescriptionById env st (Prescription._id p)
  /\ (findById (Prescription.patientId p) (users st) <> None ->
      findById (Prescription.doctorId p) (users st) <> None ->
      getPrescriptionById env st (Prescription._id p)
      = if (Prescription.patientId p =? User._id (user env))%nat
           || (Prescription.doctorId p =? User._id (user env))%nat
           || (User.role (user env) =? "admin")%string
        then Sent p else Failed (json 403 "Not authorized")).
Proof.
  intros Hreach Hin Honly.
  destruct (reachable_inv st Hreach) as [_ _ I3].
  unfold getPrescriptionByAppointment, getPrescriptionById.
  rewrite (findOne_key_only Prescription.appointmentId p (prescriptions st)
             Hin Honly).
  pose proof (findById_In p (prescriptions st) I3 Hin) as Hf.
  change (doc_id p) with (Prescription._id p) in Hf. rewrite Hf.
  split; [reflexivity|].
  intros Hp Hd. rewrite (populated_check_present env st _ _ Hp Hd).
  now destruct ((Prescription.patientId p =? User._id (user env))%nat
                || (Prescription.doctorId p =? User._id (user env))%nat
                || (User.role (user env) =? "admin")%string).
Qed.

Lemma prescription_reads_agree_witness :
  getPrescriptionByAppointment Sample.as_patient Sample.treated 1
  = getPrescriptionById Sample.as_patient Sample.treated 1.
Proof.
  assert (Hin : In Sample.rx (prescriptions Sample.treated))
    by (simpl; tauto).
  assert (Honly : forall q, In q (prescriptions Sample.treated) ->
            Prescription.appointmentId q = Prescription.appointmentId Sample.rx ->
            q = Sample.rx)
    by (intros q [<- | []] _; reflexivity).
  exact (proj1 (prescription_reads_agree Sample.as_patient Sample.treated
                  Sample.rx treated_reachable Hin Honly)).
Defined.

(** X12. In a reachable store, for a stored payment that is the only one
    of its appointment, getPaymentByAppointment on that appointment sends
    the payment to its patient, its doctor and admins and answers 403 to
    everybody else, whether or not the accounts of the participants still
    exist; getPaymentById gives the same answer when both accounts
    exist. *)
Theorem payment_reads_agree (env : Env) (st : Store) (p : Payment.t) :
  reachable st -> In p (payments st) ->
  (forall q, In q (payments st) ->
     Payment.appointmentId q = Payment.appointmentId p -> q = p) ->
  getPaymentByAppointment env st (Payment.appointmentId p)
  = (if (Payment.patientId p =? User._id (user env))%nat
        || (Payment.doctorId p =? User._id (user env))%nat
        || (User.role (user env) =? "admin")%string
     then Sent p else Failed (json 403 "Not authorized"))
  /\ (findById (Payment.patientId p) (users st) <> None ->
      findById (Payment.doctorId p) (users st) <> None ->
      getPaymentById env st (Payment._id p)
      = getPaymentByAppointment env st (Payment.appointmentId p)).
Proof.
  intros Hreach Hin Honly.
  pose proof (reachable_inv st Hreach) as Hinv.
  destruct (reachable_facts st Hreach) as [_ _ _ _ F5 _ _].
  rewrite Forall_forall in F5. destruct (F5 p Hin) as [a [Ha [Hpa Hda]]].
  assert (Hget : getPaymentByAppointment env st (Payment.appointmentId p)
                 = if (Payment.patientId p =? User._id (user env))%nat
                      || (Payment.doctorId p =? User._id (user env))%nat
                      || (User.role (user env) =? "admin")%string
                   then Sent p else Failed (json 403 "Not authorized")).
  { unfold getPaymentByAppointment. rewrite Ha, <- Hpa, <- Hda.
    rewrite (findOne_key_only Payment.appointmentId p (payments st) Hin Honly).
    now destruct ((Payment.patientId p =? User._id (user env))%nat
                  || (Payment.doctorId p =? User._id (user env))%nat
                  || (User.role (user env) =? "admin")%string). }
  rewrite Hget. split; [reflexivity|].
  intros Hp Hd. unfold getPaymentById.
  pose proof (findById_In p (payments st) (inv_payment_ids _ Hinv) Hin) as Hf.
  change (doc_id p) with (Payment._id p) in Hf. rewrite Hf.
  rewrite (populated_check_present env st _ _ Hp Hd).
  now destruct ((Payment.patientId p =? User._id (user env))%nat
                || (Payment.doctorId p =? User._id (user env))%nat
                || (User.role (user env) =? "admin")%string).
Qed.

Lemma payment_reads_agree_witness :
  getPaymentByAppointment Sample.as_doctor
    (Sample.billed "confirmed" "failed") 1
  = Sent (Sample.pay "failed").
Proof.
  assert (Hin : In (Sample.pay "failed")
                    (payments (Sample.billed "confirmed" "failed")))
    by (simpl; tauto).
  assert (Honly : forall q,
            In q (payments (Sample.billed "confirmed" "failed")) ->
            Payment.appointmentId q
            = Payment.appointmentId (Sample.pay "failed") ->
            q = Sample.pay "failed")
    by (intros q [<- | []] _; reflexivity).
  exact (proj1 (payment_reads_agree Sample.as_doctor
                  (Sample.billed "confirmed" "failed") (Sample.pay "failed")
                  billed_failed_reachable Hin Honly)).
Defined.






(** ** Listing payments and prescriptions *)

Section SortDescendingFacts.
Context {A : Type} (key : A -> Z).

Lemma insert_desc_perm (a : A) (l : list A) :
  Permutation (a :: l) (insert_desc key a l).
Proof.
  induction l as [|b l IH]; simpl.
  - apply Permutation_refl.
  - destruct (key b <=? key a).
    + apply Permutation_refl.
    + apply perm_trans with (b :: a :: l); [apply perm_swap|].
      now apply perm_skip.
Qed.

Lemma insert_desc_sorted (a : A) (l : list A) :
  StronglySorted (descending key) l ->
  StronglySorted (descending key) (insert_desc key a l).
Proof.
  induction 1 as [|b l Hsorted IH Hall]; simpl.
  - repeat constructor.
  - destruct (key b <=? key a) eqn:Hle.
    + apply Z.leb_le in Hle. constructor.
      * now constructor.
      * constructor; [exact Hle|].
        apply Forall_impl with (P := descending key b); [|exact Hall].
        unfold descending. intros c Hc. lia.
    + apply Z.leb_gt in Hle. constructor; [exact IH|].
      apply Forall_forall. intros c Hc.
      apply (Permutation_in c (Permutation_sym (insert_desc_perm a l))) in Hc.
      destruct Hc as [<- | Hc].
      * unfold descending. lia.
      * rewrite Forall_forall in Hall. now apply Hall.
Qed.

Lemma sort_desc_perm (l : list A) : Permutation l (sort_desc key l).
Proof.
  induction l as [|a l IH]; simpl; [constructor|].
  apply perm_trans with (a :: sort_desc key l).
  - now apply perm_skip.
  - apply insert_desc_perm.
Qed.

Lemma sort_desc_sorted (l : list A) :
  StronglySorted (descending key) (sort_desc key l).
Proof.
  induction l as [|a l IH]; simpl; [constructor|].
  now apply insert_desc_sorted.
Qed.
End SortDescendingFacts.

Lemma mine_true {A : Type} (patientId doctorId : A -> ObjectId)
    (status_of : A -> string) (env : Env) (status : option string) (d : A) :
  mine patientId doctorId status_of env status d = true <->
  (User.role (user env) = "patient"%string -> patientId d = User._id (user env))
  /\ (User.role (user env) = "doctor"%string -> doctorId d = User._id (user env))
  /\ (forall s, status = Some s -> s <> ""%string -> status_of d = s).
Proof.
  unfold mine. rewrite andb_true_iff.
  assert (Hrole :
    (if (User.role (user env) =? "patient")%string
     then (patientId d =? User._id (user env))%nat
     else if (User.role (user env) =? "doctor")%string
          then (doctorId d =? User._id (user env))%nat
          else true) = true
    <-> (User.role (user env) = "patient"%string ->
         patientId d = User._id (user env))
        /\ (User.role (user env) = "doctor"%string ->
            doctorId d = User._id (user env))).
  { destruct (User.role (user env) =? "patient")%string eqn:Hp.
    - apply String.eqb_eq in Hp. rewrite Nat.eqb_eq. rewrite Hp.
      split; [intros H; split; [auto | discriminate] | intros [H _]; auto].
    - apply String.eqb_neq in Hp.
      destruct (User.role (user env) =? "doctor")%string eqn:Hd.
      + apply String.eqb_eq in Hd. rewrite Nat.eqb_eq.
        split; [intros H; split; [contradiction | auto] | intros [_ H]; auto].
      + apply String.eqb_neq in Hd. split; [split; contradiction | reflexivity]. }
  assert (Hstatus :
    (if truthy status
     then match status with
          | Some s => (status_of d =? s)%string
          | None => true
          end
     else true) = true
    <-> (forall s, status = Some s -> s <> ""%string -> status_of d = s)).
  { destruct status as [s|]; simpl.
    - destruct (s =? "")%string eqn:Hs; simpl.
      + apply String.eqb_eq in Hs. split; [|reflexivity].
        intros _ s' Hs' Hne. congruence.
      + apply String.eqb_neq in Hs. rewrite String.eqb_eq. split.
        * intros H s' Hs' _. congruence.
        * intros H. now apply H.
    - split; [intros _ s Hs; discriminate | reflexivity]. }
  rewrite Hrole, Hstatus. tauto.
Qed.

(** X15. The list returned by getMyPayments is sorted by createdAt, newest
    first, and holds exactly the stored payments that pass the filters,
    each as often as in the store: the caller is the payment's patient
    when the caller's role is patient, its doctor when the role is doctor
    (an admin sees every payment), and the status equals the status
    parameter when a non-empty one is given. *)
Theorem getMyPayments_spec (env : Env) (st : Store) (status : option string) :
  let r := getMyPayments env st status in
  StronglySorted (descending Payment.createdAt) r
  /\ Permutation r
       (filter (mine Payment.patientId Payment.doctorId Payment.status env status)
               (payments st))
  /\ forall p,
       In p r <->
       In p (payments st)
       /\ (User.role (user env) = "patient"%string ->
           Payment.patientId p = User._id (user env))
       /\ (User.role (user env) = "doctor"%string ->
           Payment.doctorId p = User._id (user env))
       /\ (forall s, status = Some s -> s <> ""%string -> Payment.status p = s).
Proof.
  intros r. subst r. unfold getMyPayments.
  split; [apply sort_desc_sorted|].
  split; [apply Permutation_sym, sort_desc_perm|].
  intros p. rewrite <- mine_true, <- filter_In.
  split; apply Permutation_in; [apply Permutation_sym|]; apply sort_desc_perm.
Qed.

(** X16. The list returned by getMyPrescriptions is sorted by createdAt,
    newest first, and holds exactly the stored prescriptions that pass the
    filters, each as often as in the store: the caller is the patient when
    the caller's role is patient, the doctor when the role is doctor (an
    admin sees every prescription), and the status equals the status
    parameter when a non-empty one is given. *)
Theorem getMyPrescriptions_spec (env : Env) (st : Store) (status : option string) :
  let r := getMyPrescriptions env st status in
  StronglySorted (descending Prescription.createdAt) r
  /\ Permutation r
       (filter (mine Prescription.patientId Prescription.doctorId
                     Prescription.status env status)
               (prescriptions st))
  /\ forall p,
       In p r <->
       In p (prescriptions st)
       /\ (User.role (user env) = "patient"%string ->
           Prescription.patientId p = User._id (user env))
       /\ (User.role (user env) = "doctor"%string ->
           Prescription.doctorId p = User._id (user env))
       /\ (forall s, status = Some s -> s <> ""%string ->
           Prescription.status p = s).
Proof.
  intros r. subst r. unfold getMyPrescriptions.
  split; [apply sort_desc_sorted|].
  split; [apply Permutation_sym, sort_desc_perm|].
  intros p. rewrite <- mine_true, <- filter_In.
  split; apply Permutation_in; [apply Permutation_sym|]; apply sort_desc_perm.
Qed.

(** ** updatePaymentStatus: errors and effect *)

(** X17. updatePaymentStatus checks, in this order: a status outside
    pending, completed, failed, cancelled is answered 400 'Invalid status'
    whatever the store; an unknown payment 404; a caller who is neither
    the payment's patient nor its doctor nor an admin 403; none of these
    writes.  Otherwise the answer is 200 and the payment is stored with
    the new status, with the notes of the request when they are not empty
    and its former notes otherwise, and with every other field but
    updatedAt as before; for a status other than 'completed' the
    appointments are left as they are. *)
Theorem updatePaymentStatus_spec
    (env : Env) (st : Store) (id : ObjectId) (status : string)
    (notes : option string) :
  let r := updatePaymentStatus env st id status notes in
  (~ In status Payment.statuses -> r = (st, json 400 "Invalid status"))
  /\ (In status Payment.statuses ->
      (findById id (payments st) = None ->
       r = (st, json 404 "Payment not found"))
      /\ forall p, findById id (payments st) = Some p ->
           (Payment.patientId p <> User._id (user env) ->
            Payment.doctorId p <> User._id (user env) ->
            User.role (user env) <> "admin"%string ->
            r = (st, json 403 "Not authorized"))
           /\ (Payment.patientId p = User._id (user env)
               \/ Payment.doctorId p = User._id (user env)
               \/ User.role (user env) = "admin"%string ->
               snd r = json 200 "Payment status updated successfully"
               /\ findById id (payments (fst r))
                  = Some (Payment.mk (Payment._id p) (Payment.appointmentId p)
                            (Payment.patientId p) (Payment.doctorId p)
                            (Payment.amount p) (Payment.currency p)
                            (Payment.paymentMethod p) (Payment.transactionId p)
                            status (Payment.paymentDetails p)
                            (match notes with
                             | Some n => if (n =? "")%string
                                         then Payment.notes p else Some n
                             | None => Payment.notes p
                             end)
                            (Payment.createdAt p) (now env))
               /\ (status <> "completed"%string ->
                   appointments (fst r) = appointments st))).
Proof.
  intros r. subst r. unfold updatePaymentStatus. split.
  - intros Hnot. apply includes_not_In in Hnot. now rewrite Hnot.
  - intros Hin. apply includes_In in Hin. rewrite Hin. simpl. split.
    + intros Hnone. now rewrite Hnone.
    + intros p Hp. rewrite Hp. pose proof (findById_id _ _ _ Hp) as [Hid _].
      split.
      * intros H1 H2 H3. apply Nat.eqb_neq in H1, H2. apply String.eqb_neq in H3.
        now rewrite H1, H2, H3.
      * intros Hauth.
        assert (Hok : (Payment.patientId p =? User._id (user env))%nat
                      || (Payment.doctorId p =? User._id (user env))%nat
                      || (User.role (user env) =? "admin")%string = true).
        { destruct Hauth as [H | [H | H]].
          - apply Nat.eqb_eq in H. now rewrite H.
          - apply Nat.eqb_eq in H. rewrite H. now rewrite orb_true_r.
          - apply String.eqb_eq in H. rewrite H. now rewrite orb_true_r. }
        rewrite Hok. simpl. split; [reflexivity|]. split.
        -- assert (Hnotes : (if truthy notes then notes else Payment.notes p)
                            = match notes with
                              | Some n => if (n =? "")%string
                                          then Payment.notes p else Some n
                              | None => Payment.notes p
                              end).
           { destruct notes as [n|]; simpl; [|reflexivity].
             now destruct (n =? "")%string. }
           rewrite <- Hnotes.
           destruct (status =? "completed")%string; simpl;
             (eapply findById_save_found; [exact Hp | exact Hid]).
        -- intros Hne. apply String.eqb_neq in Hne. now rewrite Hne.
Qed.

Lemma updatePaymentStatus_spec_witness :
  updatePaymentStatus Sample.as_stranger (Sample.billed "confirmed" "pending")
                      1 "completed" None
  = (Sample.billed "confirmed" "pending", json 403 "Not authorized").
Proof.
  destruct (updatePaymentStatus_spec Sample.as_stranger
              (Sample.billed "confirmed" "pending") 1 "completed" None)
    as [_ Hin].
  assert (Hs : In "completed"%string Payment.statuses) by (simpl; tauto).
  destruct (Hin Hs) as [_ Hfound].
  destruct (Hfound (Sample.pay "pending") eq_refl) as [Hrefused _].
  apply Hrefused; discriminate.
Defined.

(** X18. A completed payment that is set back does not set the
    appointment back.  In a reachable store, after updatePaymentStatus
    'completed' and then updatePaymentStatus with any other status of the
    enum on the same payment, the payment has that status while its
    appointment is still 'paid', and startConsultation by the
    appointment's doctor is answered 200. *)
Theorem reverted_payment_keeps_paid
    (env : Env) (st : Store) (id : ObjectId) (n1 n2 : option string)
    (p : Payment.t) (s : string) :
  reachable st ->
  findById id (payments st) = Some p ->
  (Payment.patientId p = User._id (user env)
   \/ Payment.doctorId p = User._id (user env)
   \/ User.role (user env) = "admin"%string) ->
  In s Payment.statuses -> s <> "completed"%string ->
  let st1 := fst (updatePaymentStatus env st id "completed" n1) in
  let st2 := fst (updatePaymentStatus env st1 id s n2) in
  option_map Payment.status (findById id (payments st2)) = Some s
  /\ exists a,
       findById (Payment.appointmentId p) (appointments st2) = Some a
       /\ Appointment.status a = "paid"%string
       /\ forall envd, User._id (user envd) = Appointment.doctorId a ->
            code (snd (startConsultation envd st2 (Payment.appointmentId p)))
            = 200%nat.
Proof.
  intros Hreach Hp Hauth Hs Hne st1 st2.
  pose proof (findById_id _ _ _ Hp) as [Hid Hin].
  pose proof (reachable_linked st Hreach p Hin) as Hlinked.
  destruct (findById (Payment.appointmentId p) (appointments st)) as [a|] eqn:Ha;
    [|contradiction].
  destruct (updatePaymentStatus_completed env st id n1 p a Hp Hauth Ha)
    as [_ [Hpay1 Happt1]].
  fold st1 in Hpay1, Happt1.
  destruct (findById id (payments st1)) as [p1|] eqn:Hp1; [|discriminate].
  assert (Hsame : Payment.patientId p1 = Payment.patientId p
                  /\ Payment.doctorId p1 = Payment.doctorId p
                  /\ Payment.appointmentId p1 = Payment.appointmentId p).
  { revert Hp1. subst st1. unfold updatePaymentStatus. simpl. rewrite Hp.
    assert (Hok : (Payment.patientId p =? User._id (user env))%nat
                  || (Payment.doctorId p =? User._id (user env))%nat
                  || (User.role (user env) =? "admin")%string = true).
    { destruct Hauth as [H | [H | H]].
      - apply Nat.eqb_eq in H. now rewrite H.
      - apply Nat.eqb_eq in H. rewrite H. now rewrite orb_true_r.
      - apply String.eqb_eq in H. rewrite H. now rewrite orb_true_r. }
    rewrite Hok. simpl.
    erewrite findById_save_found; [|exact Hp | exact Hid].
    intros Heq. injection Heq as <-. simpl. auto. }
  destruct Hsame as [Hpat [Hdoc Happ]].
  assert (Hauth1 : Payment.patientId p1 = User._id (user env)
                   \/ Payment.doctorId p1 = User._id (user env)
                   \/ User.role (user env) = "admin"%string)
    by (rewrite Hpat, Hdoc; exact Hauth).
  subst st2. unfold updatePaymentStatus at 1 2 3.
  apply includes_In in Hs. rewrite Hs. simpl. rewrite Hp1.
  assert (Hok1 : (Payment.patientId p1 =? User._id (user env))%nat
                 || (Payment.doctorId p1 =? User._id (user env))%nat
                 || (User.role (user env) =? "admin")%string = true).
  { destruct Hauth1 as [H | [H | H]].
    - apply Nat.eqb_eq in H. now rewrite H.
    - apply Nat.eqb_eq in H. rewrite H. now rewrite orb_true_r.
    - apply String.eqb_eq in H. rewrite H. now rewrite orb_true_r. }
  rewrite Hok1. simpl.
  apply String.eqb_neq in Hne. rewrite Hne. simpl.
  pose proof (findById_id _ _ _ Hp1) as [Hid1 _].
  split.
  - erewrite findById_save_found; [reflexivity | exact Hp1 | exact Hid1].
  - exists (Appointment.set_status "paid" a).
    split; [exact Happt1|]. split; [reflexivity|].
    intros envd Hd. unfold startConsultation. simpl. rewrite Happt1. simpl.
    simpl in Hd. apply Nat.eqb_eq in Hd.
    rewrite Nat.eqb_sym in Hd. rewrite Hd. reflexivity.
Qed.

Lemma reverted_payment_keeps_paid_witness :
  option_map Payment.status
    (findById 1
       (payments
          (fst (updatePaymentStatus Sample.as_patient
                  (fst (updatePaymentStatus Sample.as_patient
                          (Sample.billed "confirmed" "pending") 1 "completed"
                          None))
                  1 "failed" None))))
  = Some "failed"%string.
Proof.
  apply (reverted_payment_keeps_paid Sample.as_patient
           (Sample.billed "confirmed" "pending") 1 None None
           (Sample.pay "pending") "failed").
  - apply billed_pending_reachable.
  - reflexivity.
  - left. reflexivity.
  - simpl. tauto.
  - discriminate.
Defined.

(** ** When createPrescription and bookAppointment succeed *)

(** X19. On a stored appointment createPrescription is answered 201
    exactly when the caller is the appointment's doctor, the status is
    'consultation', no prescription of the appointment is stored, the
    diagnosis is not empty, every medication has its name, dosage,
    frequency and duration, and the follow-up date, when given, is a valid
    date.  When only the last three fail, the schema validation fails: the
    answer is 500 'Server error', not a 400, and nothing is stored. *)
Theorem createPrescription_success
    (env : Env) (st : Store) (id : ObjectId) (body : PrescriptionBody)
    (a : Appointment.t) :
  findById id (appointments st) = Some a ->
  let r := createPrescription env st id body in
  let well_formed :=
    truthy (b_diagnosis body) = true
    /\ (forall m, In m (from_option [] (b_medications body)) ->
          med_name m <> ""%string /\ med_dosage m <> ""%string
          /\ med_frequency m <> ""%string /\ med_duration m <> ""%string)
    /\ b_followUpDate body <> Some None in
  (code (snd r) = 201%nat <->
   Appointment.doctorId a = User._id (user env)
   /\ Appointment.status a = "consultation"%string
   /\ (forall p, In p (prescriptions st) -> Prescription.appointmentId p <> id)
   /\ well_formed)
  /\ (Appointment.doctorId a = User._id (user env) ->
      Appointment.status a = "consultation"%string ->
      (forall p, In p (prescriptions st) -> Prescription.appointmentId p <> id) ->
      ~ well_formed ->
      r = (st, server_error)).
Proof.
  intros Ha r well_formed. subst r.
  assert (Hvalid :
    forall p, Prescription.diagnosis p = from_option ""%string (b_diagnosis body) ->
      Prescription.medications p = from_option [] (b_medications body) ->
      Prescription.status p = "active"%string ->
      (date_castable (b_followUpDate body) && prescription_valid p = true
       <-> well_formed)).
  { intros p Hd Hm Hs. subst well_formed. unfold prescription_valid.
    rewrite Hd, Hm, Hs. rewrite !andb_true_iff, forallb_forall.
    assert (H1 : negb (from_option "" (b_diagnosis body) =? "")%string = true
                 <-> truthy (b_diagnosis body) = true).
    { destruct (b_diagnosis body); simpl; [reflexivity|]. split; discriminate. }
    assert (H2 : date_castable (b_followUpDate body) = true
                 <-> b_followUpDate body <> Some None).
    { destruct (b_followUpDate body) as [[t|]|]; simpl; split; intros H;
        solve [reflexivity | discriminate | exfalso; now apply H]. }
    assert (H3 : forall m, medication_valid m = true <->
                 med_name m <> ""%string /\ med_dosage m <> ""%string
                 /\ med_frequency m <> ""%string /\ med_duration m <> ""%string).
    { intros m. unfold medication_valid.
      rewrite !andb_true_iff, !negb_true_iff, !String.eqb_neq. tauto. }
    rewrite H1, H2. split.
    - intros [Hdate [[Hdiag Hmeds] _]]. repeat split; auto.
      all: apply H3; now apply Hmeds.
    - intros [Hdiag [Hmeds Hdate]]. repeat split; auto.
      intros m Hin. apply H3. now apply Hmeds. }
  assert (Hnone :
    findOne (fun p => (Prescription.appointmentId p =? id)%nat) (prescriptions st)
    = None <->
    (forall p, In p (prescriptions st) -> Prescription.appointmentId p <> id)).
  { rewrite (findOne_key_None Prescription.appointmentId). split.
    - intros Hnot p Hin Heq. apply Hnot. rewrite <- Heq. now apply in_map.
    - intros Hall Hin. apply in_map_iff in Hin. destruct Hin as [p [Hk Hin]].
      exact (Hall p Hin Hk). }
  unfold createPrescription. rewrite Ha.
  destruct (Appointment.doctorId a =? User._id (user env))%nat eqn:Hdoc; simpl.
  2:{ apply Nat.eqb_neq in Hdoc. split; [|intros; contradiction].
      split; [discriminate | tauto]. }
  apply Nat.eqb_eq in Hdoc.
  destruct (Appointment.status a =? "consultation")%string eqn:Hst; simpl.
  2:{ apply String.eqb_neq in Hst. split; [|intros; contradiction].
      split; [discriminate | tauto]. }
  apply String.eqb_eq in Hst.
  destruct (findOne (fun p => (Prescription.appointmentId p =? id)%nat)
                    (prescriptions st)) eqn:Hone.
  { assert (Hsome : ~ (forall p, In p (prescriptions st) ->
                               Prescription.appointmentId p <> id)).
    { intros Hall. apply Hnone in Hall. discriminate. }
    split; [|intros; contradiction].
    split; [discriminate | tauto]. }
  assert (Hall : forall p, In p (prescriptions st) ->
                           Prescription.appointmentId p <> id)
    by (now apply Hnone).
  match goal with
  | |- context [if ?b then _ else _] =>
      destruct b eqn:Hb; simpl
  end.
  - apply Hvalid in Hb; try reflexivity. split; [tauto|].
    intros _ _ _ Hnot. contradiction.
  - assert (Hnot : ~ well_formed).
    { intros Hwf. apply (Hvalid (Prescription.mk (new_id (prescriptions st)) id
                 (User._id (user env)) (Appointment.patientId a)
                 (from_option ""%string (b_diagnosis body))
                 (from_option [] (b_medications body)) (b_instructions body)
                 match b_followUpDate body with
                 | Some d => d
                 | None => None
                 end (b_notes body) "active" (now env) (now env)))
        in Hwf; try reflexivity. congruence. }
    split; [|reflexivity]. split; [discriminate | tauto].
Qed.

Lemma createPrescription_success_witness :
  code (snd (createPrescription Sample.as_doctor (Sample.one "consultation") 1
                                Sample.flu)) = 201%nat.
Proof.
  destruct (createPrescription_success Sample.as_doctor
              (Sample.one "consultation") 1 Sample.flu
              (Sample.appt "consultation") eq_refl) as [Hiff _].
  apply Hiff. split; [reflexivity|]. split; [reflexivity|].
  split; [intros p []|]. split; [reflexivity|]. split; [|discriminate].
  intros m [<- | []]. simpl. repeat split; discriminate.
Defined.

Lemma findOne_None_iff {A : Type} (f : A -> bool) (c : list A) :
  findOne f c = None <-> forall x, In x c -> f x = false.
Proof.
  unfold findOne. split; [apply find_none|].
  induction c as [|x c IH]; simpl; [reflexivity|].
  intros Hall. rewrite (Hall x (or_introl eq_refl)). apply IH.
  intros y Hy. apply Hall. now right.
Qed.

(** X20. A bookAppointment call that names an existing user with the role
    doctor is answered 201, and stores one pending appointment of the
    caller with that doctor at the requested time, when the dateTime is a
    valid instant after the current time, lies at least thirty minutes
    inside the range of valid dates, and every pending or confirmed
    appointment of the doctor is more than thirty minutes away.  When the
    dateTime does not parse to a valid date, or lies after the current
    time and less than thirty minutes from the end of the range of valid
    dates, the answer is 500 'Server error', not 400, and nothing is
    stored. *)
Theorem bookAppointment_success
    (env : Env) (st : Store) (d : ObjectId) (dt : JsDate) (n : option string)
    (doctor : User.t) :
  findById d (users st) = Some doctor ->
  User.role doctor = "doctor"%string ->
  let r := bookAppointment env st d dt n in
  (dt = None -> r = (st, server_error))
  /\ forall t, dt = Some t -> now env < t ->
       (t - minutes30 < - max_date \/ max_date < t + minutes30 ->
        r = (st, server_error))
       /\ (- max_date <= t - minutes30 -> t + minutes30 <= max_date ->
           (forall a, In a (appointments st) -> Appointment.doctorId a = d ->
              Appointment.status a = "pending"%string
              \/ Appointment.status a = "confirmed"%string ->
              Appointment.dateTime a < t - minutes30
              \/ t + minutes30 < Appointment.dateTime a) ->
           r = (with_appointments
                  (insert (Appointment.mk (new_id (appointments st))
                             (User._id (user env)) d t n "pending" (now env))
                          (appointments st)) st,
                json 201 "Appointment booked successfully")).
Proof.
  intros Hd Hrole r. subst r. unfold bookAppointment. rewrite Hd.
  apply String.eqb_eq in Hrole. rewrite Hrole. simpl. split.
  - intros ->. reflexivity.
  - intros t -> Hfut. simpl.
    assert (Hm : 0 < minutes30) by (unfold minutes30; lia).
    apply Z.leb_gt in Hfut. rewrite Hfut. split.
    + intros Hout.
      destruct (new_Date (t - minutes30)) as [lower|] eqn:Hlower;
        [|reflexivity].
      apply new_Date_Some in Hlower.
      rewrite new_Date_beyond;
        [reflexivity | unfold minutes30, max_date in *; lia].
    + intros Hlow Hhigh Hfree.
      rewrite (new_Date_in_range (t - minutes30))
        by (unfold minutes30, max_date in *; lia).
      rewrite (new_Date_in_range (t + minutes30))
        by (unfold minutes30, max_date in *; lia).
      assert (Hone : findOne (conflicting d (t - minutes30) (t + minutes30))
                             (appointments st) = None).
      { apply findOne_None_iff. intros a Hin. unfold conflicting.
        destruct (Appointment.doctorId a =? d)%nat eqn:E1; [|reflexivity].
        destruct (includes ["pending"; "confirmed"]%string (Appointment.status a))
          eqn:E2; [|now rewrite andb_false_r].
        apply Nat.eqb_eq in E1. apply includes_In in E2.
        assert (Hs : Appointment.status a = "pending"%string
                     \/ Appointment.status a = "confirmed"%string)
          by (simpl in E2; intuition).
        destruct (Hfree a Hin E1 Hs) as [Hlo | Hhi].
        - apply Z.leb_gt in Hlo. now rewrite Hlo.
        - apply Z.leb_gt in Hhi. rewrite Hhi. now rewrite andb_false_r. }
      now rewrite Hone.
Qed.

Lemma bookAppointment_success_witness :
  bookAppointment Sample.as_patient Sample.empty 20 None None
  = (Sample.empty, server_error)
  /\ code (snd (bookAppointment Sample.as_stranger (Sample.one "confirmed") 20
                                (Some 5400001) None)) = 201%nat
  /\ bookAppointment Sample.as_patient Sample.empty 20
                     (Some 8640000000000000) None
     = (Sample.empty, server_error).
Proof.
  split; [|split].
  - apply (bookAppointment_success Sample.as_patient Sample.empty 20 None None
             Sample.doctor eq_refl eq_refl). reflexivity.
  - destruct (bookAppointment_success Sample.as_stranger
                (Sample.one "confirmed") 20 (Some 5400001) None
                Sample.doctor eq_refl eq_refl) as [_ Hok].
    destruct (Hok 5400001 eq_refl eq_refl) as [_ Hfree].
    rewrite Hfree; [reflexivity | | |].
    + unfold minutes30, max_date. lia.
    + unfold minutes30, max_date. lia.
    + intros a [<- | []] _ _. left. unfold minutes30. simpl. lia.
  - destruct (bookAppointment_success Sample.as_patient Sample.empty 20
                (Some 8640000000000000) None Sample.doctor eq_refl eq_refl)
      as [_ Hlate].
    destruct (Hlate 8640000000000000 eq_refl eq_refl) as [Hout _].
    apply Hout. right. unfold minutes30, max_date. lia.
Defined.

(** ** The routes *)

Lemma findById_insert_fresh {A : Type} `{Document A} (d : A) (c : list A)
    (k : ObjectId) :
  doc_id d = new_id c -> k = new_id c -> findById k (insert d c) = Some d.
Proof. intros Hd ->. rewrite <- Hd. now apply findById_insert_new. Qed.

Lemma guarded_passed check env st k :
  code (snd (guarded check env st k)) = 200%nat
  \/ code (snd (guarded check env st k)) = 201%nat ->
  (forall r, check env = Some r -> code r = 403%nat) ->
  check env = None /\ guarded check env st k = k.
Proof.
  unfold guarded. intros Hcode H403.
  destruct (check env) as [r|] eqn:Hc; [|now split].
  simpl in Hcode. rewrite (H403 r eq_refl) in Hcode.
  destruct Hcode; discriminate.
Qed.

Lemma authorizeRoles_403 roles env r :
  authorizeRoles roles env = Some r -> code r = 403%nat.
Proof.
  unfold authorizeRoles. destruct (includes roles (User.role (user env)));
    [discriminate|]. intros Heq. injection Heq as <-. reflexivity.
Qed.

Lemma authorizeRoles_one role env :
  authorizeRoles [role] env = None -> User.role (user env) = role.
Proof.
  unfold authorizeRoles.
  destruct (includes [role] (User.role (user env))) eqn:Hinc; [|discriminate].
  intros _. apply includes_In in Hinc. destruct Hinc as [H | []]. now symmetry.
Qed.

(** X21. A booking accepted through the route POST /appointments/book can
    be read back.  The caller has the role patient; one pending
    appointment of the caller with the requested doctor at the requested
    time is added; it appears in the caller's getMyAppointments list and,
    under the status filter 'pending', in the list of that doctor; and
    getAppointmentById on its [_id] sends it to the caller, as long as the
    caller's account exists. *)
Theorem booked_appointment_is_listed
    (env : Env) (st : Store) (d : ObjectId) (dt : JsDate) (n : option string) :
  code (snd (route env st (BookAppointment d dt n))) = 201%nat ->
  let st' := fst (route env st (BookAppointment d dt n)) in
  User.role (user env) = "patient"%string
  /\ exists a,
       appointments st' = insert a (appointments st)
       /\ Appointment._id a = new_id (appointments st)
       /\ Appointment.patientId a = User._id (user env)
       /\ Appointment.doctorId a = d
       /\ Some (Appointment.dateTime a) = dt
       /\ Appointment.status a = "pending"%string
       /\ In a (getMyAppointments env st' None None)
       /\ (forall envd, User._id (user envd) = d ->
             User.role (user envd) = "doctor"%string ->
             In a (getMyAppointments envd st' (Some "pending"%string) None))
       /\ (findById (User._id (user env)) (users st) <> None ->
           getAppointmentById env st' (Appointment._id a) = Sent a).
Proof.
  intros Hcode st'. subst st'. simpl in Hcode |- *.
  destruct (guarded_passed isPatient env st (bookAppointment env st d dt n)
              (or_intror Hcode) (authorizeRoles_403 _ env)) as [Hrole Heq].
  apply authorizeRoles_one in Hrole. rewrite Heq in Hcode |- *.
  split; [exact Hrole|].
  revert Hcode. unfold bookAppointment.
  break_if; [discriminate|].
  destruct dt as [t|]; simpl; [|discriminate].
  break_if; [discriminate|].
  break_match; [|discriminate]. break_match; [|discriminate].
  break_match; [discriminate|]. simpl. intros _.
  eexists. split; [reflexivity|]. simpl.
  assert (Hlast : forall (x : Appointment.t) c, In x (insert x c))
    by (intros x c; apply in_or_app; right; now left).
  repeat split.
  - unfold getMyAppointments.
    apply (Permutation_in _ (sort_by_dateTime_perm _)).
    apply filter_In. split; [apply Hlast|].
    unfold my_filter. simpl. rewrite Hrole. simpl. now rewrite Nat.eqb_refl.
  - intros envd Hd Hdoc. unfold getMyAppointments.
    apply (Permutation_in _ (sort_by_dateTime_perm _)).
    apply filter_In. split; [apply Hlast|].
    unfold my_filter. simpl. rewrite Hdoc, Hd. simpl. now rewrite Nat.eqb_refl.
  - intros Hcaller. unfold getAppointmentById. simpl.
    erewrite findById_insert_fresh; [|reflexivity | reflexivity].
    unfold populated_check. simpl.
    destruct (findById (User._id (user env)) (users st)) as [u|] eqn:Hu;
      [|contradiction].
    pose proof (findById_id _ _ _ Hu) as [Huid _].
    change (doc_id u) with (User._id u) in Huid.
    rewrite Huid, Nat.eqb_refl. reflexivity.
Qed.

Lemma booked_appointment_is_listed_witness :
  User.role (user Sample.as_patient) = "patient"%string.
Proof.
  apply (booked_appointment_is_listed Sample.as_patient Sample.empty 20
                                      (Some 3600000) None).
  reflexivity.
Defined.

(** X22. Through the doctor-only routes a request succeeds only for the
    doctor concerned: when PUT /appointments/:id, the start-consultation
    route or POST /prescriptions/create is answered 200 or 201, the caller
    has the role doctor and is the doctor of the appointment; when PUT
    /prescriptions/:id is answered 200, the caller has the role doctor and
    is the doctor of the prescription, so the admin case of the handler's
    own test is never used through the route. *)
Theorem doctor_routes_need_the_owner (env : Env) (st : Store) (req : Request) :
  code (snd (route env st req)) = 200%nat
  \/ code (snd (route env st req)) = 201%nat ->
  match req with
  | UpdateAppointmentStatus id _ | StartConsultation id
  | CreatePrescription id _ =>
      User.role (user env) = "doctor"%string
      /\ exists a, findById id (appointments st) = Some a
                   /\ Appointment.doctorId a = User._id (user env)
  | UpdatePrescription id _ =>
      User.role (user env) = "doctor"%string
      /\ exists p, findById id (prescriptions st) = Some p
                   /\ Prescription.doctorId p = User._id (user env)
  | _ => True
  end.
Proof.
  intros Hcode.
  destruct req as [d t n | id s | a m d | pid s n | a b | id b | id];
    try exact I; simpl in Hcode;
    destruct (guarded_passed isDoctor env st _ Hcode (authorizeRoles_403 _ env))
      as [Hrole Heq];
    apply authorizeRoles_one in Hrole; rewrite Heq in Hcode;
    (split; [exact Hrole|]); revert Hcode.
  - unfold updateAppointmentStatus.
    break_if; [simpl; intuition discriminate|].
    destruct (findById id (appointments st)) as [x|];
      [|simpl; intuition discriminate].
    destruct (Appointment.doctorId x =? User._id (user env))%nat eqn:E;
      [|simpl; intuition discriminate].
    apply Nat.eqb_eq in E. intros _. now exists x.
  - unfold createPrescription.
    destruct (findById a (appointments st)) as [x|];
      [|simpl; intuition discriminate].
    destruct (Appointment.doctorId x =? User._id (user env))%nat eqn:E;
      [|simpl; intuition discriminate].
    apply Nat.eqb_eq in E. intros _. now exists x.
  - unfold updatePrescription.
    destruct (findById id (prescriptions st)) as [x|];
      [|simpl; intuition discriminate].
    destruct (Prescription.doctorId x =? User._id (user env))%nat eqn:E.
    + apply Nat.eqb_eq in E. intros _. now exists x.
    + rewrite Hrole. simpl. intuition discriminate.
  - unfold startConsultation.
    destruct (findById id (appointments st)) as [x|];
      [|simpl; intuition discriminate].
    destruct (Appointment.doctorId x =? User._id (user env))%nat eqn:E;
      [|simpl; intuition discriminate].
    apply Nat.eqb_eq in E. intros _. now exists x.
Qed.

Lemma doctor_routes_need_the_owner_witness :
  User.role (user Sample.as_doctor) = "doctor"%string
  /\ exists a, findById 1 (appointments (Sample.one "paid")) = Some a
               /\ Appointment.doctorId a = User._id (user Sample.as_doctor).
Proof.
  apply (doctor_routes_need_the_owner Sample.as_doctor (Sample.one "paid")
                                      (StartConsultation 1)).
  left. reflexivity.
Defined.

(** ** The prescription form *)

Lemma nonempty_trim (trim : string -> string) (s : string) :
  trim ""%string = ""%string -> nonempty (trim s) = true -> s <> ""%string.
Proof. intros Htrim Hne ->. rewrite Htrim in Hne. discriminate. Qed.

(** X23. A prescription form that passes the client's validateForm is not
    rejected by the server's schema validation.  For any [trim] that maps
    the empty string to itself: when the form validates, its follow-up
    date trims to the empty string or parses to a valid date, and the
    caller is a doctor sending it for an appointment of theirs that is in
    consultation and has no prescription, handleCreatePrescription sends
    one request, which is answered 201; the stored prescription holds the
    trimmed diagnosis and exactly the rows whose name, dosage, frequency
    and duration are filled, in the order of the form, and at least one
    row. *)
Theorem validated_form_is_accepted
    (trim : string -> string) (parseDate : string -> JsDate)
    (env : Env) (st : Store) (id : ObjectId) (form : PrescriptionForm)
    (a : Appointment.t) :
  trim ""%string = ""%string ->
  validateForm trim form = true ->
  (trim (f_followUpDate form) = ""%string
   \/ parseDate (trim (f_followUpDate form)) <> None) ->
  User.role (user env) = "doctor"%string ->
  findById id (appointments st) = Some a ->
  Appointment.doctorId a = User._id (user env) ->
  Appointment.status a = "consultation"%string ->
  (forall p, In p (prescriptions st) -> Prescription.appointmentId p <> id) ->
  exists p,
    handleCreatePrescription trim parseDate env st id None form
    = Some (with_prescriptions (insert p (prescriptions st)) st,
            json 201 "Prescription created successfully")
    /\ Prescription.appointmentId p = id
    /\ Prescription.diagnosis p = trim (f_diagnosis form)
    /\ Prescription.medications p
       = map medication_of_row (validMedications trim form)
    /\ Prescription.medications p <> [].
Proof.
  intros Htrim Hvalid Hdate Hrole Ha Hdoc Hst Hnone.
  unfold handleCreatePrescription. rewrite Hvalid. simpl.
  unfold guarded, isDoctor, authorizeRoles. rewrite Hrole. simpl.
  unfold createPrescription. rewrite Ha.
  apply Nat.eqb_eq in Hdoc. rewrite Hdoc. simpl.
  apply String.eqb_eq in Hst. rewrite Hst. simpl.
  assert (Hone : findOne (fun p => (Prescription.appointmentId p =? id)%nat)
                         (prescriptions st) = None).
  { apply (findOne_key_None Prescription.appointmentId). intros Hin.
    apply in_map_iff in Hin. destruct Hin as [p [Hk Hin]].
    exact (Hnone p Hin Hk). }
  rewrite Hone.
  unfold validateForm in Hvalid.
  destruct (nonempty (trim (f_diagnosis form))) eqn:Hdiag; [|discriminate].
  simpl in Hvalid.
  destruct (List.length (validMedications trim form) =? 0)%nat eqn:Hlen;
    [discriminate|].
  assert (Hcast : date_castable
                    (if nonempty (trim (f_followUpDate form))
                     then Some (parseDate (trim (f_followUpDate form)))
                     else None) = true).
  { destruct Hdate as [-> | Hparse]; [reflexivity|].
    destruct (nonempty (trim (f_followUpDate form))); [|reflexivity].
    destruct (parseDate (trim (f_followUpDate form))); [reflexivity|].
    contradiction. }
  assert (Hmeds : forallb medication_valid
                    (map medication_of_row (validMedications trim form)) = true).
  { apply forallb_forall. intros m Hm. apply in_map_iff in Hm.
    destruct Hm as [row [<- Hrow]]. unfold validMedications in Hrow.
    apply filter_In in Hrow. destruct Hrow as [_ Hrow].
    repeat (apply andb_prop in Hrow; destruct Hrow as [Hrow ?]).
    unfold medication_valid, medication_of_row. simpl.
    repeat match goal with
           | H : nonempty (trim _) = true |- _ =>
               apply (nonempty_trim trim _ Htrim) in H;
               apply String.eqb_neq in H; rewrite H
           end.
    reflexivity. }
  simpl. rewrite Hcast. unfold prescription_valid. simpl.
  unfold nonempty in Hdiag. rewrite Hdiag, Hmeds. simpl.
  eexists. split; [reflexivity|]. simpl. repeat split.
  intros Hnil. apply Nat.eqb_neq in Hlen. apply Hlen.
  apply (f_equal (@List.length Medication)) in Hnil.
  rewrite length_map in Hnil. exact Hnil.
Qed.

Lemma validated_form_is_accepted_witness :
  exists p,
    handleCreatePrescription trim_spaces Screen.no_date Sample.as_doctor
      (Sample.one "consultation") 1 None Screen.filled
    = Some (with_prescriptions
              (insert p (prescriptions (Sample.one "consultation")))
              (Sample.one "consultation"),
            json 201 "Prescription created successfully")
    /\ Prescription.diagnosis p = "Flu"%string
    /\ List.length (Prescription.medications p) = 1%nat.
Proof.
  destruct (validated_form_is_accepted trim_spaces Screen.no_date
              Sample.as_doctor (Sample.one "consultation") 1 Screen.filled
              (Sample.appt "consultation"))
    as [p [Hsent [_ [Hdiag [Hmeds _]]]]];
    try reflexivity.
  - left. reflexivity.
  - intros p [].
  - exists p. split; [exact Hsent|]. rewrite Hdiag, Hmeds. split; reflexivity.
Defined.

Lemma without_index_length {A : Type} (index : nat) (l : list A) :
  List.length (without_index index l)
  = if (index <? List.length l)%nat
    then Nat.pred (List.length l) else List.length l.
Proof.
  revert index. induction l as [|x l IH]; intros index; simpl.
  - now destruct index.
  - destruct index as [|i]; simpl; [reflexivity|].
    rewrite IH. change (S i <? S (List.length l))%nat
      with (i <? List.length l)%nat.
    destruct (i <? List.length l)%nat eqn:E; [|reflexivity].
    apply Nat.ltb_lt in E. destruct (List.length l); [lia | reflexivity].
Qed.

(** X24. The form never loses its last medication row.  removeMedication
    leaves a list of one row (or none) as it is; on a longer list it
    removes the row at the index, and nothing when the index is past the
    end; so a list that is not empty stays not empty.  addMedication makes
    the list one row longer. *)
Theorem form_keeps_a_row (index : nat) (medications : list FormMedication) :
  List.length (removeMedication index medications)
  = (if (1 <? List.length medications)%nat
        && (index <? List.length medications)%nat
     then Nat.pred (List.length medications)
     else List.length medications)
  /\ (medications <> [] -> removeMedication index medications <> [])
  /\ List.length (addMedication medications) = S (List.length medications).
Proof.
  assert (Hlen : List.length (removeMedication index medications)
                 = if (1 <? List.length medications)%nat
                      && (index <? List.length medications)%nat
                   then Nat.pred (List.length medications)
                   else List.length medications).
  { unfold removeMedication.
    destruct (1 <? List.length medications)%nat eqn:E; simpl; [|reflexivity].
    apply without_index_length. }
  split; [exact Hlen|]. split.
  - intros Hne Hnil. rewrite Hnil in Hlen. simpl in Hlen.
    destruct medications as [|m [|m' l]]; [contradiction | |].
    + simpl in Hlen. discriminate.
    + simpl in Hlen.
      destruct (index <? S (S (List.length l)))%nat; discriminate.
  - unfold addMedication. rewrite length_app. simpl. lia.
Qed.

Lemma form_keeps_a_row_witness :
  removeMedication 0 [blank_medication] <> [].
Proof.
  apply (form_keeps_a_row 0 [blank_medication]). discriminate.
Defined.

(** ** generateTransactionId *)

Lemma string_append_length (s1 s2 : string) :
  String.length (s1 ++ s2) = (String.length s1 + String.length s2)%nat.
Proof. induction s1 as [|c s1 IH]; simpl; [reflexivity | now rewrite IH]. Qed.

Lemma string_append_same_suffix_length (a b r1 r2 : string) :
  (a ++ r1 = b ++ r2)%string -> String.length r1 = String.length r2 ->
  a = b /\ r1 = r2.
Proof.
  revert b. induction a as [|c a IH]; intros b Heq Hlen.
  - destruct b as [|c' b]; simpl in Heq; [now split|].
    exfalso. apply (f_equal String.length) in Heq. simpl in Heq.
    rewrite string_append_length in Heq. lia.
  - destruct b as [|c' b]; simpl in Heq.
    + exfalso. apply (f_equal String.length) in Heq. simpl in Heq.
      rewrite string_append_length in Heq. lia.
    + injection Heq as -> Heq. destruct (IH b Heq Hlen) as [-> ->]. now split.
Qed.

Lemma decimal_injective (z1 z2 : Z) :
  NilZero.string_of_int (Z.to_int z1) = NilZero.string_of_int (Z.to_int z2) ->
  z1 = z2.
Proof.
  intros Heq.
  assert (Hparse : forall z, NilZero.int_of_string
                               (NilZero.string_of_int (Z.to_int z))
                             = Some (Z.to_int z)).
  { intros z. apply NilZero.isi; destruct z; simpl; try discriminate;
      intros H; injection H as H;
      exact (DecimalPos.Unsigned.to_uint_nonnil _ H). }
  apply DecimalZ.to_int_inj.
  pose proof (Hparse z1) as H1. rewrite Heq, Hparse in H1. congruence.
Qed.

(** X25. generateTransactionId gives 'TXN', the clock in decimal and the
    random suffix.  Two identifiers whose random suffixes have the same
    length are equal only when the clock readings are equal and the
    suffixes are equal: with suffixes of one length, identifiers drawn at
    different milliseconds differ. *)
Theorem generateTransactionId_injective (e1 e2 : Env) :
  String.length (rnd e1) = String.length (rnd e2) ->
  generateTransactionId e1 = generateTransactionId e2 ->
  now e1 = now e2 /\ rnd e1 = rnd e2.
Proof.
  unfold generateTransactionId. intros Hlen Heq.
  injection Heq as Heq.
  apply string_append_same_suffix_length in Heq; [|exact Hlen].
  destruct Heq as [Hdec Hrnd]. split; [|exact Hrnd].
  now apply decimal_injective.
Qed.

Lemma generateTransactionId_injective_witness :
  now Sample.as_patient = now Sample.as_doctor
  /\ rnd Sample.as_patient = rnd Sample.as_doctor.
Proof.
  apply generateTransactionId_injective; reflexivity.
Defined.

(** Without the condition on the lengths the identifier does not determine
    the clock: a shorter suffix after a longer clock reading gives the same
    text. *)
Example generateTransactionId_ambiguous :
  generateTransactionId (mkEnv Sample.patient 1 "23")
  = generateTransactionId (mkEnv Sample.patient 12 "3").
Proof. reflexivity. Qed.

(** ** updateAppointmentStatus and getPaymentByAppointment: the outcomes *)

(** X26. updateAppointmentStatus on a stored appointment and a status of
    the enum: a caller who is not the appointment's doctor is answered 403
    'Not authorized' and nothing is written; the appointment's doctor is
    answered 200, the appointment is stored with the new status and its
    other fields as before, and every other appointment is read back
    unchanged. *)
Theorem updateAppointmentStatus_spec
    (env : Env) (st : Store) (id : ObjectId) (status : string)
    (a : Appointment.t) :
  In status Appointment.statuses ->
  findById id (appointments st) = Some a ->
  let r := updateAppointmentStatus env st id status in
  (Appointment.doctorId a <> User._id (user env) ->
   r = (st, json 403 "Not authorized"))
  /\ (Appointment.doctorId a = User._id (user env) ->
      snd r = json 200 "Appointment status updated successfully"
      /\ findById id (appointments (fst r))
         = Some (Appointment.mk (Appointment._id a) (Appointment.patientId a)
                   (Appointment.doctorId a) (Appointment.dateTime a)
                   (Appointment.note a) status (Appointment.createdAt a))
      /\ (forall k, k <> id ->
            findById k (appointments (fst r)) = findById k (appointments st))
      /\ users (fst r) = users st
      /\ payments (fst r) = payments st
      /\ prescriptions (fst r) = prescriptions st).
Proof.
  intros Hs Ha r. subst r. unfold updateAppointmentStatus.
  apply includes_In in Hs. rewrite Hs, Ha. simpl.
  pose proof (findById_id _ _ _ Ha) as [Hid _].
  split.
  - intros Hne. apply Nat.eqb_neq in Hne. now rewrite Hne.
  - intros Hdoc. apply Nat.eqb_eq in Hdoc. rewrite Hdoc. simpl.
    split; [reflexivity|]. split; [|split; [|repeat split]].
    + eapply findById_save_found; [exact Ha | exact Hid].
    + intros k Hk. apply findById_save_other.
      intros Heq. apply Hk. rewrite Heq. exact Hid.
Qed.

Lemma updateAppointmentStatus_spec_witness :
  updateAppointmentStatus Sample.as_patient (Sample.one "pending") 1 "confirmed"
  = (Sample.one "pending", json 403 "Not authorized").
Proof.
  assert (Hs : In "confirmed"%string Appointment.statuses) by (simpl; tauto).
  destruct (updateAppointmentStatus_spec Sample.as_patient
              (Sample.one "pending") 1 "confirmed" (Sample.appt "pending")
              Hs eq_refl) as [Hrefused _].
  apply Hrefused. discriminate.
Defined.

(** X27. getPaymentByAppointment checks, in this order: an unknown
    appointment is answered 404 'Appointment not found'; a caller who is
    neither the appointment's patient nor its doctor nor an admin 403; an
    appointment without payment 404 'No payment found for this
    appointment'. *)
Theorem getPaymentByAppointment_errors
    (env : Env) (st : Store) (id : ObjectId) :
  (findById id (appointments st) = None ->
   getPaymentByAppointment env st id
   = Failed (json 404 "Appointment not found"))
  /\ forall a, findById id (appointments st) = Some a ->
       (Appointment.patientId a <> User._id (user env) ->
        Appointment.doctorId a <> User._id (user env) ->
        User.role (user env) <> "admin"%string ->
        getPaymentByAppointment env st id = Failed (json 403 "Not authorized"))
       /\ (Appointment.patientId a = User._id (user env)
           \/ Appointment.doctorId a = User._id (user env)
           \/ User.role (user env) = "admin"%string ->
           (forall p, In p (payments st) -> Payment.appointmentId p <> id) ->
           getPaymentByAppointment env st id
           = Failed (json 404 "No payment found for this appointment")).
Proof.
  unfold getPaymentByAppointment. split.
  - intros Hnone. now rewrite Hnone.
  - intros a Ha. rewrite Ha. split.
    + intros H1 H2 H3. apply Nat.eqb_neq in H1, H2. apply String.eqb_neq in H3.
      now rewrite H1, H2, H3.
    + intros Hauth Hnone.
      assert (Hok : (Appointment.patientId a =? User._id (user env))%nat
                    || (Appointment.doctorId a =? User._id (user env))%nat
                    || (User.role (user env) =? "admin")%string = true).
      { destruct Hauth as [H | [H | H]].
        - apply Nat.eqb_eq in H. now rewrite H.
        - apply Nat.eqb_eq in H. rewrite H. now rewrite orb_true_r.
        - apply String.eqb_eq in H. rewrite H. now rewrite orb_true_r. }
      rewrite Hok. simpl.
      assert (Hone : findOne (fun p => (Payment.appointmentId p =? id)%nat)
                             (payments st) = None).
      { apply (findOne_key_None Payment.appointmentId). intros Hin.
        apply in_map_iff in Hin. destruct Hin as [p [Hk Hin]].
        exact (Hnone p Hin Hk). }
      now rewrite Hone.
Qed.

Lemma getPaymentByAppointment_errors_witness :
  getPaymentByAppointment Sample.as_patient (Sample.one "confirmed") 1
  = Failed (json 404 "No payment found for this appointment").
Proof.
  destruct (getPaymentByAppointment_errors Sample.as_patient
              (Sample.one "confirmed") 1) as [_ Hfound].
  destruct (Hfound (Sample.appt "confirmed") eq_refl) as [_ Hnone].
  apply Hnone; [left; reflexivity | intros p []].
Defined.
